(** * diagmagic: IPython cell magics around the blockdiag family of tools

    A shallow embedding of [diagmagic.py].  The module keeps its
    configuration in module-level variables, stages the cell text in a
    temporary directory, runs an external executable and publishes the
    bytes of the file that executable is expected to leave behind.

    The module is read as the Python 2 program it was written as: it
    imports [imp] and [pipes], falls back to [md5], and writes the
    encoded cell text to a file opened in mode ["w"], which only a
    Python 2 file object accepts.

    The embedding is organised as follows.
    - [PyStr]: the string primitives the module uses ([find], slices,
      [lower], [int], [str]), on text given by its UTF-8 bytes.
    - [Exec]: a state-and-exception monad over a [World] holding the
      module globals, the file system, [sys.argv], the error stream, the
      display channel, the magics registered with the host and a log of
      the observable system calls.
    - [Os]: the file-system and process primitives ([tempfile], [os],
      [io.open], [subprocess.call]).
    - [Diagmagic]: the module itself, one definition per source function.
    - [Fixtures]: a few concrete platforms to run the module on.
    - [Pipeline]: [diag] cut into its phases, and the vocabulary in which
      the properties are stated.
    - Properties: laws of the monad, facts about paths and listings,
      frame rules, the phases of [diag] one by one, and then the
      properties of the commands. *)

From Stdlib Require Import ZArith Ascii String List Lia.
From Stdlib.Strings Require Import Byte.
From stdpp Require Import base tactics option list gmap strings pretty.

Open Scope Z_scope.

(** ** Python string primitives *)

Module PyStr.

(** [s[:n]] and [s[n:]] for a non-negative [n]. *)
Fixpoint take (n : nat) (s : string) : string :=
  match n, s with
  | S n', String c s' => String c (take n' s')
  | _, _ => ""
  end.

Fixpoint drop (n : nat) (s : string) : string :=
  match n, s with
  | S n', String _ s' => drop n' s'
  | _, _ => s
  end.

(** Text is represented by its UTF-8 bytes: a character within ASCII is
    one byte below 128, a character beyond ASCII is a lead byte followed
    by continuation bytes (128 to 191).  A position in a text is
    represented by the byte offset of the character it points at, which
    is what [take], [drop] and [find] count; a negative index counts
    characters from the end, as in Python. *)
Definition is_continuation (a : ascii) : bool :=
  let n := N_of_ascii a in ((128 <=? n) && (n <? 192))%N.

(** [drop_chars k r] takes the last [k] characters off a text given in
    reverse, [r]: the continuation bytes of a character come first
    there and go with its lead byte. *)
Fixpoint drop_chars (k : nat) (r : string) : string :=
  match r with
  | "" => ""
  | String a r' =>
      match k with
      | O => r
      | S k' => if is_continuation a then drop_chars k r' else drop_chars k' r'
      end
  end.

(** Python normalises a negative slice bound by adding the length and
    clamping at zero: the bound [-k] stands where the last [k]
    characters begin.  A bound past the end is clamped to the length
    (which [take] and [drop] do by themselves). *)
Definition norm_index (s : string) (i : Z) : nat :=
  if i <? 0 then String.length (drop_chars (Z.to_nat (- i)) (String.rev s))
  else Z.to_nat i.

(** [s[:i]] *)
Definition slice_to (s : string) (i : Z) : string := take (norm_index s i) s.

(** [s[i:]] *)
Definition slice_from (s : string) (i : Z) : string := drop (norm_index s i) s.

(** [s.find(c)] for a one-character needle: the lowest index of [c] in
    [s], or [-1] when [c] does not occur. *)
Fixpoint find_from (c : ascii) (s : string) (i : Z) : Z :=
  match s with
  | "" => -1
  | String a s' => if Ascii.eqb a c then i else find_from c s' (i + 1)
  end.

Definition find (s : string) (c : ascii) : Z := find_from c s 0.

(** [s.lower()] on ASCII letters. *)
Definition lower_ascii (a : ascii) : ascii :=
  let n := N_of_ascii a in
  if ((65 <=? n) && (n <=? 90))%N then ascii_of_N (n + 32) else a.

Fixpoint lower (s : string) : string :=
  match s with
  | "" => ""
  | String a s' => String (lower_ascii a) (lower s')
  end.

(** [str(n)] for an integer. *)
Definition str (n : Z) : string := pretty n.

(** [int(s)] for a text [s] goes through two steps, as
    [PyInt_FromUnicode] does.  The second, [PyInt_FromString], reads a
    buffer of plain characters: surrounding white space is dropped, one
    sign is allowed, and what remains must be a non-empty run of the
    digits [0] to [9]; anything else is a [ValueError], rendered as
    [None]. *)
Fixpoint lstrip (s : string) : string :=
  match s with
  | String a s' => if Ascii.is_space a then lstrip s' else s
  | "" => ""
  end.

Definition rstrip (s : string) : string := String.rev (lstrip (String.rev s)).

Definition strip (s : string) : string := rstrip (lstrip s).

Fixpoint digits (acc : Z) (s : string) : option Z :=
  match s with
  | "" => Some acc
  | String a s' =>
      match Ascii.is_nat a with
      | Some d => digits (10 * acc + Z.of_nat d) s'
      | None => None
      end
  end.

Definition unsigned_int (s : string) : option Z :=
  match s with
  | "" => None
  | _ => digits 0 s
  end.

Definition int_from_string (s : string) : option Z :=
  match strip s with
  | String "+" s' => unsigned_int s'
  | String "-" s' => Z.opp <$> unsigned_int s'
  | s' => unsigned_int s'
  end.

(** The first step, [PyUnicode_EncodeDecimal], fills that buffer one
    character at a time: white space becomes a blank, a decimal digit of
    any script becomes the digit [0] to [9] of its value, and any other
    character is kept if it is below 256 (the second step then rejects
    it, since it is no digit, sign or blank) and is an encoding error, a
    [ValueError] as well, otherwise.  Which characters beyond ASCII are
    digits or white space is a matter of the interpreter's character
    table; the table is asked with the UTF-8 bytes of one character. *)
Inductive uclass :=
| UDigit (d : nat)
| USpace
| UOther.

(** White space within ASCII, for a text: tab to carriage return, the
    four separators 28 to 31, and the blank. *)
Definition is_uspace (a : ascii) : bool :=
  let n := N_of_ascii a in
  (((9 <=? n) && (n <=? 13)) || ((28 <=? n) && (n <=? 31)) || (n =? 32))%N.

Definition digit_char (d : nat) : option string :=
  if (d <? 10)%nat then Some (String (ascii_of_nat (48 + d)) "") else None.

(** A character within ASCII; the character 0 is not encodable. *)
Definition encode_ascii (a : ascii) : option string :=
  if is_uspace a then Some " "
  else if (N_of_ascii a =? 0)%N then None
  else Some (String a "").

(** A character beyond ASCII, given by its bytes [c] ([""] when there
    is none to encode). *)
Definition encode_beyond (table : string → uclass) (c : string) : option string :=
  match c with
  | "" => Some ""
  | _ =>
      match table c with
      | UDigit d => digit_char d
      | USpace => Some " "
      | UOther => None
      end
  end.

(** [encode_decimal_go table c s] encodes the text [s], where [c] holds
    the bytes read so far of a character beyond ASCII. *)
Fixpoint encode_decimal_go (table : string → uclass) (c : string) (s : string)
    : option string :=
  match s with
  | "" => encode_beyond table c
  | String a s' =>
      if is_continuation a && negb (String.eqb c "")
      then encode_decimal_go table (c +:+ String a "") s'
      else
        match encode_beyond table c with
        | None => None
        | Some out =>
            if (N_of_ascii a <? 128)%N then
              match encode_ascii a, encode_decimal_go table "" s' with
              | Some b, Some rest => Some (out +:+ b +:+ rest)
              | _, _ => None
              end
            else
              match encode_decimal_go table (String a "") s' with
              | Some rest => Some (out +:+ rest)
              | None => None
              end
        end
  end.

Definition encode_decimal (table : string → uclass) (s : string) : option string :=
  encode_decimal_go table "" s.

Definition int (table : string → uclass) (s : string) : option Z :=
  match encode_decimal table s with
  | Some buffer => int_from_string buffer
  | None => None
  end.

(** [text.encode('utf-8')]: text is represented by its UTF-8 bytes. *)
Definition encode_utf8 (s : string) : list byte := String.list_byte_of_string s.

End PyStr.

(** ** Worlds, exceptions and the execution monad *)

Module Exec.

(** The error numbers the primitives below can report. *)
Inductive errno := EPERM | ENOENT | ENOEXEC | ENOMEM | EACCES | ENOTDIR | EISDIR | ENOTEMPTY.

(** The Python exceptions that occur in the module. *)
Inductive exn :=
| OSError (e : errno)
| IOError (e : errno)
| ValueError (literal : string)
| TypeError (msg : string)
| CalledProcessError (returncode : Z) (cmd : list string) (output : string).

Inductive result (A : Type) :=
| Return (a : A)
| Raise (e : exn).
Arguments Return {A} a.
Arguments Raise {A} e.

(** The file system maps an absolute path to what is stored there.  A
    path [d/n] with no further slash in [n] is an entry of directory [d]. *)
Inductive node :=
| File (data : list byte)
| Dir.

(** What an attempt to start an executable leads to: either the process
    ran to its end, leaving an exit status and a file system, or the
    operating system refused to start it. *)
Inductive spawned :=
| Exited (returncode : Z) (files : gmap string node)
| LaunchFailed (e : errno).

(** The platform is what the module finds around itself and cannot
    change: [os.name], [os.uname()[0]], the behaviour of every
    executable that can be started (the first argument of [spawn] is the
    [dwFlags] of the [startupinfo], if one is passed), and the
    interpreter's table of the characters beyond ASCII. *)
Record Platform := {
  os_name : string;
  uname_sysname : string;
  spawn : option Z → list string → gmap string node → spawned;
  unicode : string → PyStr.uclass
}.

(** The module-level variables of [diagmagic.py]. *)
Record Globals := {
  _draw_mode : string;
  _publish_mode : string;
  _size : Z * Z;
  _inkscape_available : option bool;
  _loaded : bool
}.

(** One payload handed to [publish_display_data]. *)
Record Published := {
  source : string;
  mime : string;
  payload : list byte
}.

Inductive magic_kind := LineMagic | CellMagic.

(** The system calls that are logged, in the order they are made. *)
Inductive event :=
| EvMkdtemp (d : string)
| EvArgv (argv : list string)
| EvSpawn (args : list string)
| EvOpen (path : string).

Record World := {
  platform : Platform;
  globals : Globals;
  fs : gmap string node;
  sys_argv : list string;
  stderr : list string;
  display : list Published;
  registered : list (string * magic_kind * string);
  trace : list event
}.

(** Assignments to the module-level variables. *)
Definition set_draw_mode (v : string) (g : Globals) : Globals :=
  {| _draw_mode := v; _publish_mode := _publish_mode g; _size := _size g;
     _inkscape_available := _inkscape_available g; _loaded := _loaded g |}.

Definition set_publish_mode (v : string) (g : Globals) : Globals :=
  {| _draw_mode := _draw_mode g; _publish_mode := v; _size := _size g;
     _inkscape_available := _inkscape_available g; _loaded := _loaded g |}.

Definition set_size (v : Z * Z) (g : Globals) : Globals :=
  {| _draw_mode := _draw_mode g; _publish_mode := _publish_mode g; _size := v;
     _inkscape_available := _inkscape_available g; _loaded := _loaded g |}.

Definition set_inkscape_available (v : option bool) (g : Globals) : Globals :=
  {| _draw_mode := _draw_mode g; _publish_mode := _publish_mode g; _size := _size g;
     _inkscape_available := v; _loaded := _loaded g |}.

Definition set_loaded (v : bool) (g : Globals) : Globals :=
  {| _draw_mode := _draw_mode g; _publish_mode := _publish_mode g; _size := _size g;
     _inkscape_available := _inkscape_available g; _loaded := v |}.

(** Updates of one component of the world.  An assignment to
    [sys.argv] is logged, and [log] adds an event to the log. *)
Definition with_globals (f : Globals → Globals) (w : World) : World :=
  {| platform := platform w; globals := f (globals w); fs := fs w;
     sys_argv := sys_argv w; stderr := stderr w; display := display w;
     registered := registered w; trace := trace w |}.

Definition with_fs (f : gmap string node → gmap string node) (w : World) : World :=
  {| platform := platform w; globals := globals w; fs := f (fs w);
     sys_argv := sys_argv w; stderr := stderr w; display := display w;
     registered := registered w; trace := trace w |}.

Definition with_argv (v : list string) (w : World) : World :=
  {| platform := platform w; globals := globals w; fs := fs w;
     sys_argv := v; stderr := stderr w; display := display w;
     registered := registered w; trace := trace w ++ [EvArgv v] |}.

Definition with_stderr (line : string) (w : World) : World :=
  {| platform := platform w; globals := globals w; fs := fs w;
     sys_argv := sys_argv w; stderr := stderr w ++ [line]; display := display w;
     registered := registered w; trace := trace w |}.

Definition with_display (p : Published) (w : World) : World :=
  {| platform := platform w; globals := globals w; fs := fs w;
     sys_argv := sys_argv w; stderr := stderr w; display := display w ++ [p];
     registered := registered w; trace := trace w |}.

Definition with_registered (l : list (string * magic_kind * string)) (w : World) : World :=
  {| platform := platform w; globals := globals w; fs := fs w;
     sys_argv := sys_argv w; stderr := stderr w; display := display w;
     registered := registered w ++ l; trace := trace w |}.

Definition log (e : event) (w : World) : World :=
  {| platform := platform w; globals := globals w; fs := fs w;
     sys_argv := sys_argv w; stderr := stderr w; display := display w;
     registered := registered w; trace := trace w ++ [e] |}.

(** A computation runs in a world and either returns a value or raises;
    the world it leaves behind is kept in both cases. *)
Definition M (A : Type) : Type := World → result A * World.

#[export] Instance M_ret : MRet M := λ A a w, (Return a, w).

#[export] Instance M_bind : MBind M := λ A B k m w,
  match m w with
  | (Return a, w') => k a w'
  | (Raise e, w') => (Raise e, w')
  end.

Definition raise {A} (e : exn) : M A := λ w, (Raise e, w).

Definition gets {A} (f : World → A) : M A := λ w, (Return (f w), w).

Definition modify (f : World → World) : M unit := λ w, (Return tt, f w).

(** [try: m  except e: h e] *)
Definition try_except {A} (m : M A) (h : exn → M A) : M A := λ w,
  match m w with
  | (Return a, w') => (Return a, w')
  | (Raise e, w') => h e w'
  end.

(** [try: m  finally: fin].  The [finally] block runs in the world the
    body left; an exception raised by it replaces the body's outcome. *)
Definition try_finally {A} (m : M A) (fin : M unit) : M A := λ w,
  match m w with
  | (r, w') =>
      match fin w' with
      | (Return _, w'') => (r, w'')
      | (Raise e, w'') => (Raise e, w'')
      end
  end.

(** [for x in l: body x] *)
Fixpoint for_each {A} (l : list A) (body : A → M unit) : M unit :=
  match l with
  | [] => mret tt
  | x :: l' => body x;; for_each l' body
  end.

End Exec.

(** ** Operating-system primitives *)

Module Os.
Import Exec.

(** [strip_prefix p s] is [Some r] exactly when [s = p ++ r]. *)
Fixpoint strip_prefix (p s : string) : option string :=
  match p, s with
  | "", _ => Some s
  | String a p', String b s' => if Ascii.eqb a b then strip_prefix p' s' else None
  | String _ _, "" => None
  end.

Fixpoint has_slash (s : string) : bool :=
  match s with
  | "" => false
  | String a s' => Ascii.eqb a "/" || has_slash s'
  end.

(** The name under which path [k] appears in directory [d], if it is an
    entry of [d]. *)
Definition entry_name (d k : string) : option string :=
  match strip_prefix (d +:+ "/") k with
  | Some n => if has_slash n then None else Some n
  | None => None
  end.

(** The names [os.listdir(d)] reports (in no particular order). *)
Definition entries (files : gmap string node) (d : string) : list string :=
  omap (entry_name d) (map_to_list files).*1.

(** Temporary names.  [tempfile] draws random candidates until one is
    unused; the model picks a name that is unused because it is longer
    than every name it has to avoid. *)
Fixpoint longest (l : list string) : nat :=
  match l with
  | [] => O
  | s :: l' => Nat.max (String.length s) (longest l')
  end.

Fixpoint pad (n : nat) : string :=
  match n with
  | O => ""
  | S n' => String "x" (pad n')
  end.

Definition fresh_name (prefix : string) (taken : list string) : string :=
  prefix +:+ pad (S (longest taken)).

(** [tempfile.mkdtemp()] *)
Definition mkdtemp : M string := λ w,
  let d := fresh_name "/tmp/tmp" (map_to_list (fs w)).*1 in
  (Return d, log (EvMkdtemp d) (with_fs (insert d Dir) w)).

(** [tempfile.mkstemp(dir=d)] followed by [os.fdopen(fd, "w")]: an empty
    file under a name not yet used in [d].  The descriptor is identified
    with the path. *)
Definition mkstemp (d : string) : M string := λ w,
  match fs w !! d with
  | Some Dir =>
      let p := d +:+ "/" +:+ fresh_name "tmp" (entries (fs w) d) in
      (Return p, with_fs (insert p (File [])) w)
  | Some (File _) => (Raise (OSError ENOTDIR), w)
  | None => (Raise (OSError ENOENT), w)
  end.

(** [f.write(data); f.close()] on the descriptor [mkstemp] returned. *)
Definition write_close (p : string) (data : list byte) : M unit :=
  modify (with_fs (insert p (File data))).

(** [with io.open(p, 'rb') as f: data = f.read(); f.close()] *)
Definition read_binary (p : string) : M (list byte) := λ w,
  let w := log (EvOpen p) w in
  match fs w !! p with
  | Some (File data) => (Return data, w)
  | Some Dir => (Raise (IOError EISDIR), w)
  | None => (Raise (IOError ENOENT), w)
  end.

(** [os.listdir(d)] *)
Definition listdir (d : string) : M (list string) := λ w,
  match fs w !! d with
  | Some Dir => (Return (entries (fs w) d), w)
  | Some (File _) => (Raise (OSError ENOTDIR), w)
  | None => (Raise (OSError ENOENT), w)
  end.

(** [os.unlink(p)] *)
Definition unlink (p : string) : M unit := λ w,
  match fs w !! p with
  | Some (File _) => (Return tt, with_fs (delete p) w)
  | Some Dir => (Raise (OSError EISDIR), w)
  | None => (Raise (OSError ENOENT), w)
  end.

(** [os.rmdir(d)] *)
Definition rmdir (d : string) : M unit := λ w,
  match fs w !! d with
  | Some Dir =>
      match entries (fs w) d with
      | [] => (Return tt, with_fs (delete d) w)
      | _ :: _ => (Raise (OSError ENOTEMPTY), w)
      end
  | Some (File _) => (Raise (OSError ENOTDIR), w)
  | None => (Raise (OSError ENOENT), w)
  end.

(** [subprocess.call(args, startupinfo=si)]: waits for the process and
    returns its exit status; raises [OSError] when the process cannot be
    started.  It raises nothing else: [CalledProcessError] belongs to
    [check_call] and [check_output]. *)
Definition subprocess_call (args : list string) (si : option Z) : M Z := λ w,
  let w := log (EvSpawn args) w in
  match spawn (platform w) si args (fs w) with
  | Exited rc files => (Return rc, with_fs (λ _, files) w)
  | LaunchFailed e => (Raise (OSError e), w)
  end.

(** [print(line, file=sys.stderr)] *)
Definition print_stderr (line : string) : M unit := modify (with_stderr line).

Definition errno_number (e : errno) : Z :=
  match e with
  | EPERM => 1 | ENOENT => 2 | ENOEXEC => 8 | ENOMEM => 12 | EACCES => 13
  | ENOTDIR => 20 | EISDIR => 21 | ENOTEMPTY => 39
  end.

Definition strerror (e : errno) : string :=
  match e with
  | EPERM => "Operation not permitted"
  | ENOENT => "No such file or directory"
  | ENOEXEC => "Exec format error"
  | ENOMEM => "Cannot allocate memory"
  | EACCES => "Permission denied"
  | ENOTDIR => "Not a directory"
  | EISDIR => "Is a directory"
  | ENOTEMPTY => "Directory not empty"
  end.

(** [str(e)] for an [OSError]. *)
Definition str_oserror (e : errno) : string :=
  "[Errno " +:+ PyStr.str (errno_number e) +:+ "] " +:+ strerror e.

(** [subprocess.STARTF_USESHOWWINDOW] *)
Definition STARTF_USESHOWWINDOW : Z := 1.

End Os.

(** ** The module [diagmagic.py] *)

Module Diagmagic.
Import Exec Os.

(** Module-level assignments (lines 61-66 and 229). *)
Definition init_globals : Globals :=
  {| _draw_mode := "SVG"; _publish_mode := "SVG"; _size := (1000, 500);
     _inkscape_available := None; _loaded := false |}.

(** Lines 68-71: both branches of the test on [os.uname()[0]] assign the
    same path. *)
Definition _inkscape (p : Platform) : string :=
  if String.eqb (uname_sysname p) "Darwin"
  then "/Applications/Inkscape.app/Contents/Resources/bin/inkscape"
  else "/Applications/Inkscape.app/Contents/Resources/bin/inkscape".

Definition newline : string := String "010" "".

(** [BlockdiagMagics.run_command] (lines 82-101).  The handler for
    [CalledProcessError] applies a format with two [%s] to one string,
    which is a [TypeError].  Sending the child's error stream to its
    output stream changes what the child prints, not what the call
    returns, and is left out. *)
Definition run_command (args : list string) : M bool :=
  try_except
    (name ← gets (os_name ∘ platform);
     let startupinfo :=
       if String.eqb name "nt"
       then Some (Z.lor 0 STARTF_USESHOWWINDOW)
       else None in
     subprocess_call args startupinfo;;
     mret true)
    (λ e,
       match e with
       | CalledProcessError _ _ output =>
           print_stderr output;;
           raise (TypeError "not enough arguments for format string")
       | OSError en =>
           print_stderr ("Exception " +:+ str_oserror en);;
           mret false
       | _ => raise e
       end).

(** [BlockdiagMagics.inkscape_available] (lines 103-107). *)
Definition inkscape_available : M bool :=
  cached ← gets (_inkscape_available ∘ globals);
  match cached with
  | None =>
      inkscape ← gets (_inkscape ∘ platform);
      ran ← run_command [inkscape; "--export-png"];
      modify (with_globals (set_inkscape_available (Some ran)));;
      mret ran
  | Some known => mret known
  end.

(** [BlockdiagMagics.svg2png] (lines 109-111). *)
Definition svg2png (filename : string) : M unit :=
  inkscape ← gets (_inkscape ∘ platform);
  run_command [inkscape; filename +:+ ".svg";
               "--export-png=" +:+ filename +:+ ".png"];;
  mret tt.

(** [publish_display_data(source, {mime: data})] *)
Definition publish_display_data (src mime_type : string) (data : list byte) : M unit :=
  modify (with_display {| source := src; mime := mime_type; payload := data |}).

(** [BlockdiagMagics.diag] (lines 113-173).  [tempfile.mkdtemp] cannot
    fail in this model, so binding [tmpdir] just before the [try] is the
    same as binding it as the first statement inside. *)
Definition diag (line cell command : string) : M unit :=
  let code := cell +:+ newline in
  publish_mode ← gets (_publish_mode ∘ globals);
  (if String.eqb publish_mode "PNG"
   then
     available ← inkscape_available;
     if available : bool
     then modify (with_globals (set_draw_mode "SVG"))
     else mret tt
   else mret tt);;
  tmpdir ← mkdtemp;
  data ←
    try_finally
      (diag_name ← mkstemp tmpdir;
       write_close diag_name (PyStr.encode_utf8 code);;
       draw_mode ← gets (_draw_mode ∘ globals);
       let format := PyStr.lower draw_mode in
       let draw_name := diag_name +:+ "." +:+ format in
       saved_argv ← gets sys_argv;
       size ← gets (_size ∘ globals);
       modify (with_argv
         [command; "-T"; format; "--size";
          PyStr.str (fst size) +:+ "x" +:+ PyStr.str (snd size);
          "-o"; draw_name; diag_name]);;
       argv ← gets sys_argv;
       return_code ← subprocess_call argv None;
       modify (with_argv saved_argv);;
       draw_mode ← gets (_draw_mode ∘ globals);
       publish_mode ← gets (_publish_mode ∘ globals);
       (if String.eqb draw_mode "SVG" && String.eqb publish_mode "PNG"
        then svg2png diag_name
        else mret tt);;
       publish_mode ← gets (_publish_mode ∘ globals);
       let file_name := diag_name +:+ "." +:+ PyStr.lower publish_mode in
       read_binary file_name)
      (files ← listdir tmpdir;
       for_each files (λ file, unlink (tmpdir +:+ "/" +:+ file));;
       rmdir tmpdir);
  publish_mode ← gets (_publish_mode ∘ globals);
  if String.eqb publish_mode "SVG"
  then publish_display_data "IPython.core.displaypub.publish_svg" "image/svg+xml" data
  else publish_display_data "IPython.core.displaypub.publish_png" "image/png" data.

(** The six cell magics (lines 175-205). *)
Definition actdiag (line cell : string) : M unit := diag line cell "actdiag".
Definition blockdiag (line cell : string) : M unit := diag line cell "blockdiag".
Definition nwdiag (line cell : string) : M unit := diag line cell "nwdiag".
Definition seqdiag (line cell : string) : M unit := diag line cell "seqdiag".
Definition rackdiag (line cell : string) : M unit := diag line cell "rackdiag".
Definition packetdiag (line cell : string) : M unit := diag line cell "packetdiag".

(** [int(s)], raising [ValueError] on a text that is not an integer. *)
Definition int (s : string) : M Z :=
  table ← gets (unicode ∘ platform);
  match PyStr.int table s with
  | Some n => mret n
  | None => raise (ValueError s)
  end.

(** [BlockdiagMagics.setdiagsize] (lines 208-215).  The tuple is built
    before [_size] is assigned. *)
Definition setdiagsize (line : string) : M unit :=
  x ← int (PyStr.slice_to line (PyStr.find line ","));
  y ← int (PyStr.slice_from line (PyStr.find line "," + 1));
  modify (with_globals (set_size (x, y))).

(** [BlockdiagMagics.setdiagsvg] and [setdiagpng] (lines 218-226). *)
Definition setdiagsvg (line : string) : M unit :=
  modify (with_globals (set_draw_mode "SVG"));;
  modify (with_globals (set_publish_mode "SVG")).

Definition setdiagpng (line : string) : M unit :=
  modify (with_globals (set_draw_mode "PNG"));;
  modify (with_globals (set_publish_mode "PNG")).

(** The magics the decorators of [BlockdiagMagics] declare: a
    [cell_magic] is a cell magic, a [line_cell_magic] is both. *)
Definition BlockdiagMagics : list (magic_kind * string) :=
  [ (CellMagic, "actdiag"); (CellMagic, "blockdiag"); (CellMagic, "nwdiag");
    (CellMagic, "seqdiag"); (CellMagic, "rackdiag"); (CellMagic, "packetdiag");
    (LineMagic, "setdiagsize"); (CellMagic, "setdiagsize");
    (LineMagic, "setdiagsvg"); (CellMagic, "setdiagsvg");
    (LineMagic, "setdiagpng"); (CellMagic, "setdiagpng") ].

(** [ip.register_magics(cls)] for the host named [ip]. *)
Definition register_magics (ip : string) (cls : list (magic_kind * string)) : M unit :=
  modify (with_registered ((λ m, (ip, m.1, m.2)) <$> cls)).

(** [load_ipython_extension] (lines 231-236). *)
Definition load_ipython_extension (ip : string) : M unit :=
  loaded ← gets (_loaded ∘ globals);
  if negb loaded
  then
    register_magics ip BlockdiagMagics;;
    modify (with_globals (set_loaded true))
  else mret tt.

(** What a notebook session can ask of the module. *)
Inductive command :=
| Actdiag (line cell : string)
| Blockdiag (line cell : string)
| Nwdiag (line cell : string)
| Seqdiag (line cell : string)
| Rackdiag (line cell : string)
| Packetdiag (line cell : string)
| Setdiagsize (line : string)
| Setdiagsvg (line : string)
| Setdiagpng (line : string)
| LoadExtension (ip : string).

Definition exec (c : command) : M unit :=
  match c with
  | Actdiag line cell => actdiag line cell
  | Blockdiag line cell => blockdiag line cell
  | Nwdiag line cell => nwdiag line cell
  | Seqdiag line cell => seqdiag line cell
  | Rackdiag line cell => rackdiag line cell
  | Packetdiag line cell => packetdiag line cell
  | Setdiagsize line => setdiagsize line
  | Setdiagsvg line => setdiagsvg line
  | Setdiagpng line => setdiagpng line
  | LoadExtension ip => load_ipython_extension ip
  end.

(** The host reports an exception a command raises and carries on in the
    world the command left. *)
Definition step (w : World) (c : command) : World := (exec c w).2.

Definition session (cs : list command) (w : World) : World := foldl step w cs.

(** The world right after the module is imported. *)
Definition boot (p : Platform) (files : gmap string node) (argv : list string) : World :=
  {| platform := p; globals := init_globals; fs := files; sys_argv := argv;
     stderr := []; display := []; registered := []; trace := [] |}.

End Diagmagic.

(** ** Platforms used to exercise the module *)

Module Fixtures.
Import Exec Os Diagmagic.

(** A fragment of the character table, enough for the texts below: the
    no-break space (bytes 194, 160) and the Arabic-Indic digits (bytes
    217 and 160 to 169). *)
Definition unicode_fragment (c : string) : PyStr.uclass :=
  match c with
  | String a (String b "") =>
      let m := N_of_ascii a in
      let n := N_of_ascii b in
      if ((m =? 194) && (n =? 160))%N then PyStr.USpace
      else if ((m =? 217) && (160 <=? n) && (n <=? 169))%N
      then PyStr.UDigit (N.to_nat (n - 160))
      else PyStr.UOther
  | _ => PyStr.UOther
  end.

(** No executable can be started: every launch fails with [ENOENT]. *)
Definition nothing_installed : Platform :=
  {| os_name := "posix"; uname_sysname := "Linux";
     spawn := λ _ _ _, LaunchFailed ENOENT;
     unicode := unicode_fragment |}.

(** The file an invocation is asked to write: the argument after [-o],
    or what follows [--export-png=]. *)
Fixpoint output_of (args : list string) : option string :=
  match args with
  | [] => None
  | a :: rest =>
      if String.eqb a "-o"
      then head rest
      else
        match strip_prefix "--export-png=" a with
        | Some p => Some p
        | None => output_of rest
        end
  end.

(** An executable that writes [fixture] to the file it is asked to write,
    unless a directory is in the way, and touches nothing else. *)
Definition write_fixture (fixture : list byte) (args : list string)
    (files : gmap string node) : spawned :=
  match output_of args with
  | Some p =>
      match files !! p with
      | Some Dir => Exited 1 files
      | _ => Exited 0 (<[p := File fixture]> files)
      end
  | None => Exited 1 files
  end.

(** Every executable, the converter included, is [write_fixture]. *)
Definition all_installed (fixture : list byte) : Platform :=
  {| os_name := "posix"; uname_sysname := "Linux";
     spawn := λ _, write_fixture fixture;
     unicode := unicode_fragment |}.

(** The dialect tools are [write_fixture]; the converter is missing. *)
Definition no_converter (fixture : list byte) : Platform :=
  {| os_name := "posix"; uname_sysname := "Linux";
     spawn := λ _ args files,
       match args with
       | prog :: _ =>
           if String.eqb prog "/Applications/Inkscape.app/Contents/Resources/bin/inkscape"
           then LaunchFailed ENOENT
           else write_fixture fixture args files
       | [] => LaunchFailed ENOENT
       end;
     unicode := unicode_fragment |}.

(** The dialect tools run but write nothing; the converter is missing. *)
Definition silent_tools : Platform :=
  {| os_name := "posix"; uname_sysname := "Linux";
     spawn := λ _ args files,
       match args with
       | prog :: _ =>
           if String.eqb prog "/Applications/Inkscape.app/Contents/Resources/bin/inkscape"
           then LaunchFailed ENOENT
           else Exited 1 files
       | [] => LaunchFailed ENOENT
       end;
     unicode := unicode_fragment |}.

(** An executable that writes [fixture] to the file it is asked to write
    and leaves a directory next to it, as a tool that keeps a cache
    does. *)
Definition write_with_cache (fixture : list byte) (args : list string)
    (files : gmap string node) : spawned :=
  match output_of args with
  | Some p =>
      match files !! p with
      | Some Dir => Exited 1 files
      | _ => Exited 0 (<[p +:+ ".cache" := Dir]> (<[p := File fixture]> files))
      end
  | None => Exited 1 files
  end.

(** Every executable is [write_with_cache]. *)
Definition caching_tools (fixture : list byte) : Platform :=
  {| os_name := "posix"; uname_sysname := "Linux";
     spawn := λ _, write_with_cache fixture;
     unicode := unicode_fragment |}.

Definition arabic_indic_four : string := String "217" (String "164" "").

Definition no_break_space : string := String "194" (String "160" "").

Definition png_bytes : list byte := [x89; x50; x4e; x47].

Definition cell_text : string := "{ A -> B; }".

End Fixtures.

(** ** The phases of [diag] and the vocabulary of the properties *)

Module Pipeline.
Import Exec Os Diagmagic.

(** Lines 117-121: with publish format PNG, ask for the converter and
    switch the draw format to SVG when it is there. *)
Definition force_svg : M unit :=
  publish_mode ← gets (_publish_mode ∘ globals);
  if String.eqb publish_mode "PNG"
  then
    available ← inkscape_available;
    if available : bool
    then modify (with_globals (set_draw_mode "SVG"))
    else mret tt
  else mret tt.

(** Lines 117-125: everything before the input file is staged; returns
    [tmpdir]. *)
Definition prepare : M string :=
  force_svg;;
  mkdtemp.

(** Lines 126-152: stage the input, run the dialect tool and, if asked
    for, the converter; returns [diag_name]. *)
Definition draw (tmpdir code command : string) : M string :=
  diag_name ← mkstemp tmpdir;
  write_close diag_name (PyStr.encode_utf8 code);;
  draw_mode ← gets (_draw_mode ∘ globals);
  let format := PyStr.lower draw_mode in
  let draw_name := diag_name +:+ "." +:+ format in
  saved_argv ← gets sys_argv;
  size ← gets (_size ∘ globals);
  modify (with_argv
    [command; "-T"; format; "--size";
     PyStr.str (fst size) +:+ "x" +:+ PyStr.str (snd size);
     "-o"; draw_name; diag_name]);;
  argv ← gets sys_argv;
  return_code ← subprocess_call argv None;
  modify (with_argv saved_argv);;
  draw_mode ← gets (_draw_mode ∘ globals);
  publish_mode ← gets (_publish_mode ∘ globals);
  (if String.eqb draw_mode "SVG" && String.eqb publish_mode "PNG"
   then svg2png diag_name
   else mret tt);;
  mret diag_name.

(** Lines 154-157: read the artifact. *)
Definition read_artifact (diag_name : string) : M (list byte) :=
  publish_mode ← gets (_publish_mode ∘ globals);
  read_binary (diag_name +:+ "." +:+ PyStr.lower publish_mode).

(** Lines 160-162: the [finally] block. *)
Definition cleanup (tmpdir : string) : M unit :=
  files ← listdir tmpdir;
  for_each files (λ file, unlink (tmpdir +:+ "/" +:+ file));;
  rmdir tmpdir.

(** Lines 164-173: hand the bytes to the display. *)
Definition publish (data : list byte) : M unit :=
  publish_mode ← gets (_publish_mode ∘ globals);
  if String.eqb publish_mode "SVG"
  then publish_display_data "IPython.core.displaypub.publish_svg" "image/svg+xml" data
  else publish_display_data "IPython.core.displaypub.publish_png" "image/png" data.

(** The same function, phase by phase. *)
Definition render (cell command : string) : M unit :=
  tmpdir ← prepare;
  data ←
    try_finally
      (diag_name ← draw tmpdir (cell +:+ newline) command;
       read_artifact diag_name)
      (cleanup tmpdir);
  publish data.

(** The names [tempfile] hands out in a file system [files]. *)
Definition tmpdir_in (files : gmap string node) : string :=
  fresh_name "/tmp/tmp" (map_to_list files).*1.

Definition diag_name_in (files : gmap string node) : string :=
  let d := tmpdir_in files in
  d +:+ "/" +:+ fresh_name "tmp" (entries (<[d := Dir]> files) d).

(** The file system when the dialect tool is started. *)
Definition staged (files : gmap string node) (cell : string) : gmap string node :=
  <[diag_name_in files := File (PyStr.encode_utf8 (cell +:+ newline))]>
    (<[tmpdir_in files := Dir]> files).

(** The command lines of the dialect tool, of the probe for the
    converter and of the converter. *)
Definition tool_argv (command format : string) (size : Z * Z) (diag_name : string)
    : list string :=
  [command; "-T"; format; "--size";
   PyStr.str size.1 +:+ "x" +:+ PyStr.str size.2;
   "-o"; diag_name +:+ "." +:+ format; diag_name].

Definition probe_argv (p : Platform) : list string :=
  [_inkscape p; "--export-png"].

Definition convert_argv (p : Platform) (diag_name : string) : list string :=
  [_inkscape p; diag_name +:+ ".svg"; "--export-png=" +:+ diag_name +:+ ".png"].

(** [startupinfo] as [run_command] builds it. *)
Definition startupinfo_of (p : Platform) : option Z :=
  if String.eqb (os_name p) "nt" then Some 1 else None.

Definition valid_mode (m : string) : Prop := m = "SVG" ∨ m = "PNG".

Definition valid_modes (g : Globals) : Prop :=
  valid_mode (_draw_mode g) ∧ valid_mode (_publish_mode g).

(** The MIME type that goes with a publish format. *)
Definition mime_of (publish_mode : string) : string :=
  if String.eqb publish_mode "SVG" then "image/svg+xml" else "image/png".

Definition source_of (publish_mode : string) : string :=
  if String.eqb publish_mode "SVG"
  then "IPython.core.displaypub.publish_svg"
  else "IPython.core.displaypub.publish_png".

(** Directory [d] exists and holds regular files only. *)
Definition flat_dir (files : gmap string node) (d : string) : Prop :=
  files !! d = Some Dir ∧
  ∀ n, n ∈ entries files d → ∃ data, files !! (d +:+ "/" +:+ n) = Some (File data).

(** Directory [d] and everything in it is gone. *)
Definition removed (files : gmap string node) (d : string) : Prop :=
  files !! d = None ∧ entries files d = [].

(** The executables of a platform leave directories in place and put
    nothing but regular files into them. *)
Definition keeps_dirs_flat (p : Platform) : Prop :=
  ∀ si args files rc files' d,
    spawn p si args files = Exited rc files' → flat_dir files d → flat_dir files' d.

(** The paths opened for reading in a stretch of the log. *)
Definition opened (evs : list event) : list string :=
  omap (λ e, match e with EvOpen p => Some p | _ => None end) evs.

(** The command lines started in a stretch of the log. *)
Definition started (evs : list event) : list (list string) :=
  omap (λ e, match e with EvSpawn a => Some a | _ => None end) evs.

(** What holds of the globals in every world a session can reach: the
    modes are valid, SVG is published from SVG, and drawing SVG for PNG
    means the converter was found. *)
Definition coherent (g : Globals) : Prop :=
  valid_modes g ∧
  (_publish_mode g = "SVG" → _draw_mode g = "SVG") ∧
  (_draw_mode g = "SVG" → _publish_mode g = "PNG" → _inkscape_available g = Some true).

(** A command other than [setdiagpng]. *)
Definition not_setdiagpng (c : command) : bool :=
  match c with
  | Setdiagpng _ => false
  | _ => true
  end.

(** The world in which the dialect tool is started, and the one it
    leaves when it has run. *)
Definition at_spawn (w : World) (files : gmap string node) (cell command : string) : World :=
  let argv :=
    tool_argv command (PyStr.lower (_draw_mode (globals w))) (_size (globals w))
      (diag_name_in files) in
  log (EvSpawn argv) (with_argv argv (with_fs (λ _, staged files cell) w)).

Definition after_tool (w : World) (files : gmap string node) (cell command : string)
    (files' : gmap string node) : World :=
  with_argv (sys_argv w) (with_fs (λ _, files') (at_spawn w files cell command)).

(** The world [w] as [tempfile.mkdtemp] leaves it. *)
Definition with_tmpdir (w : World) : World :=
  log (EvMkdtemp (tmpdir_in (fs w))) (with_fs (insert (tmpdir_in (fs w)) Dir) w).

(** The [try] block of lines 123-157, run in the world [w] in which
    [tempfile.mkdtemp] is called. *)
Definition try_block (w : World) (cell command : string) : result (list byte) * World :=
  (diag_name ← draw (tmpdir_in (fs w)) (cell +:+ newline) command;
   read_artifact diag_name) (with_tmpdir w).

(** The world in which the [finally] block of a render call made in
    world [w] starts. *)
Definition at_cleanup (w : World) (cell command : string) : World :=
  (try_block (force_svg w).2 cell command).2.

(** The command line with which a render call in world [w] starts the
    dialect tool, and what comes of starting it. *)
Definition tool_args (w : World) (command : string) : list string :=
  let w0 := (force_svg w).2 in
  tool_argv command (PyStr.lower (_draw_mode (globals w0))) (_size (globals w0))
    (diag_name_in (fs w0)).

Definition tool_call (w : World) (cell command : string) : spawned :=
  let w0 := (force_svg w).2 in
  spawn (platform w0) None (tool_args w command) (staged (fs w0) cell).

(** Steps 2 to 6 of the pipeline: everything up to the point where the
    artifact is opened; returns [diag_name]. *)
Definition external_steps (cell command : string) : M string :=
  tmpdir ← prepare;
  draw tmpdir (cell +:+ newline) command.

Definition artifact_path (diag_name publish_mode : string) : string :=
  diag_name +:+ "." +:+ PyStr.lower publish_mode.

(** The six dialect magics with the executables they stand for. *)
Definition dialects : list (string * (string → string → M unit)) :=
  [("actdiag", actdiag); ("blockdiag", blockdiag); ("nwdiag", nwdiag);
   ("seqdiag", seqdiag); ("rackdiag", rackdiag); ("packetdiag", packetdiag)].

(** The directories created in a stretch of the log. *)
Definition created (evs : list event) : list string :=
  omap (λ e, match e with EvMkdtemp d => Some d | _ => None end) evs.

(** The values assigned to [sys.argv] in a stretch of the log. *)
Definition assigned (evs : list event) : list (list string) :=
  omap (λ e, match e with EvArgv a => Some a | _ => None end) evs.

(** Computation [m] leaves the observation [f] of the world as it was. *)
Definition keeps {A B} (f : World → B) (m : M A) : Prop := ∀ w, f (m w).2 = f w.

End Pipeline.

(** ** The shell namespace *)

Module Shell.
Import Os.

Section Objects.
Context {V : Type}.

(** [k.startswith(p)] *)
Definition startswith (k p : string) : bool :=
  match strip_prefix p k with
  | Some _ => true
  | None => false
  end.

(** [self.shell.push({k: v})]: the name is bound in the user namespace,
    in place of whatever it was bound to. *)
Definition push (k : string) (v : V) (user_ns : gmap string V) : gmap string V :=
  <[k := v]> user_ns.

(** [BlockdiagMagics._import_all] (lines 77-80); [module] stands for
    [module.__dict__], whose items are visited in no particular order. *)
Definition _import_all (module user_ns : gmap string V) : gmap string V :=
  foldl
    (λ ns kv, if startswith kv.1 "__" then ns else push kv.1 kv.2 ns)
    user_ns (map_to_list module).

End Objects.
End Shell.

(** ** Further vocabulary *)

Module Observations.
Import Exec Os Diagmagic Pipeline.

(** The executables of a platform leave the file system as it is. *)
Definition inert (p : Platform) : Prop :=
  ∀ si args files rc files',
    spawn p si args files = Exited rc files' → files' = files.

(** The platform [p] with every exit status [rc] turned into [f rc]. *)
Definition recode (f : Z → Z) (p : Platform) : Platform :=
  {| os_name := os_name p; uname_sysname := uname_sysname p;
     spawn := λ si args files,
       match spawn p si args files with
       | Exited rc files' => Exited (f rc) files'
       | LaunchFailed e => LaunchFailed e
       end;
     unicode := unicode p |}.

Definition with_platform (f : Platform → Platform) (w : World) : World :=
  {| platform := f (platform w); globals := globals w; fs := fs w;
     sys_argv := sys_argv w; stderr := stderr w; display := display w;
     registered := registered w; trace := trace w |}.

(** Computation [m] does the same in the world [T w] as in [w]: the
    same outcome, and the world it leaves is [T] of the one it leaves
    from [w]. *)
Definition commutes {A} (T : World → World) (m : M A) : Prop :=
  ∀ w, m (T w) = ((m w).1, T (m w).2).

(** A platform on which the dialect tools and the converter copy their
    input file to their output file: a dialect tool is recognised by its
    eight arguments (output seventh, input eighth), the converter by its
    three (input second, output in the third). *)
Definition copy_file (inp out : string) (files : gmap string node) : spawned :=
  match files !! inp, files !! out with
  | Some (File data), Some Dir => Exited 1 files
  | Some (File data), _ => Exited 0 (<[out := File data]> files)
  | _, _ => Exited 1 files
  end.

Definition copying : Platform :=
  {| os_name := "posix"; uname_sysname := "Linux";
     spawn := λ _ args files,
       match args with
       | [_; _; _; _; _; _; out; inp] => copy_file inp out files
       | [_; inp; flag] =>
           match strip_prefix "--export-png=" flag with
           | Some out => copy_file inp out files
           | None => Exited 1 files
           end
       | _ => Exited 1 files
       end;
     unicode := Fixtures.unicode_fragment |}.

(** The starts of the probe for the converter in a stretch of the log. *)
Definition is_probe (p : Platform) (e : event) : bool :=
  match e with
  | EvSpawn args => bool_decide (args = probe_argv p)
  | _ => false
  end.

Definition probes (p : Platform) (evs : list event) : nat :=
  length (List.filter (is_probe p) evs).

(** Strings of decimal digits. *)
Fixpoint all_digits (s : string) : bool :=
  match s with
  | "" => true
  | String a s' =>
      match Ascii.is_nat a with
      | Some _ => all_digits s'
      | None => false
      end
  end.

(** Strings without white space, and the occurrence of a character. *)
Fixpoint no_space (s : string) : bool :=
  match s with
  | "" => true
  | String a s' => negb (Ascii.is_space a) && no_space s'
  end.

Fixpoint occurs (c : ascii) (s : string) : bool :=
  match s with
  | "" => false
  | String a s' => Ascii.eqb a c || occurs c s'
  end.

(** Characters [PyStr.encode_decimal] passes on as they are: those
    within ASCII other than white space and the character 0. *)
Definition kept (a : ascii) : bool :=
  (N_of_ascii a <? 128)%N && negb (PyStr.is_uspace a) && negb (N_of_ascii a =? 0)%N.

Fixpoint all_kept (s : string) : bool :=
  match s with
  | "" => true
  | String a s' => kept a && all_kept s'
  end.

(** The line [setdiagsize] is meant to be given for the size [(x, y)]. *)
Definition size_line (x y : Z) : string :=
  PyStr.str x +:+ "," +:+ PyStr.str y.

End Observations.

(** * Properties *)

Import Exec Os Diagmagic Pipeline Fixtures.

(** ** The string primitives at work *)

Example int_digits table : PyStr.int table "640" = Some 640.
Proof. reflexivity. Qed.

Example int_empty table : PyStr.int table "" = None.
Proof. reflexivity. Qed.

Example int_signed_padded table : PyStr.int table " -12 " = Some (-12).
Proof. reflexivity. Qed.

Example int_separator table : PyStr.int table (String "028" "7") = Some 7.
Proof. reflexivity. Qed.

Example int_arabic_indic :
  PyStr.int unicode_fragment ("1" +:+ arabic_indic_four +:+ no_break_space) = Some 14.
Proof. reflexivity. Qed.

Example int_unknown_character :
  PyStr.int unicode_fragment (String "195" (String "169" "")) = None.
Proof. reflexivity. Qed.

Example slice_to_last_character :
  PyStr.slice_to ("4" +:+ arabic_indic_four) (-1) = "4".
Proof. reflexivity. Qed.

Example find_comma : PyStr.find "640,480" "," = 3.
Proof. reflexivity. Qed.

Example find_no_comma : PyStr.find "640" "," = -1.
Proof. reflexivity. Qed.

Example slice_to_minus_one : PyStr.slice_to "640" (-1) = "64".
Proof. reflexivity. Qed.

Example slice_from_zero : PyStr.slice_from "640" 0 = "640".
Proof. reflexivity. Qed.

Example lower_mode : PyStr.lower "SVG" = "svg" ∧ PyStr.lower "PNG" = "png".
Proof. split; reflexivity. Qed.

Example str_size : PyStr.str 1000 +:+ "x" +:+ PyStr.str 500 = "1000x500".
Proof. reflexivity. Qed.

(** ** Laws of the execution monad *)

Lemma bind_unfold {A B} (m : M A) (k : A → M B) w :
  (m ≫= k) w = match m w with (Return a, w') => k a w' | (Raise e, w') => (Raise e, w') end.
Proof. reflexivity. Qed.

Lemma bind_assoc {A B C} (m : M A) (f : A → M B) (g : B → M C) w :
  ((m ≫= f) ≫= g) w = (m ≫= λ a, f a ≫= g) w.
Proof. rewrite !bind_unfold. destruct (m w) as [[a|e] w']; reflexivity. Qed.

Lemma bind_ext {A B} (m : M A) (k k' : A → M B) w :
  (∀ a w', k a w' = k' a w') → (m ≫= k) w = (m ≫= k') w.
Proof. intros H. rewrite !bind_unfold. destruct (m w) as [[a|e] w']; auto. Qed.

Lemma bind_ext_l {A B} (m m' : M A) (k : A → M B) w :
  m w = m' w → (m ≫= k) w = (m' ≫= k) w.
Proof. intros H. rewrite !bind_unfold, H. reflexivity. Qed.

Lemma try_finally_ext {A} (m m' : M A) fin w :
  m w = m' w → try_finally m fin w = try_finally m' fin w.
Proof. intros H. unfold try_finally. rewrite H. reflexivity. Qed.

Lemma diag_render line cell command w : diag line cell command w = render cell command w.
Proof.
  unfold diag, render, prepare, force_svg.
  symmetry. rewrite !bind_assoc.
  apply bind_ext; intros pm w1.
  apply bind_ext; intros _ w2.
  apply bind_ext; intros tmpdir w3.
  apply bind_ext_l, try_finally_ext.
  unfold draw, read_artifact. cbv zeta.
  repeat (rewrite bind_assoc; apply bind_ext; intros).
  reflexivity.
Qed.

(** ** Strings and paths *)

Lemma str_app_nil_l (s : string) : "" +:+ s = s.
Proof. reflexivity. Qed.

Lemma str_app_cons (a : ascii) (s t : string) : String a s +:+ t = String a (s +:+ t).
Proof. reflexivity. Qed.

Lemma str_app_assoc (s t u : string) : (s +:+ t) +:+ u = s +:+ t +:+ u.
Proof. induction s as [|a s IH]; [done|]. rewrite !str_app_cons. by f_equal. Qed.

Lemma str_length_app (s t : string) :
  String.length (s +:+ t) = (String.length s + String.length t)%nat.
Proof. induction s as [|a s IH]; [done|]. rewrite str_app_cons. simpl. by f_equal. Qed.

Lemma strip_prefix_Some (p s r : string) :
  strip_prefix p s = Some r ↔ s = p +:+ r.
Proof.
  revert s. induction p as [|a p IH]; intros s; simpl.
  - rewrite str_app_nil_l. split; congruence.
  - rewrite str_app_cons. destruct s as [|b s]; [split; discriminate|].
    destruct (Ascii.eqb_spec a b) as [->|Hne].
    + rewrite IH. split; congruence.
    + split; [discriminate|congruence].
Qed.

Lemma strip_prefix_app (p r : string) : strip_prefix p (p +:+ r) = Some r.
Proof. by apply strip_prefix_Some. Qed.

Lemma entry_name_Some (d k n : string) :
  entry_name d k = Some n ↔ k = d +:+ "/" +:+ n ∧ has_slash n = false.
Proof.
  unfold entry_name. destruct (strip_prefix (d +:+ "/") k) as [r|] eqn:Hr.
  - apply strip_prefix_Some in Hr. rewrite str_app_assoc in Hr. subst k.
    destruct (has_slash r) eqn:Hs.
    + split; [done|]. intros [Heq%(inj (String.app d))%(inj (String.app "/")) ?].
      congruence.
    + split; [naive_solver|].
      by intros [->%(inj (String.app d))%(inj (String.app "/")) ?].
  - split; [done|]. intros [-> ?].
    by rewrite <- str_app_assoc, strip_prefix_app in Hr.
Qed.

Lemma entry_name_child (d n : string) :
  has_slash n = false → entry_name d (d +:+ "/" +:+ n) = Some n.
Proof. intros. by apply entry_name_Some. Qed.

Lemma child_ne_dir (d n : string) : d +:+ "/" +:+ n ≠ d.
Proof.
  intros H%(f_equal String.length). rewrite !str_length_app in H. simpl in H. lia.
Qed.

Lemma has_slash_pad (n : nat) : has_slash (pad n) = false.
Proof. induction n; [done|]. simpl. done. Qed.

Lemma has_slash_app (s t : string) : has_slash (s +:+ t) = has_slash s || has_slash t.
Proof.
  induction s as [|a s IH]; [done|]. rewrite str_app_cons. simpl.
  rewrite IH. by rewrite orb_assoc.
Qed.

Lemma has_slash_fresh_tmp (taken : list string) : has_slash (fresh_name "tmp" taken) = false.
Proof. unfold fresh_name. rewrite has_slash_app, has_slash_pad. done. Qed.

Lemma length_pad (n : nat) : String.length (pad n) = n.
Proof. induction n; simpl; [done|]. by f_equal. Qed.

Lemma longest_ge (l : list string) (s : string) :
  s ∈ l → (String.length s ≤ longest l)%nat.
Proof.
  induction 1 as [s l|s t l _ IH]; simpl; lia.
Qed.

Lemma fresh_name_longer (prefix : string) (taken : list string) (s : string) :
  s ∈ taken → (String.length s < String.length (fresh_name prefix taken))%nat.
Proof.
  intros Hs%longest_ge. unfold fresh_name. rewrite str_length_app, length_pad. lia.
Qed.

Lemma fresh_name_fresh (prefix : string) (taken : list string) :
  fresh_name prefix taken ∉ taken.
Proof. intros H%(fresh_name_longer prefix). lia. Qed.

(** ** Directory listings *)

Lemma elem_of_entries (files : gmap string node) (d n : string) :
  n ∈ entries files d ↔ is_Some (files !! (d +:+ "/" +:+ n)) ∧ has_slash n = false.
Proof.
  unfold entries. rewrite list_elem_of_omap. split.
  - intros (k & Hk & [-> Hs]%entry_name_Some). split; [|done].
    apply list_elem_of_fmap in Hk as ([k' v] & -> & Hkv).
    apply elem_of_map_to_list in Hkv. simpl. eauto.
  - intros [[v Hv] Hs]. exists (d +:+ "/" +:+ n). split.
    + apply list_elem_of_fmap. exists (d +:+ "/" +:+ n, v). split; [done|].
      by apply elem_of_map_to_list.
    + by apply entry_name_child.
Qed.

Lemma NoDup_omap_inj {A B} (f : A → option B) (l : list A) :
  (∀ x y b, f x = Some b → f y = Some b → x = y) → NoDup l → NoDup (omap f l).
Proof.
  intros Hinj. induction 1 as [|x l Hx Hl IH]; simpl; [constructor|].
  destruct (f x) as [b|] eqn:Hfx; [|done].
  constructor; [|done].
  rewrite list_elem_of_omap. intros (y & Hy & Hfy).
  by rewrite (Hinj x y b Hfx Hfy) in Hx.
Qed.

Lemma NoDup_entries (files : gmap string node) (d : string) : NoDup (entries files d).
Proof.
  unfold entries. apply NoDup_omap_inj.
  - intros x y b [-> _]%entry_name_Some [-> _]%entry_name_Some. done.
  - apply NoDup_fst_map_to_list.
Qed.

Lemma entries_nil (files : gmap string node) (d : string) :
  (∀ n, has_slash n = false → files !! (d +:+ "/" +:+ n) = None) → entries files d = [].
Proof.
  intros H. apply elem_of_nil_inv. intros n [[v Hv] Hs]%elem_of_entries.
  rewrite H in Hv; done.
Qed.

Lemma keys_lookup (files : gmap string node) (k : string) :
  k ∈ (map_to_list files).*1 ↔ is_Some (files !! k).
Proof.
  rewrite list_elem_of_fmap. split.
  - intros ([k' v] & -> & Hkv). apply elem_of_map_to_list in Hkv. eauto.
  - intros [v Hv]. exists (k, v). split; [done|]. by apply elem_of_map_to_list.
Qed.

(** ** The names [tempfile] picks *)

Lemma tmpdir_in_fresh (files : gmap string node) : files !! tmpdir_in files = None.
Proof.
  apply eq_None_not_Some. intros H%keys_lookup.
  by apply fresh_name_fresh in H.
Qed.

Lemma tmpdir_in_no_child (files : gmap string node) (r : string) :
  files !! (tmpdir_in files +:+ r) = None.
Proof.
  apply eq_None_not_Some. intros H%keys_lookup.
  apply (fresh_name_longer "/tmp/tmp") in H. fold (tmpdir_in files) in H.
  rewrite str_length_app in H. lia.
Qed.

Lemma tmpdir_in_empty (files : gmap string node) :
  entries (<[tmpdir_in files := Dir]> files) (tmpdir_in files) = [].
Proof.
  apply entries_nil. intros n _.
  rewrite lookup_insert_ne by (symmetry; apply child_ne_dir).
  apply tmpdir_in_no_child.
Qed.

Lemma diag_name_in_eq (files : gmap string node) :
  diag_name_in files = tmpdir_in files +:+ "/" +:+ fresh_name "tmp" [].
Proof. unfold diag_name_in. cbv zeta. by rewrite tmpdir_in_empty. Qed.

Lemma entries_staged (files : gmap string node) (cell : string) :
  ∀ n, n ∈ entries (staged files cell) (tmpdir_in files) ↔ n = fresh_name "tmp" [].
Proof.
  intros n. rewrite elem_of_entries. unfold staged. rewrite diag_name_in_eq. split.
  - intros [[v Hv] Hs]. destruct (decide (n = fresh_name "tmp" [])) as [|Hne]; [done|].
    rewrite lookup_insert_ne in Hv.
    2:{ intros H%(inj (String.app _))%(inj (String.app _)). done. }
    rewrite lookup_insert_ne in Hv by (symmetry; apply child_ne_dir).
    by rewrite tmpdir_in_no_child in Hv.
  - intros ->. split; [|apply has_slash_fresh_tmp].
    rewrite lookup_insert_eq. eauto.
Qed.

Lemma flat_staged (files : gmap string node) (cell : string) :
  flat_dir (staged files cell) (tmpdir_in files).
Proof.
  split.
  - unfold staged. rewrite diag_name_in_eq.
    rewrite lookup_insert_ne by apply child_ne_dir. apply lookup_insert_eq.
  - intros n ->%entries_staged. unfold staged. rewrite diag_name_in_eq.
    rewrite lookup_insert_eq. eauto.
Qed.

(** ** Frame rules: what a computation leaves alone *)

Lemma keeps_ret {A B} (f : World → B) (a : A) : keeps f (mret a).
Proof. by intros w. Qed.

Lemma keeps_raise {A B} (f : World → B) (e : exn) : keeps f (raise (A:=A) e).
Proof. by intros w. Qed.

Lemma keeps_gets {A B} (f : World → B) (g : World → A) : keeps f (gets g).
Proof. by intros w. Qed.

Lemma keeps_modify {B} (f : World → B) (g : World → World) :
  (∀ w, f (g w) = f w) → keeps f (modify g).
Proof. intros H w. apply H. Qed.

Lemma keeps_bind {A B C} (f : World → C) (m : M A) (k : A → M B) :
  keeps f m → (∀ a, keeps f (k a)) → keeps f (m ≫= k).
Proof.
  intros Hm Hk w. rewrite bind_unfold. specialize (Hm w).
  destruct (m w) as [[a|e] w']; simpl in *; [|done].
  by rewrite Hk.
Qed.

Lemma keeps_try_except {A B} (f : World → B) (m : M A) (h : exn → M A) :
  keeps f m → (∀ e, keeps f (h e)) → keeps f (try_except m h).
Proof.
  intros Hm Hh w. unfold try_except. specialize (Hm w).
  destruct (m w) as [[a|e] w']; simpl in *; [done|].
  by rewrite Hh.
Qed.

Lemma keeps_try_finally {A B} (f : World → B) (m : M A) (fin : M unit) :
  keeps f m → keeps f fin → keeps f (try_finally m fin).
Proof.
  intros Hm Hfin w. unfold try_finally. specialize (Hm w).
  destruct (m w) as [r w']. specialize (Hfin w').
  destruct (fin w') as [[[]|e] w'']; simpl in *; congruence.
Qed.

Lemma keeps_for_each {A B} (f : World → B) (l : list A) (body : A → M unit) :
  (∀ x, keeps f (body x)) → keeps f (for_each l body).
Proof.
  intros Hbody. induction l as [|x l IH]; simpl.
  - apply keeps_ret.
  - apply keeps_bind; auto.
Qed.

Lemma keeps_if {A B} (f : World → B) (b : bool) (m1 m2 : M A) :
  keeps f m1 → keeps f m2 → keeps f (if b then m1 else m2).
Proof. by destruct b. Qed.

(** Walks down a chain of binds, leaving the primitives to the caller. *)
Ltac frame :=
  repeat match goal with
    | |- keeps _ (mret _) => apply keeps_ret
    | |- keeps _ (gets _) => apply keeps_gets
    | |- keeps _ (raise _) => apply keeps_raise
    | |- keeps _ (modify _) => apply keeps_modify; solve [auto]
    | |- keeps _ (if _ then _ else _) => apply keeps_if
    | |- keeps _ (_ ≫= _) => apply keeps_bind; [|intros ?]
    end.

Section Frames.
Context {B : Type} (f : World → B).
Hypothesis f_fs : ∀ g w, f (with_fs g w) = f w.
Hypothesis f_stderr : ∀ l w, f (with_stderr l w) = f w.
Hypothesis f_log : ∀ e w, f (log e w) = f w.

Lemma keeps_subprocess_call args si : keeps f (subprocess_call args si).
Proof.
  intros w. unfold subprocess_call. cbv zeta.
  destruct (spawn _ _ _ _); simpl; by rewrite ?f_fs, f_log.
Qed.

Lemma keeps_run_command args : keeps f (run_command args).
Proof.
  unfold run_command, print_stderr.
  apply keeps_try_except.
  - frame. apply keeps_subprocess_call.
  - intros []; frame.
Qed.

Lemma keeps_svg2png filename : keeps f (svg2png filename).
Proof. unfold svg2png. frame. apply keeps_run_command. Qed.

Lemma keeps_read_artifact diag_name : keeps f (read_artifact diag_name).
Proof.
  unfold read_artifact. apply keeps_bind; [apply keeps_gets|intros ?].
  intros w. unfold read_binary. cbv zeta. repeat case_match; simpl; apply f_log.
Qed.

Lemma keeps_unlink p : keeps f (unlink p).
Proof. intros w. unfold unlink. repeat case_match; simpl; auto. Qed.

Lemma keeps_cleanup d : keeps f (cleanup d).
Proof.
  unfold cleanup. apply keeps_bind.
  { intros w. unfold listdir. repeat case_match; simpl; auto. }
  intros l. apply keeps_bind.
  { apply keeps_for_each. intros ?. apply keeps_unlink. }
  intros _ w. unfold rmdir. repeat case_match; simpl; auto.
Qed.

End Frames.

(** ** The [finally] block *)

Lemma unlink_file (p : string) (data : list byte) (w : World) :
  fs w !! p = Some (File data) → unlink p w = (Return tt, with_fs (delete p) w).
Proof. intros H. unfold unlink. by rewrite H. Qed.

Lemma unlink_each (d : string) (l : list string) (w : World) :
  NoDup l →
  (∀ n, n ∈ l → ∃ data, fs w !! (d +:+ "/" +:+ n) = Some (File data)) →
  ∃ files',
    for_each l (λ file, unlink (d +:+ "/" +:+ file)) w
      = (Return tt, with_fs (λ _, files') w) ∧
    (∀ n, n ∈ l → files' !! (d +:+ "/" +:+ n) = None) ∧
    (∀ k, (∀ n, n ∈ l → k ≠ d +:+ "/" +:+ n) → files' !! k = fs w !! k).
Proof.
  revert w. induction l as [|n l IH]; intros w Hnd Hfiles.
  - exists (fs w). split; [by destruct w|]. split; [by intros n ?%elem_of_nil|done].
  - apply NoDup_cons in Hnd as [Hn Hnd].
    destruct (Hfiles n) as [data Hdata]; [by left|].
    destruct (IH (with_fs (delete (d +:+ "/" +:+ n)) w) Hnd) as (files' & Hrun & Hgone & Hkept).
    { intros n' Hn'. simpl. rewrite lookup_delete_ne.
      - apply Hfiles. by right.
      - intros H%(inj (String.app _))%(inj (String.app _)). by subst. }
    exists files'. split; [|split].
    + simpl. rewrite bind_unfold, (unlink_file _ data) by done. by rewrite Hrun.
    + intros n' [->|Hn']%elem_of_cons; [|by apply Hgone].
      rewrite Hkept; [apply lookup_delete_eq|].
      intros m Hm H%(inj (String.app _))%(inj (String.app _)). by subst.
    + intros k Hk. rewrite Hkept.
      * simpl. apply lookup_delete_ne. intros <-. by apply (Hk n); [left|].
      * intros m Hm. apply Hk. by right.
Qed.

(** A flat directory is removed without an exception, and nothing
    outside it is touched. *)
Lemma cleanup_flat (d : string) (w : World) :
  flat_dir (fs w) d →
  ∃ files',
    cleanup d w = (Return tt, with_fs (λ _, files') w) ∧
    removed files' d ∧
    (∀ k, k ≠ d → entry_name d k = None → files' !! k = fs w !! k).
Proof.
  intros [Hd Hfiles].
  destruct (unlink_each d (entries (fs w) d) w) as (files1 & Hrun & Hgone & Hkept);
    [apply NoDup_entries|done|].
  assert (Hempty : entries files1 d = []).
  { apply entries_nil. intros n Hs.
    destruct (fs w !! (d +:+ "/" +:+ n)) as [v|] eqn:Hv.
    - apply Hgone, elem_of_entries. eauto.
    - rewrite Hkept; [done|].
      intros m [[v Hm] _]%elem_of_entries H%(inj (String.app _))%(inj (String.app _)).
      subst. congruence. }
  assert (Hd1 : files1 !! d = Some Dir).
  { rewrite Hkept; [done|]. intros n _ H. symmetry in H. by apply child_ne_dir in H. }
  exists (delete d files1). split; [|split].
  - unfold cleanup. rewrite bind_unfold. unfold listdir. rewrite Hd.
    rewrite bind_unfold, Hrun. unfold rmdir. simpl. by rewrite Hd1, Hempty.
  - split; [apply lookup_delete_eq|].
    apply entries_nil. intros n Hs. rewrite lookup_delete_ne by (symmetry; apply child_ne_dir).
    destruct (files1 !! (d +:+ "/" +:+ n)) as [v|] eqn:Hv; [|done].
    assert (n ∈ entries files1 d) as Hn by (apply elem_of_entries; eauto).
    rewrite Hempty in Hn. by apply elem_of_nil in Hn.
  - intros k Hk Hname. rewrite lookup_delete_ne by done. apply Hkept.
    intros n [_ Hs]%elem_of_entries ->. by rewrite entry_name_child in Hname.
Qed.

(** The loop of the [finally] block stops at the first entry that is a
    directory, with the directory it works on still in place. *)
Lemma unlink_each_or_raise (d : string) (l : list string) (w : World) :
  NoDup l →
  (∀ n, n ∈ l → is_Some (fs w !! (d +:+ "/" +:+ n))) →
  (∀ n, n ∈ l → ∃ data, fs w !! (d +:+ "/" +:+ n) = Some (File data)) ∨
  (∃ w', for_each l (λ file, unlink (d +:+ "/" +:+ file)) w = (Raise (OSError EISDIR), w') ∧
         fs w' !! d = fs w !! d).
Proof.
  revert w. induction l as [|n l IH]; intros w Hnd Hsome.
  - left. by intros n ?%elem_of_nil.
  - apply NoDup_cons in Hnd as [Hn Hnd].
    assert (∀ n', n' ∈ l → d +:+ "/" +:+ n ≠ d +:+ "/" +:+ n') as Hne.
    { intros n' Hn' H%(inj (String.app _))%(inj (String.app _)). by subst. }
    destruct (fs w !! (d +:+ "/" +:+ n)) as [[data|]|] eqn:Hfile.
    + destruct (IH (with_fs (delete (d +:+ "/" +:+ n)) w) Hnd) as [Hfiles|(w' & Hrun & Hd)].
      { intros n' Hn'. simpl. rewrite lookup_delete_ne by by apply Hne.
        apply Hsome. by right. }
      * left. intros n' [->|Hn']%elem_of_cons; [eauto|].
        destruct (Hfiles n' Hn') as [data' Hdata']. exists data'.
        simpl in Hdata'. by rewrite lookup_delete_ne in Hdata' by by apply Hne.
      * right. exists w'. split.
        -- simpl. rewrite bind_unfold, (unlink_file _ data) by done. by rewrite Hrun.
        -- rewrite Hd. simpl. apply lookup_delete_ne, child_ne_dir.
    + right. exists w. split; [|done].
      simpl. rewrite bind_unfold. unfold unlink. by rewrite Hfile.
    + destruct (Hsome n) as [v Hv]; [by left|]. congruence.
Qed.

(** A directory that is not flat makes the [finally] block raise; if it
    is a directory at all, it is still there afterwards. *)
Lemma cleanup_not_flat (d : string) (w : World) :
  ¬ flat_dir (fs w) d →
  ∃ e w',
    cleanup d w = (Raise (OSError e), w') ∧
    (fs w !! d = Some Dir → fs w' !! d = Some Dir).
Proof.
  intros Hflat. unfold cleanup. rewrite bind_unfold. unfold listdir.
  destruct (fs w !! d) as [[data|]|] eqn:Hd.
  - by exists ENOTDIR, w.
  - destruct (unlink_each_or_raise d (entries (fs w) d) w) as [Hfiles|(w' & Hrun & Hd')].
    + apply NoDup_entries.
    + by intros n [Hn _]%elem_of_entries.
    + by destruct Hflat.
    + exists EISDIR, w'. rewrite bind_unfold, Hrun. split; [done|]. intros _. congruence.
  - by exists ENOENT, w.
Qed.

(** ** The process runner and the converter *)

Lemma subprocess_call_eq (args : list string) (si : option Z) (w : World) :
  subprocess_call args si w =
    match spawn (platform w) si args (fs w) with
    | Exited rc files => (Return rc, with_fs (λ _, files) (log (EvSpawn args) w))
    | LaunchFailed e => (Raise (OSError e), log (EvSpawn args) w)
    end.
Proof. reflexivity. Qed.

Lemma run_command_eq (args : list string) (w : World) :
  run_command args w =
    match spawn (platform w) (startupinfo_of (platform w)) args (fs w) with
    | Exited rc files => (Return true, with_fs (λ _, files) (log (EvSpawn args) w))
    | LaunchFailed e =>
        (Return false,
         with_stderr ("Exception " +:+ str_oserror e) (log (EvSpawn args) w))
    end.
Proof.
  unfold run_command, try_except. rewrite !bind_unfold. simpl.
  rewrite bind_unfold, subprocess_call_eq. simpl.
  unfold startupinfo_of.
  destruct (String.eqb (os_name (platform w)) "nt"); simpl;
    destruct (spawn _ _ _ _); reflexivity.
Qed.

Lemma run_command_returns (args : list string) (w : World) :
  ∃ b, (run_command args w).1 = Return b.
Proof. rewrite run_command_eq. destruct (spawn _ _ _ _); simpl; eauto. Qed.

Lemma inkscape_available_returns (w : World) :
  ∃ b, (inkscape_available w).1 = Return b.
Proof.
  unfold inkscape_available. rewrite bind_unfold. simpl.
  destruct (_inkscape_available (globals w)) as [b|]; [by exists b|].
  rewrite bind_unfold. cbn [gets]. rewrite bind_unfold.
  destruct (run_command_returns (probe_argv (platform w)) w) as [b Hb].
  unfold probe_argv in Hb.
  destruct (run_command _ w) as [[b'|e] w']; simpl in *; simplify_eq.
  by exists b.
Qed.

Lemma inkscape_available_cached (w : World) (b : bool) :
  _inkscape_available (globals w) = Some b → inkscape_available w = (Return b, w).
Proof. intros H. unfold inkscape_available. rewrite bind_unfold. simpl. by rewrite H. Qed.

(** After the probe the answer is cached, and it is the answer given. *)
Lemma inkscape_available_caches (w : World) (b : bool) :
  (inkscape_available w).1 = Return b →
  _inkscape_available (globals (inkscape_available w).2) = Some b.
Proof.
  unfold inkscape_available. rewrite bind_unfold. simpl.
  destruct (_inkscape_available (globals w)) as [b'|] eqn:Hc; simpl.
  - intros; simplify_eq. done.
  - rewrite bind_unfold. cbn [gets]. rewrite bind_unfold.
    destruct (run_command _ w) as [[b'|e] w']; simpl; intros; simplify_eq. done.
Qed.

(** The probe changes nothing in the globals but its own cache. *)
Lemma inkscape_available_globals (w : World) :
  let g := globals (inkscape_available w).2 in
  _draw_mode g = _draw_mode (globals w) ∧
  _publish_mode g = _publish_mode (globals w) ∧
  _size g = _size (globals w) ∧
  _loaded g = _loaded (globals w).
Proof.
  unfold inkscape_available. rewrite bind_unfold. simpl.
  destruct (_inkscape_available (globals w)) as [b'|] eqn:Hc; simpl; [done|].
  rewrite bind_unfold. cbn [gets]. rewrite bind_unfold.
  pose proof (keeps_run_command globals) as Hk.
  specialize (Hk ltac:(done) ltac:(done) ltac:(done)
    [_inkscape (platform w); "--export-png"] w).
  destruct (run_command _ w) as [[b'|e] w']; simpl in *; by rewrite Hk.
Qed.

(** ** Lines 117-121 *)

Lemma force_svg_eq (w : World) :
  force_svg w =
    if String.eqb (_publish_mode (globals w)) "PNG"
    then
      match inkscape_available w with
      | (Return true, w') => (Return tt, with_globals (set_draw_mode "SVG") w')
      | (Return false, w') => (Return tt, w')
      | (Raise e, w') => (Raise e, w')
      end
    else (Return tt, w).
Proof.
  unfold force_svg. rewrite bind_unfold. simpl.
  destruct (String.eqb _ "PNG"); [|done].
  rewrite bind_unfold. by destruct (inkscape_available w) as [[[]|e] w'].
Qed.

Lemma force_svg_returns (w : World) : (force_svg w).1 = Return tt.
Proof.
  rewrite force_svg_eq. destruct (String.eqb _ "PNG"); [|done].
  destruct (inkscape_available_returns w) as [b Hb].
  destruct (inkscape_available w) as [[[]|e] w']; simpl in *; by simplify_eq.
Qed.

Section ForceFrames.
Context {B : Type} (f : World → B).
Hypothesis f_fs : ∀ g w, f (with_fs g w) = f w.
Hypothesis f_stderr : ∀ l w, f (with_stderr l w) = f w.
Hypothesis f_log : ∀ e w, f (log e w) = f w.
Hypothesis f_globals : ∀ g w, f (with_globals g w) = f w.

Lemma keeps_inkscape_available : keeps f inkscape_available.
Proof.
  unfold inkscape_available.
  apply keeps_bind; [apply keeps_gets|intros [b|]]; frame.
  by apply keeps_run_command.
Qed.

Lemma keeps_force_svg : keeps f force_svg.
Proof.
  unfold force_svg.
  apply keeps_bind; [apply keeps_gets|intros ?].
  apply keeps_if; [|apply keeps_ret].
  apply keeps_bind; [apply keeps_inkscape_available|intros ?]. frame.
Qed.

End ForceFrames.

(** What the probe adds to the log. *)
Lemma force_svg_trace (w : World) :
  trace (force_svg w).2 =
    if String.eqb (_publish_mode (globals w)) "PNG"
    then trace (inkscape_available w).2
    else trace w.
Proof.
  rewrite force_svg_eq. destruct (String.eqb _ "PNG"); [|done].
  by destruct (inkscape_available w) as [[[]|e] w'].
Qed.

Lemma inkscape_available_trace (w : World) :
  trace (inkscape_available w).2 =
    trace w ++
    match _inkscape_available (globals w) with
    | None => [EvSpawn (probe_argv (platform w))]
    | Some _ => []
    end.
Proof.
  unfold inkscape_available. rewrite bind_unfold. simpl.
  destruct (_inkscape_available (globals w)) as [b'|]; simpl; [by rewrite app_nil_r|].
  rewrite bind_unfold. cbn [gets]. rewrite bind_unfold, run_command_eq.
  by destruct (spawn _ _ _ _).
Qed.

(** ** Lines 117-125 *)

Lemma prepare_eq (w : World) :
  let w0 := (force_svg w).2 in
  let d := tmpdir_in (fs w0) in
  prepare w = (Return d, log (EvMkdtemp d) (with_fs (insert d Dir) w0)).
Proof.
  unfold prepare. rewrite bind_unfold.
  pose proof (force_svg_returns w) as H.
  destruct (force_svg w) as [[[]|e] w0]; simpl in *; by simplify_eq.
Qed.

(** ** Lines 126-152 *)

Lemma svg2png_eq (diag_name : string) (w : World) :
  let args := convert_argv (platform w) diag_name in
  svg2png diag_name w =
    match spawn (platform w) (startupinfo_of (platform w)) args (fs w) with
    | Exited rc files => (Return tt, with_fs (λ _, files) (log (EvSpawn args) w))
    | LaunchFailed e =>
        (Return tt,
         with_stderr ("Exception " +:+ str_oserror e) (log (EvSpawn args) w))
    end.
Proof.
  cbv zeta. unfold svg2png. rewrite bind_unfold. cbn [gets].
  rewrite bind_unfold, run_command_eq. unfold convert_argv.
  by destruct (spawn _ _ _ _).
Qed.

Lemma svg2png_returns (diag_name : string) (w : World) :
  (svg2png diag_name w).1 = Return tt.
Proof. rewrite svg2png_eq. by destruct (spawn _ _ _ _). Qed.

Lemma draw_eq (w : World) (files : gmap string node) (cell command : string) :
  fs w = <[tmpdir_in files := Dir]> files →
  let argv :=
    tool_argv command (PyStr.lower (_draw_mode (globals w))) (_size (globals w))
      (diag_name_in files) in
  draw (tmpdir_in files) (cell +:+ newline) command w =
    match spawn (platform w) None argv (staged files cell) with
    | LaunchFailed e => (Raise (OSError e), at_spawn w files cell command)
    | Exited rc files' =>
        let w' := after_tool w files cell command files' in
        (Return (diag_name_in files),
         if String.eqb (_draw_mode (globals w)) "SVG"
            && String.eqb (_publish_mode (globals w)) "PNG"
         then (svg2png (diag_name_in files) w').2
         else w')
    end.
Proof.
  intros Hfs. cbv zeta. unfold draw.
  rewrite bind_unfold. unfold mkstemp at 1. rewrite Hfs, lookup_insert_eq.
  fold (diag_name_in files).
  rewrite bind_unfold. cbn [write_close modify].
  replace (with_fs _ (with_fs _ w)) with (with_fs (λ _, staged files cell) w).
  2:{ unfold with_fs, staged. simpl. rewrite Hfs. f_equal.
      by rewrite insert_insert_eq. }
  do 5 (rewrite bind_unfold; cbn [gets modify]).
  rewrite bind_unfold, subprocess_call_eq.
  change (spawn _ None ?a _) with
    (spawn (platform w) None a (staged files cell)).
  unfold tool_argv. cbn [fst snd compose globals with_argv with_fs].
  destruct (spawn _ _ _ _) as [rc files'|e]; [|done].
  do 3 (rewrite bind_unfold; cbn [gets modify]).
  rewrite bind_unfold.
  cbn [compose globals with_argv with_fs log].
  destruct (_ && _).
  - pose proof (svg2png_returns (diag_name_in files)
      (after_tool w files cell command files')) as Hr.
    unfold after_tool, at_spawn, tool_argv in *.
    cbn [fst snd compose globals with_argv with_fs log sys_argv] in *.
    destruct (svg2png _ _) as [[[]|e] w']; simpl in *; by simplify_eq.
  - reflexivity.
Qed.

(** What the tool and the converter leave of a flat directory. *)
Lemma svg2png_flat (diag_name d : string) (w : World) :
  keeps_dirs_flat (platform w) → flat_dir (fs w) d →
  flat_dir (fs (svg2png diag_name w).2) d.
Proof.
  intros Hp Hflat. rewrite svg2png_eq. cbv zeta.
  destruct (spawn _ _ _ _) as [rc files'|e] eqn:Hs; simpl; [|done].
  by eapply Hp.
Qed.

Lemma draw_flat (w : World) (files : gmap string node) (cell command : string) :
  fs w = <[tmpdir_in files := Dir]> files →
  keeps_dirs_flat (platform w) →
  flat_dir (fs (draw (tmpdir_in files) (cell +:+ newline) command w).2) (tmpdir_in files).
Proof.
  intros Hfs Hp. rewrite draw_eq by done. cbv zeta.
  destruct (spawn _ _ _ _) as [rc files'|e] eqn:Hs; simpl; [|apply flat_staged].
  assert (flat_dir files' (tmpdir_in files)) as Hflat.
  { eapply Hp; [done|]. apply flat_staged. }
  destruct (_ && _); [|done].
  by apply svg2png_flat.
Qed.

(** ** The whole pipeline *)

Lemma prepare_with_tmpdir (w : World) :
  prepare w = (Return (tmpdir_in (fs (force_svg w).2)), with_tmpdir (force_svg w).2).
Proof. apply prepare_eq. Qed.

(** The [try] block, by what comes of starting the dialect tool. *)
Lemma try_block_eq (w : World) (cell command : string) :
  let d := tmpdir_in (fs w) in
  let dn := diag_name_in (fs w) in
  let argv :=
    tool_argv command (PyStr.lower (_draw_mode (globals w))) (_size (globals w)) dn in
  (diag_name ← draw d (cell +:+ newline) command; read_artifact diag_name) (with_tmpdir w) =
    match spawn (platform w) None argv (staged (fs w) cell) with
    | LaunchFailed e => (Raise (OSError e), at_spawn (with_tmpdir w) (fs w) cell command)
    | Exited rc files' =>
        let w' := after_tool (with_tmpdir w) (fs w) cell command files' in
        read_artifact dn
          (if String.eqb (_draw_mode (globals w)) "SVG"
              && String.eqb (_publish_mode (globals w)) "PNG"
           then (svg2png dn w').2
           else w')
    end.
Proof.
  cbv zeta. rewrite bind_unfold, (draw_eq (with_tmpdir w) (fs w)) by done.
  cbv zeta. change (platform (with_tmpdir w)) with (platform w).
  change (globals (with_tmpdir w)) with (globals w).
  by destruct (spawn _ _ _ _).
Qed.

Lemma render_eq (w : World) (cell command : string) :
  let w0 := (force_svg w).2 in
  render cell command w =
    (data ←
       try_finally
         (diag_name ← draw (tmpdir_in (fs w0)) (cell +:+ newline) command;
          read_artifact diag_name)
         (cleanup (tmpdir_in (fs w0)));
     publish data) (with_tmpdir w0).
Proof. cbv zeta. unfold render. by rewrite bind_unfold, prepare_with_tmpdir. Qed.

Section RenderFrames.
Context {B : Type} (f : World → B).
Hypothesis f_fs : ∀ g w, f (with_fs g w) = f w.
Hypothesis f_stderr : ∀ l w, f (with_stderr l w) = f w.
Hypothesis f_log : ∀ e w, f (log e w) = f w.

Lemma keeps_publish data : (∀ p w, f (with_display p w) = f w) → keeps f (publish data).
Proof. intros f_display. unfold publish, publish_display_data. frame. Qed.

Lemma keeps_mkstemp d : keeps f (mkstemp d).
Proof. intros w. unfold mkstemp. repeat case_match; simpl; auto. Qed.

Lemma keeps_draw d code command :
  (∀ a w, f (with_argv a w) = f w) → keeps f (draw d code command).
Proof.
  intros f_argv. unfold draw, write_close.
  apply keeps_bind; [apply keeps_mkstemp|intros ?].
  frame.
  - by apply keeps_subprocess_call.
  - by apply keeps_svg2png.
Qed.

(** Whatever [diag] does after lines 117-121 leaves alone what neither
    the file system, the streams nor [sys.argv] can change. *)
Lemma render_keeps cell command w :
  (∀ a w, f (with_argv a w) = f w) →
  (∀ p w, f (with_display p w) = f w) →
  f (render cell command w).2 = f (force_svg w).2.
Proof.
  intros f_argv f_display. rewrite render_eq. cbv zeta.
  set (w0 := (force_svg w).2).
  transitivity (f (with_tmpdir w0)); [|unfold with_tmpdir; by rewrite f_log, f_fs].
  generalize (with_tmpdir w0). change (keeps f
    (try_finally (draw (tmpdir_in (fs w0)) (cell +:+ newline) command
                  ≫= λ diag_name, read_artifact diag_name)
       (cleanup (tmpdir_in (fs w0))) ≫= λ data, publish data)).
  apply keeps_bind; [|intros ?; by apply keeps_publish].
  apply keeps_try_finally; [|by apply keeps_cleanup].
  apply keeps_bind; [by apply keeps_draw|intros ?]. by apply keeps_read_artifact.
Qed.

End RenderFrames.

Lemma render_globals cell command w :
  globals (render cell command w).2 = globals (force_svg w).2.
Proof. by apply render_keeps. Qed.

Lemma render_registered cell command w :
  registered (render cell command w).2 = registered w.
Proof.
  rewrite (render_keeps registered) by done.
  by apply (keeps_force_svg registered).
Qed.

Lemma render_try_block (w : World) (cell command : string) :
  let w0 := (force_svg w).2 in
  render cell command w =
    match try_block w0 cell command with
    | (r, w1) =>
        match cleanup (tmpdir_in (fs w0)) w1 with
        | (Return _, w2) =>
            match r with
            | Return data => publish data w2
            | Raise e => (Raise e, w2)
            end
        | (Raise e, w2) => (Raise e, w2)
        end
    end.
Proof.
  cbv zeta. rewrite render_eq. cbv zeta. rewrite bind_unfold.
  unfold try_finally. fold (try_block (force_svg w).2 cell command).
  destruct (try_block _ _ _) as [r w1].
  destruct (cleanup _ w1) as [[[]|e] w2]; [|done]. by destruct r.
Qed.

(** Neither the [finally] block nor the publishing step is logged, and
    neither assigns [sys.argv]. *)
Lemma render_after_try {B} (f : World → B) (w : World) (cell command : string) :
  (∀ g w, f (with_fs g w) = f w) →
  (∀ p w, f (with_display p w) = f w) →
  f (render cell command w).2 = f (try_block (force_svg w).2 cell command).2.
Proof.
  intros f_fs f_display. rewrite render_try_block. cbv zeta.
  destruct (try_block _ _ _) as [r w1]. simpl.
  pose proof (keeps_cleanup f f_fs (tmpdir_in (fs (force_svg w).2)) w1) as Hc.
  destruct (cleanup _ w1) as [[[]|e] w2]; simpl in *; [|done].
  destruct r as [data|e]; simpl; [|done].
  by rewrite (keeps_publish f data f_display w2).
Qed.

Lemma try_block_flat (w : World) (cell command : string) :
  keeps_dirs_flat (platform w) →
  flat_dir (fs (try_block w cell command).2) (tmpdir_in (fs w)).
Proof.
  intros Hp. unfold try_block. rewrite bind_unfold.
  pose proof (draw_flat (with_tmpdir w) (fs w) cell command eq_refl Hp) as Hflat.
  destruct (draw _ _ _ _) as [[dn|e] w1]; simpl in *; [|done].
  by rewrite (keeps_read_artifact fs).
Qed.

(** With well-behaved executables the [finally] block succeeds, so the
    outcome of the [try] block is the outcome of the call. *)
Lemma render_flat (w : World) (cell command : string) :
  keeps_dirs_flat (platform w) →
  let w0 := (force_svg w).2 in
  ∃ files',
    removed files' (tmpdir_in (fs w0)) ∧
    render cell command w =
      match try_block w0 cell command with
      | (Return data, w1) => publish data (with_fs (λ _, files') w1)
      | (Raise e, w1) => (Raise e, with_fs (λ _, files') w1)
      end.
Proof.
  intros Hp. cbv zeta. rewrite render_try_block. cbv zeta.
  assert (keeps_dirs_flat (platform (force_svg w).2)) as Hp0.
  { by rewrite (keeps_force_svg platform). }
  pose proof (try_block_flat _ cell command Hp0) as Hflat.
  destruct (try_block _ _ _) as [r w1]. simpl in Hflat.
  destruct (cleanup_flat _ _ Hflat) as (files' & -> & Hrm & _).
  exists files'. split; [done|]. by destruct r.
Qed.

(** The same from what the [finally] block finds, whatever the
    executables are like. *)
Lemma render_cleans (w : World) (cell command : string) :
  let w0 := (force_svg w).2 in
  flat_dir (fs (at_cleanup w cell command)) (tmpdir_in (fs w0)) →
  ∃ files',
    removed files' (tmpdir_in (fs w0)) ∧
    render cell command w =
      match try_block w0 cell command with
      | (Return data, w1) => publish data (with_fs (λ _, files') w1)
      | (Raise e, w1) => (Raise e, with_fs (λ _, files') w1)
      end.
Proof.
  cbv zeta. unfold at_cleanup. intros Hflat. rewrite render_try_block. cbv zeta.
  destruct (try_block _ _ _) as [r w1]. simpl in Hflat.
  destruct (cleanup_flat _ _ Hflat) as (files' & -> & Hrm & _).
  exists files'. split; [done|]. by destruct r.
Qed.

Lemma try_block_display (w : World) (cell command : string) :
  display (try_block w cell command).2 = display w.
Proof.
  unfold try_block.
  assert (keeps display
    (draw (tmpdir_in (fs w)) (cell +:+ newline) command
       ≫= λ diag_name, read_artifact diag_name)) as Hk.
  { apply keeps_bind; [by apply keeps_draw|intros ?]. by apply keeps_read_artifact. }
  by rewrite Hk.
Qed.

(** When the [finally] block does not find a flat directory, the call
    raises the [OSError] of that block and publishes nothing. *)
Lemma render_cleanup_fails (w : World) (cell command : string) :
  let d := tmpdir_in (fs (force_svg w).2) in
  let w1 := at_cleanup w cell command in
  ¬ flat_dir (fs w1) d →
  ∃ e w',
    render cell command w = (Raise (OSError e), w') ∧
    display w' = display w ∧
    (fs w1 !! d = Some Dir → fs w' !! d = Some Dir).
Proof.
  cbv zeta. unfold at_cleanup. intros Hflat.
  pose proof (try_block_display (force_svg w).2 cell command) as Hdisp.
  rewrite (keeps_force_svg display) in Hdisp by done.
  rewrite render_try_block. cbv zeta.
  destruct (try_block _ _ _) as [r w1]. simpl in *.
  destruct (cleanup_not_flat _ _ Hflat) as (e & w' & Hc & Hd).
  pose proof (keeps_cleanup display ltac:(done) (tmpdir_in (fs (force_svg w).2)) w1) as Hk.
  rewrite Hc in *. simpl in Hk. exists e, w'. split; [done|]. split; [congruence|done].
Qed.

Lemma publish_eq (data : list byte) (w : World) :
  publish data w =
    (Return tt,
     with_display
       {| source := source_of (_publish_mode (globals w));
          mime := mime_of (_publish_mode (globals w));
          payload := data |} w).
Proof.
  unfold publish, source_of, mime_of. rewrite bind_unfold. cbn [gets compose].
  by destruct (String.eqb _ "SVG").
Qed.

(** The dialect tool cannot be started: the call raises the [OSError]
    of the launch once the directory is removed. *)
Lemma render_launch_failed (w : World) (cell command : string) (e : errno) :
  tool_call w cell command = LaunchFailed e →
  let w0 := (force_svg w).2 in
  ∃ files',
    removed files' (tmpdir_in (fs w0)) ∧
    render cell command w =
      (Raise (OSError e),
       with_fs (λ _, files') (at_spawn (with_tmpdir w0) (fs w0) cell command)).
Proof.
  unfold tool_call, tool_args. cbv zeta. intros Hcall.
  rewrite render_try_block. cbv zeta. unfold try_block.
  rewrite try_block_eq. cbv zeta. rewrite Hcall.
  destruct (cleanup_flat (tmpdir_in (fs (force_svg w).2))
              (at_spawn (with_tmpdir (force_svg w).2) (fs (force_svg w).2) cell command))
    as (files' & -> & Hrm & _); [apply flat_staged|].
  by exists files'.
Qed.

Lemma read_artifact_trace (diag_name : string) (w : World) :
  trace (read_artifact diag_name w).2 =
    trace w ++ [EvOpen (artifact_path diag_name (_publish_mode (globals w)))].
Proof.
  unfold read_artifact. rewrite bind_unfold. cbn [gets compose].
  unfold read_binary. cbv zeta. by repeat case_match.
Qed.

Lemma svg2png_trace (diag_name : string) (w : World) :
  trace (svg2png diag_name w).2 =
    trace w ++ [EvSpawn (convert_argv (platform w) diag_name)].
Proof. rewrite svg2png_eq. cbv zeta. by destruct (spawn _ _ _ _). Qed.

(** The log of the [try] block. *)
Lemma try_block_trace (w : World) (cell command : string) :
  let dn := diag_name_in (fs w) in
  let argv :=
    tool_argv command (PyStr.lower (_draw_mode (globals w))) (_size (globals w)) dn in
  trace (try_block w cell command).2 =
    trace w ++ [EvMkdtemp (tmpdir_in (fs w)); EvArgv argv; EvSpawn argv] ++
    match spawn (platform w) None argv (staged (fs w) cell) with
    | LaunchFailed _ => []
    | Exited _ _ =>
        [EvArgv (sys_argv w)] ++
        (if String.eqb (_draw_mode (globals w)) "SVG"
            && String.eqb (_publish_mode (globals w)) "PNG"
         then [EvSpawn (convert_argv (platform w) dn)]
         else []) ++
        [EvOpen (artifact_path dn (_publish_mode (globals w)))]
    end.
Proof.
  cbv zeta. unfold try_block. rewrite try_block_eq. cbv zeta.
  destruct (spawn _ _ _ _) as [rc files'|e]; simpl.
  - rewrite read_artifact_trace.
    match goal with |- context [if ?b then _ else _] => destruct b end.
    + rewrite svg2png_trace, (keeps_svg2png globals) by done. simpl.
      by rewrite <- !app_assoc.
    + simpl. by rewrite <- !app_assoc.
  - by rewrite <- !app_assoc.
Qed.

Lemma try_block_argv (w : World) (cell command : string) :
  let argv :=
    tool_argv command (PyStr.lower (_draw_mode (globals w))) (_size (globals w))
      (diag_name_in (fs w)) in
  sys_argv (try_block w cell command).2 =
    match spawn (platform w) None argv (staged (fs w) cell) with
    | LaunchFailed _ => argv
    | Exited _ _ => sys_argv w
    end.
Proof.
  cbv zeta. unfold try_block. rewrite try_block_eq. cbv zeta.
  destruct (spawn _ _ _ _) as [rc files'|e]; simpl; [|done].
  rewrite (keeps_read_artifact sys_argv) by done.
  match goal with |- context [if ?b then _ else _] => destruct b end; [|done].
  by rewrite (keeps_svg2png sys_argv).
Qed.

(** ** The mode commands and the session *)

Lemma int_eq (s : string) (w : World) :
  int s w =
    match PyStr.int (unicode (platform w)) s with
    | Some n => (Return n, w)
    | None => (Raise (ValueError s), w)
    end.
Proof.
  unfold int. rewrite bind_unfold. cbn [gets compose].
  by destruct (PyStr.int _ _).
Qed.

Lemma setdiagsize_cases (line : string) (w : World) :
  (∃ x y, setdiagsize line w = (Return tt, with_globals (set_size (x, y)) w)) ∨
  (∃ s, setdiagsize line w = (Raise (ValueError s), w)).
Proof.
  unfold setdiagsize. rewrite bind_unfold, int_eq.
  destruct (PyStr.int _ (PyStr.slice_to _ _)) as [x|]; [|right; eauto].
  rewrite bind_unfold, int_eq.
  destruct (PyStr.int _ (PyStr.slice_from _ _)) as [y|]; [|right; eauto].
  left. by exists x, y.
Qed.

Lemma setdiagsize_globals (line : string) (w : World) :
  let g := globals (setdiagsize line w).2 in
  _draw_mode g = _draw_mode (globals w) ∧
  _publish_mode g = _publish_mode (globals w) ∧
  _inkscape_available g = _inkscape_available (globals w) ∧
  _loaded g = _loaded (globals w).
Proof.
  cbv zeta. by destruct (setdiagsize_cases line w) as [(x & y & ->)|(s & ->)].
Qed.

Lemma force_svg_globals (w : World) :
  let g := globals (force_svg w).2 in
  _publish_mode g = _publish_mode (globals w) ∧
  _size g = _size (globals w) ∧
  _loaded g = _loaded (globals w) ∧
  (_draw_mode g = _draw_mode (globals w) ∨ _draw_mode g = "SVG").
Proof.
  cbv zeta. rewrite force_svg_eq.
  destruct (String.eqb _ "PNG"); [|by auto].
  destruct (inkscape_available_globals w) as (Hd & Hp & Hs & Hl).
  destruct (inkscape_available w) as [[[]|e] w']; simpl in *; auto.
Qed.

Lemma force_svg_coherent (w : World) :
  coherent (globals w) → coherent (globals (force_svg w).2).
Proof.
  intros Hc. pose proof Hc as (Hvalid & Hsvg & Hconv). rewrite force_svg_eq.
  destruct (String.eqb_spec (_publish_mode (globals w)) "PNG") as [Hpng|Hne]; [|done].
  destruct (inkscape_available_globals w) as (Hd & Hp & Hs & Hl).
  pose proof (inkscape_available_caches w) as Hcache.
  destruct (inkscape_available w) as [[[]|e] w'] eqn:Hia; simpl in *.
  - specialize (Hcache true eq_refl).
    split; [|split]; simpl; [|congruence|done].
    split; simpl; [by left|]. rewrite Hp. apply Hvalid.
  - specialize (Hcache false eq_refl).
    unfold coherent, valid_modes. rewrite Hd, Hp.
    split; [done|]. split; [done|].
    intros Hdraw _. specialize (Hconv Hdraw Hpng).
    rewrite (inkscape_available_cached w true Hconv) in Hia. by simplify_eq.
  - by destruct (inkscape_available_returns w) as [b Hb]; rewrite Hia in Hb.
Qed.

Lemma exec_diag_globals (c : command) (w : World) :
  match c with
  | Setdiagsize _ | Setdiagsvg _ | Setdiagpng _ | LoadExtension _ => True
  | _ => globals (step w c) = globals (force_svg w).2
  end.
Proof.
  destruct c; try done; unfold step; simpl;
    unfold actdiag, blockdiag, nwdiag, seqdiag, rackdiag, packetdiag;
    rewrite diag_render; apply render_globals.
Qed.

(** Every command keeps the globals coherent. *)
Lemma step_coherent (w : World) (c : command) :
  coherent (globals w) → coherent (globals (step w c)).
Proof.
  intros Hc. pose proof (exec_diag_globals c w) as Hg.
  destruct c; try (rewrite Hg; by apply force_svg_coherent).
  - destruct Hc as ([Hd Hp] & Hsvg & Hconv).
    destruct (setdiagsize_globals line w) as (Hd' & Hp' & Hi' & _).
    unfold step. simpl. unfold coherent, valid_modes.
    by rewrite Hd', Hp', Hi'.
  - unfold step. simpl. split; [|split]; simpl; [|done|done].
    split; by left.
  - unfold step. simpl. split; [|split]; simpl; [|done|done].
    split; by right.
  - unfold step. simpl. unfold load_ipython_extension. rewrite bind_unfold.
    cbn [gets compose]. by destruct (_loaded (globals w)).
Qed.

(** Validity of the modes alone is kept as well, from any world. *)
Lemma step_valid_modes (w : World) (c : command) :
  valid_modes (globals w) → valid_modes (globals (step w c)).
Proof.
  intros [Hd Hp]. pose proof (exec_diag_globals c w) as Hg.
  destruct (force_svg_globals w) as (Hp' & _ & _ & Hd').
  destruct c; try (rewrite Hg; split; [destruct Hd' as [->| ->]; [done|by left]|by rewrite Hp']).
  - destruct (setdiagsize_globals line w) as (Hd'' & Hp'' & _).
    unfold step. simpl. unfold valid_modes. by rewrite Hd'', Hp''.
  - split; by left.
  - split; by right.
  - unfold step. simpl. unfold load_ipython_extension. rewrite bind_unfold.
    cbn [gets compose]. by destruct (_loaded (globals w)).
Qed.

Lemma init_coherent : coherent init_globals.
Proof. split; [|split]; simpl; [|done|done]. split; by left. Qed.

Lemma session_app (cs cs' : list command) (w : World) :
  session (cs ++ cs') w = session cs' (session cs w).
Proof. unfold session. apply foldl_app. Qed.

Lemma session_coherent (cs : list command) (w : World) :
  coherent (globals w) → coherent (globals (session cs w)).
Proof.
  revert w. induction cs as [|c cs IH]; intros w Hw; [done|].
  simpl. apply IH. by apply step_coherent.
Qed.

(** ** Registration *)

Lemma load_again (ip : string) (w : World) :
  _loaded (globals w) = true → load_ipython_extension ip w = (Return tt, w).
Proof.
  intros H. unfold load_ipython_extension. rewrite bind_unfold.
  cbn [gets compose]. by rewrite H.
Qed.

Lemma load_first (ip : string) (w : World) :
  _loaded (globals w) = false →
  load_ipython_extension ip w =
    (Return tt,
     with_globals (set_loaded true)
       (with_registered ((λ m, (ip, m.1, m.2)) <$> BlockdiagMagics) w)).
Proof.
  intros H. unfold load_ipython_extension. rewrite bind_unfold.
  cbn [gets compose]. by rewrite H.
Qed.

(** Once loaded, always loaded, and nothing is registered any more. *)
Lemma step_loaded (w : World) (c : command) :
  _loaded (globals w) = true →
  _loaded (globals (step w c)) = true ∧ registered (step w c) = registered w.
Proof.
  intros Hl. pose proof (exec_diag_globals c w) as Hg.
  destruct (force_svg_globals w) as (_ & _ & Hl' & _).
  destruct c; try (rewrite Hg, Hl'; split; [done|]; unfold step; simpl;
    unfold actdiag, blockdiag, nwdiag, seqdiag, rackdiag, packetdiag;
    rewrite diag_render; apply render_registered).
  - unfold step. simpl.
    by destruct (setdiagsize_cases line w) as [(x & y & ->)|(s & ->)].
  - done.
  - done.
  - unfold step. simpl. by rewrite load_again.
Qed.

Lemma session_loaded (cs : list command) (w : World) :
  _loaded (globals w) = true →
  _loaded (globals (session cs w)) = true ∧ registered (session cs w) = registered w.
Proof.
  revert w. induction cs as [|c cs IH]; intros w Hl; [done|].
  simpl. destruct (step_loaded w c Hl) as [Hl1 Hr1].
  destruct (IH _ Hl1) as [Hl2 Hr2]. split; [done|]. by rewrite Hr2.
Qed.

(** ** The draw format between two [setdiagpng] *)

Lemma step_draw_svg (w : World) (c : command) :
  not_setdiagpng c = true →
  _draw_mode (globals w) = "SVG" → _draw_mode (globals (step w c)) = "SVG".
Proof.
  intros Hc Hd. pose proof (exec_diag_globals c w) as Hg.
  destruct (force_svg_globals w) as (_ & _ & _ & Hd').
  destruct c; try (rewrite Hg; destruct Hd'; congruence); try done.
  - destruct (setdiagsize_globals line w) as (Hs & _).
    unfold step. simpl. by rewrite Hs.
  - unfold step. simpl. unfold load_ipython_extension. rewrite bind_unfold.
    cbn [gets compose]. by destruct (_loaded (globals w)).
Qed.

Lemma session_draw_svg (cs : list command) (w : World) :
  forallb not_setdiagpng cs = true →
  _draw_mode (globals w) = "SVG" → _draw_mode (globals (session cs w)) = "SVG".
Proof.
  revert w. induction cs as [|c cs IH]; intros w Hcs Hd; [done|].
  simpl in Hcs. apply andb_prop in Hcs as [Hc Hcs].
  simpl. apply IH; [done|]. by apply step_draw_svg.
Qed.

(** ** The fixtures are well behaved *)

Lemma flat_insert_file (files : gmap string node) (p d : string) (data : list byte) :
  files !! p ≠ Some Dir → flat_dir files d → flat_dir (<[p := File data]> files) d.
Proof.
  intros Hp [Hd Hfiles]. split.
  - rewrite lookup_insert_ne; [done|]. intros ->. done.
  - intros n [[v Hv] Hs]%elem_of_entries.
    destruct (decide (p = d +:+ "/" +:+ n)) as [->|Hne].
    + rewrite lookup_insert_eq. eauto.
    + rewrite lookup_insert_ne in Hv |- * by done.
      apply Hfiles, elem_of_entries. eauto.
Qed.

Lemma write_fixture_flat (fixture : list byte) (args : list string)
    (files files' : gmap string node) (rc : Z) (d : string) :
  write_fixture fixture args files = Exited rc files' →
  flat_dir files d → flat_dir files' d.
Proof.
  unfold write_fixture. intros H Hflat.
  destruct (output_of args) as [p|]; [|by simplify_eq].
  destruct (files !! p) as [[data|]|] eqn:Hp; simplify_eq; [|done|];
    apply flat_insert_file; congruence.
Qed.

Lemma all_installed_flat (fixture : list byte) : keeps_dirs_flat (all_installed fixture).
Proof. intros si args files rc files' d. apply write_fixture_flat. Qed.

Lemma silent_tools_flat : keeps_dirs_flat silent_tools.
Proof.
  intros si [|prog args] files rc files' d; simpl; [done|].
  destruct (String.eqb _ _); [done|]. by intros [= _ <-].
Qed.

(** ** Process Runner *)

(** C6: [run_command] returns [True] whenever the process was started,
    whatever its exit status, returns [False] (after a line on the error
    stream) when the process could not be started, and raises in neither
    case. *)
Theorem run_command_reports_launch (args : list string) (w : World) :
  match spawn (platform w) (startupinfo_of (platform w)) args (fs w) with
  | Exited rc files =>
      run_command args w =
        (Return true, with_fs (λ _, files) (log (EvSpawn args) w))
  | LaunchFailed e =>
      run_command args w =
        (Return false,
         with_stderr ("Exception " +:+ str_oserror e) (log (EvSpawn args) w))
  end ∧
  ∀ e, (run_command args w).1 ≠ Raise e.
Proof.
  rewrite run_command_eq. by destruct (spawn _ _ _ _).
Qed.

(** ** Canvas size *)

Example setdiagsize_640_480 (w : World) :
  setdiagsize "640,480" w = (Return tt, with_globals (set_size (640, 480)) w).
Proof. reflexivity. Qed.

Example setdiagsize_10_comma (w : World) :
  setdiagsize "10," w = (Raise (ValueError ""), w).
Proof. reflexivity. Qed.

Example setdiagsize_one_digit (w : World) :
  setdiagsize "5" w = (Raise (ValueError ""), w).
Proof. reflexivity. Qed.

(** Without a comma in the line, the first number is read from the line
    without its last character and the second from the whole line. *)
Lemma setdiagsize_no_comma (line : string) (w : World) :
  PyStr.find line "," = -1 →
  setdiagsize line w =
    (x ← int (PyStr.slice_to line (-1));
     y ← int line;
     modify (with_globals (set_size (x, y)))) w.
Proof. intros H. unfold setdiagsize. rewrite H. reflexivity. Qed.

(** C2: a line without a comma is not rejected.  [find] answers [-1],
    so the first slice is the line without its last character and the
    second slice is the whole line: ["640"] sets the canvas size to
    [(64, 640)] and no [ValueError] is raised. *)
Theorem setdiagsize_without_comma (w : World) :
  PyStr.find "640" "," = -1 ∧
  setdiagsize "640" w = (Return tt, with_globals (set_size (64, 640)) w).
Proof. split; reflexivity. Qed.

(** ** Render modes *)

(** C7: the module starts in SVG/SVG, and after any sequence of commands
    both the draw format and the publish format are ["SVG"] or ["PNG"]. *)
Theorem modes_always_valid (p : Platform) (files : gmap string node)
    (argv : list string) (cs : list command) :
  _draw_mode init_globals = "SVG" ∧
  _publish_mode init_globals = "SVG" ∧
  valid_modes (globals (session cs (boot p files argv))).
Proof.
  split; [done|]. split; [done|].
  apply (session_coherent cs (boot p files argv)), init_coherent.
Qed.

(** ** Extension activation *)

(** C8: the first activation registers the magics of [BlockdiagMagics]
    once and sets [_loaded]; from then on, whatever commands are run in
    between, every further activation returns without touching the
    world, and the registry stays as the first activation left it. *)
Theorem load_registers_once (w : World) (ip : string) :
  _loaded (globals w) = false →
  let w1 := step w (LoadExtension ip) in
  registered w1 = registered w ++ ((λ m, (ip, m.1, m.2)) <$> BlockdiagMagics) ∧
  _loaded (globals w1) = true ∧
  ∀ cs ip',
    load_ipython_extension ip' (session cs w1) = (Return tt, session cs w1) ∧
    registered (session cs w1) = registered w1.
Proof.
  intros Hl. cbv zeta. unfold step. simpl. rewrite load_first by done. simpl.
  split; [done|]. split; [done|]. intros cs ip'.
  match goal with |- context [session cs ?w1] =>
    destruct (session_loaded cs w1 eq_refl) as [Hl1 Hr1] end.
  split; [by apply load_again|done].
Qed.

(** The theorem at work on the freshly imported module. *)
Lemma load_registers_once_witness :
  _loaded (globals (boot nothing_installed ∅ ["ipython"])) = false ∧
  let w1 := step (boot nothing_installed ∅ ["ipython"]) (LoadExtension "shell") in
  registered w1 =
    registered (boot nothing_installed ∅ ["ipython"]) ++
    ((λ m, ("shell", m.1, m.2)) <$> BlockdiagMagics) ∧
  _loaded (globals w1) = true ∧
  ∀ cs ip',
    load_ipython_extension ip' (session cs w1) = (Return tt, session cs w1) ∧
    registered (session cs w1) = registered w1.
Proof.
  split; [reflexivity|].
  apply (load_registers_once (boot nothing_installed ∅ ["ipython"]) "shell").
  reflexivity.
Defined.

(** ** Launch failure of the dialect tool *)

Lemma force_svg_no_open (w : World) (p : string) :
  EvOpen p ∈ trace (force_svg w).2 → EvOpen p ∈ trace w.
Proof.
  rewrite force_svg_trace. destruct (String.eqb _ "PNG"); [|done].
  rewrite inkscape_available_trace.
  intros [H|H]%elem_of_app; [done|].
  destruct (_inkscape_available (globals w)).
  - by apply elem_of_nil in H.
  - by apply list_elem_of_singleton in H.
Qed.

(** What a render call comes to when the dialect tool cannot be started. *)
Lemma launch_failure_eq (w : World) (line cell command : string) (e : errno) :
  tool_call w cell command = LaunchFailed e →
  let r := diag line cell command w in
  let w0 := (force_svg w).2 in
  r.1 = Raise (OSError e) ∧
  trace r.2 =
    trace w0 ++
    [EvMkdtemp (tmpdir_in (fs w0)); EvArgv (tool_args w command);
     EvSpawn (tool_args w command)] ∧
  sys_argv r.2 = tool_args w command.
Proof.
  intros Hcall. cbv zeta. rewrite diag_render.
  destruct (render_launch_failed w cell command e Hcall) as (files' & Hrm & ->).
  simpl. split; [done|]. split; [by rewrite <- !app_assoc|done].
Qed.

(** C1, as the code has it: the dialect tool is started by
    [subprocess.call] directly, not through [run_command].  When it
    cannot be started the [OSError] of the launch is not caught: no
    diagnostic is printed for it, no file is opened for reading, the
    temporary directory is removed by the [finally] block, nothing is
    published, and the [OSError] propagates to the caller. *)
Theorem launch_failure_propagates (w : World) (line cell command : string) (e : errno) :
  tool_call w cell command = LaunchFailed e →
  let r := diag line cell command w in
  let w0 := (force_svg w).2 in
  r.1 = Raise (OSError e) ∧
  trace r.2 =
    trace w0 ++
    [EvMkdtemp (tmpdir_in (fs w0)); EvArgv (tool_args w command);
     EvSpawn (tool_args w command)] ∧
  (∀ p, EvOpen p ∈ trace r.2 → EvOpen p ∈ trace w) ∧
  stderr r.2 = stderr w0 ∧
  display r.2 = display w ∧
  removed (fs r.2) (tmpdir_in (fs w0)).
Proof.
  intros Hcall. cbv zeta. rewrite diag_render.
  destruct (render_launch_failed w cell command e Hcall) as (files' & Hrm & ->).
  simpl. split; [done|]. split; [by rewrite <- !app_assoc|].
  split; [|split; [done|split; [|done]]].
  - rewrite <- !app_assoc. intros p [H|H]%elem_of_app; [by apply force_svg_no_open|].
    repeat (apply elem_of_cons in H as [H|H]; [done|]). by apply elem_of_nil in H.
  - by apply (keeps_force_svg display).
Qed.

(** The theorem at work where nothing is installed. *)
Lemma launch_failure_propagates_witness :
  tool_call (boot nothing_installed ∅ ["ipython"]) cell_text "blockdiag"
    = LaunchFailed ENOENT ∧
  let w := boot nothing_installed ∅ ["ipython"] in
  let r := diag "" cell_text "blockdiag" w in
  let w0 := (force_svg w).2 in
  r.1 = Raise (OSError ENOENT) ∧
  trace r.2 =
    trace w0 ++
    [EvMkdtemp (tmpdir_in (fs w0)); EvArgv (tool_args w "blockdiag");
     EvSpawn (tool_args w "blockdiag")] ∧
  (∀ p, EvOpen p ∈ trace r.2 → EvOpen p ∈ trace w) ∧
  stderr r.2 = stderr w0 ∧
  display r.2 = display w ∧
  removed (fs r.2) (tmpdir_in (fs w0)).
Proof.
  split; [reflexivity|].
  apply (launch_failure_propagates (boot nothing_installed ∅ ["ipython"])
           "" cell_text "blockdiag" ENOENT).
  reflexivity.
Defined.

(** C1 as stated fails where nothing is installed: the launch of
    [blockdiag] fails, and the call ends with the [OSError] of the launch
    without having tried to open any file; there is no file-not-found
    error from reading the artifact. *)
Lemma launch_failure_not_a_read_error :
  let w := boot nothing_installed ∅ ["ipython"] in
  let r := blockdiag "" cell_text w in
  tool_call w cell_text "blockdiag" = LaunchFailed ENOENT ∧
  r.1 = Raise (OSError ENOENT) ∧
  r.1 ≠ Raise (IOError ENOENT) ∧
  opened (trace r.2) = [] ∧
  stderr r.2 = [].
Proof. cbv zeta. vm_compute. by repeat split. Qed.

(** ** Order of the external calls when publishing PNG *)

Lemma diag_trace (w : World) (line cell command : string) :
  let w0 := (force_svg w).2 in
  trace (diag line cell command w).2 = trace (try_block w0 cell command).2.
Proof. cbv zeta. rewrite diag_render. by apply render_after_try. Qed.

Lemma force_svg_png (w : World) (available : bool) :
  _publish_mode (globals w) = "PNG" →
  (inkscape_available w).1 = Return available →
  force_svg w =
    (Return tt,
     if available
     then with_globals (set_draw_mode "SVG") (inkscape_available w).2
     else (inkscape_available w).2).
Proof.
  intros Hp Ha. rewrite force_svg_eq, Hp. simpl.
  destruct (inkscape_available w) as [[[]|e] w']; simpl in *; by simplify_eq.
Qed.

(** C3, as the code has it, for a call in a world a session can reach
    with publish format PNG.  The dialect tool is asked for SVG if the
    probe for the converter answers true and for PNG if it answers
    false.  If the tool can be started, then in the first case the
    converter is started next and the [.png] file is opened after it,
    and in the second case the [.png] file is opened and no converter is
    started.  If the tool cannot be started, the call raises the
    [OSError] of the launch; no converter is started and no file is
    opened.  The log of the call after the probe is exactly the list
    given. *)
Theorem png_render_order (p : Platform) (files : gmap string node) (argv : list string)
    (cs : list command) (line cell command : string) :
  let w := session cs (boot p files argv) in
  _publish_mode (globals w) = "PNG" →
  let r := diag line cell command w in
  let d := tmpdir_in (fs (force_svg w).2) in
  let dn := diag_name_in (fs (force_svg w).2) in
  ∃ available : bool,
    (inkscape_available w).1 = Return available ∧
    let args :=
      tool_argv command (if available then "svg" else "png") (_size (globals w)) dn in
    tool_args w command = args ∧
    match tool_call w cell command with
    | Exited _ _ =>
        trace r.2 =
          trace (inkscape_available w).2 ++
          [EvMkdtemp d; EvArgv args; EvSpawn args; EvArgv (sys_argv w)] ++
          (if available then [EvSpawn (convert_argv (platform w) dn)] else []) ++
          [EvOpen (dn +:+ ".png")]
    | LaunchFailed e =>
        r.1 = Raise (OSError e) ∧
        trace r.2 =
          trace (inkscape_available w).2 ++ [EvMkdtemp d; EvArgv args; EvSpawn args]
    end.
Proof.
  cbv zeta. set (w := session cs (boot p files argv)). intros Hp.
  assert (coherent (globals w)) as (Hvalid & _ & Hconv).
  { apply session_coherent, init_coherent. }
  destruct (inkscape_available_returns w) as [available Ha].
  exists available. split; [done|].
  assert (trace (force_svg w).2 = trace (inkscape_available w).2) as Htr.
  { rewrite force_svg_trace, Hp. done. }
  assert (_draw_mode (globals (force_svg w).2) = if available then "SVG" else "PNG") as Hd.
  { rewrite (force_svg_png w available Hp Ha). simpl.
    destruct available; simpl; [done|].
    destruct (inkscape_available_globals w) as (-> & _).
    destruct Hvalid as [[Hsvg|Hpng] _]; [|done].
    specialize (Hconv Hsvg Hp).
    rewrite (inkscape_available_cached w true Hconv) in Ha. by simplify_eq. }
  destruct (force_svg_globals w) as (Hp0 & Hs0 & _ & _).
  assert (tool_args w command =
          tool_argv command (if available then "svg" else "png") (_size (globals w))
            (diag_name_in (fs (force_svg w).2))) as Hargs.
  { unfold tool_args. cbv zeta. rewrite Hd, Hs0. by destruct available. }
  split; [done|]. rewrite <- Hargs, <- Htr.
  destruct (tool_call w cell command) as [rc files'|e] eqn:Hcall.
  - rewrite diag_trace, try_block_trace. cbv zeta.
    unfold tool_call in Hcall. cbv zeta in Hcall. unfold tool_args in *.
    cbv zeta in Hcall. rewrite Hcall.
    rewrite (keeps_force_svg sys_argv), (keeps_force_svg platform) by done.
    rewrite Hp0, Hd, Hp. unfold artifact_path. by destruct available.
  - destruct (launch_failure_eq w line cell command e Hcall) as (Hr & Ht & _).
    done.
Qed.

(** The theorem at work where every executable is installed. *)
Lemma png_render_order_witness :
  _publish_mode
    (globals (session [Setdiagpng ""] (boot (all_installed png_bytes) ∅ ["ipython"])))
    = "PNG" ∧
  let w := session [Setdiagpng ""] (boot (all_installed png_bytes) ∅ ["ipython"]) in
  let r := diag "" cell_text "seqdiag" w in
  let d := tmpdir_in (fs (force_svg w).2) in
  let dn := diag_name_in (fs (force_svg w).2) in
  ∃ available : bool,
    (inkscape_available w).1 = Return available ∧
    let args :=
      tool_argv "seqdiag" (if available then "svg" else "png") (_size (globals w)) dn in
    tool_args w "seqdiag" = args ∧
    match tool_call w cell_text "seqdiag" with
    | Exited _ _ =>
        trace r.2 =
          trace (inkscape_available w).2 ++
          [EvMkdtemp d; EvArgv args; EvSpawn args; EvArgv (sys_argv w)] ++
          (if available then [EvSpawn (convert_argv (platform w) dn)] else []) ++
          [EvOpen (dn +:+ ".png")]
    | LaunchFailed e =>
        r.1 = Raise (OSError e) ∧
        trace r.2 =
          trace (inkscape_available w).2 ++ [EvMkdtemp d; EvArgv args; EvSpawn args]
    end.
Proof.
  split; [reflexivity|].
  apply (png_render_order (all_installed png_bytes) ∅ ["ipython"] [Setdiagpng ""]
           "" cell_text "seqdiag").
  reflexivity.
Defined.

(** C3 as stated fails where nothing is installed: with publish format
    PNG the probe answers false and [blockdiag] is asked for PNG, but it
    cannot be started, and no [.png] file is opened. *)
Lemma png_render_stops_at_failed_launch :
  let w := session [Setdiagpng ""] (boot nothing_installed ∅ ["ipython"]) in
  let r := blockdiag "" cell_text w in
  _publish_mode (globals w) = "PNG" ∧
  (inkscape_available w).1 = Return false ∧
  started (trace r.2) =
    [ probe_argv nothing_installed;
      ["blockdiag"; "-T"; "png"; "--size"; "1000x500"; "-o";
       "/tmp/tmpx/tmpx.png"; "/tmp/tmpx/tmpx"] ] ∧
  opened (trace r.2) = [] ∧
  r.1 = Raise (OSError ENOENT).
Proof. cbv zeta. vm_compute. by repeat split. Qed.

(** ** Cleanup *)

Lemma created_app (l1 l2 : list event) : created (l1 ++ l2) = created l1 ++ created l2.
Proof. apply omap_app. Qed.

Lemma force_svg_trace_ext (w : World) :
  ∃ evs, trace (force_svg w).2 = trace w ++ evs ∧ created evs = [] ∧ assigned evs = [].
Proof.
  rewrite force_svg_trace. destruct (String.eqb _ "PNG").
  - rewrite inkscape_available_trace. eexists. split; [done|].
    by destruct (_inkscape_available _).
  - exists []. by rewrite app_nil_r.
Qed.

Lemma try_block_trace_ext (w : World) (cell command : string) :
  ∃ evs,
    trace (try_block w cell command).2 = trace w ++ EvMkdtemp (tmpdir_in (fs w)) :: evs ∧
    created evs = [].
Proof.
  rewrite try_block_trace. cbv zeta. eexists. split; [done|].
  destruct (spawn _ _ _ _); [|done]. simpl.
  by match goal with |- context [if ?b then _ else _] => destruct b end.
Qed.

(** C4, as the claim has it, fails: a dialect tool that leaves a
    directory in the temporary directory makes [os.unlink] raise in the
    [finally] block, and the temporary directory stays. *)
Lemma tmpdir_left_with_directory_inside :
  let w := boot (caching_tools png_bytes) ∅ ["ipython"] in
  let r := blockdiag "" cell_text w in
  let d := tmpdir_in (fs (force_svg w).2) in
  r.1 = Raise (OSError EISDIR) ∧
  fs r.2 !! d = Some Dir ∧
  fs r.2 !! (d +:+ "/tmpx.svg.cache") = Some Dir ∧
  ¬ removed (fs r.2) d.
Proof.
  cbv zeta.
  assert (fs (blockdiag "" cell_text (boot (caching_tools png_bytes) ∅ ["ipython"])).2
            !! tmpdir_in (fs (force_svg (boot (caching_tools png_bytes) ∅ ["ipython"])).2)
          = Some Dir) as Hd by (vm_compute; reflexivity).
  split; [vm_compute; reflexivity|]. split; [exact Hd|].
  split; [vm_compute; reflexivity|].
  intros [Hgone _]. rewrite Hd in Hgone. discriminate.
Qed.

(** C4, as the code has it: a render call creates one temporary
    directory, under a name that was free.  If, when the [finally]
    block starts, that directory is in place and holds nothing but
    regular files, then the directory and every file in it are gone when
    the call ends, and the call ends as the [try] block did: it returns
    if the block returned and raises what the block raised.  If not, the
    [finally] block raises [OSError]: the call raises it and publishes
    nothing, and a directory that was in place is left on disk.  The
    first case is the case whenever the executables put nothing but
    regular files into a directory. *)
Theorem tmpdir_removed_unless_cleanup_fails (w : World) (line cell command : string) :
  let r := diag line cell command w in
  let d := tmpdir_in (fs (force_svg w).2) in
  let w1 := at_cleanup w cell command in
  (∃ evs, trace r.2 = trace w ++ evs ∧ created evs = [d]) ∧
  fs (force_svg w).2 !! d = None ∧
  (flat_dir (fs w1) d →
     removed (fs r.2) d ∧
     match (try_block (force_svg w).2 cell command).1 with
     | Return _ => r.1 = Return tt
     | Raise e => r.1 = Raise e
     end) ∧
  (¬ flat_dir (fs w1) d →
     (∃ e, r.1 = Raise (OSError e)) ∧
     display r.2 = display w ∧
     (fs w1 !! d = Some Dir → fs r.2 !! d = Some Dir)) ∧
  (keeps_dirs_flat (platform w) → flat_dir (fs w1) d).
Proof.
  cbv zeta. split; [|split; [|split; [|split]]].
  - rewrite diag_trace.
    destruct (force_svg_trace_ext w) as (evs0 & Hevs0 & Hc0 & _).
    destruct (try_block_trace_ext (force_svg w).2 cell command) as (evs1 & -> & Hc1).
    rewrite Hevs0, <- app_assoc. eexists. split; [done|].
    rewrite created_app, Hc0. simpl. by rewrite Hc1.
  - apply tmpdir_in_fresh.
  - intros Hflat. rewrite diag_render.
    destruct (render_cleans w cell command Hflat) as (files' & Hrm & ->).
    destruct (try_block _ _ _) as [[data|e] w1]; [|done].
    by rewrite publish_eq.
  - intros Hflat. rewrite diag_render.
    destruct (render_cleanup_fails w cell command Hflat) as (e & w' & -> & Hdisp & Hd).
    eauto.
  - intros Hp. unfold at_cleanup. apply try_block_flat.
    by rewrite (keeps_force_svg platform).
Qed.

(** The theorem at work on a call that raises: the tool runs but writes
    nothing, and the read fails. *)
Lemma tmpdir_removed_unless_cleanup_fails_witness :
  let w := boot silent_tools ∅ ["ipython"] in
  let r := diag "" cell_text "nwdiag" w in
  let d := tmpdir_in (fs (force_svg w).2) in
  flat_dir (fs (at_cleanup w cell_text "nwdiag")) d ∧
  (try_block (force_svg w).2 cell_text "nwdiag").1 = Raise (IOError ENOENT) ∧
  removed (fs r.2) d ∧
  r.1 = Raise (IOError ENOENT).
Proof.
  cbv zeta.
  destruct (tmpdir_removed_unless_cleanup_fails
              (boot silent_tools ∅ ["ipython"]) "" cell_text "nwdiag")
    as (_ & _ & Hflat & _ & Hp).
  cbv zeta in Hflat, Hp.
  assert ((try_block (force_svg (boot silent_tools ∅ ["ipython"])).2 cell_text "nwdiag").1
          = Raise (IOError ENOENT)) as Htry by (vm_compute; reflexivity).
  specialize (Hp silent_tools_flat). destruct (Hflat Hp) as [Hrm Hout].
  rewrite Htry in Hout. cbv beta iota in Hout.
  exact (conj Hp (conj Htry (conj Hrm Hout))).
Defined.

(** ** Published payload *)

Lemma external_steps_eq (w : World) (cell command : string) :
  let w0 := (force_svg w).2 in
  external_steps cell command w =
    draw (tmpdir_in (fs w0)) (cell +:+ newline) command (with_tmpdir w0).
Proof. cbv zeta. unfold external_steps. by rewrite bind_unfold, prepare_with_tmpdir. Qed.

Lemma diag_publishes (w : World) (line cell command diag_name : string) (w1 : World)
    (data : list byte) :
  keeps_dirs_flat (platform w) →
  external_steps cell command w = (Return diag_name, w1) →
  fs w1 !! artifact_path diag_name (_publish_mode (globals w)) = Some (File data) →
  ∃ pub w',
    diag line cell command w = (Return tt, w') ∧
    display w' = display w ++ [pub] ∧
    payload pub = data ∧
    (_publish_mode (globals w) = "SVG" → mime pub = "image/svg+xml") ∧
    (_publish_mode (globals w) = "PNG" → mime pub = "image/png").
Proof.
  intros Hp Hext Hfile. rewrite external_steps_eq in Hext. cbv zeta in Hext.
  destruct (force_svg_globals w) as (Hpm & _).
  assert (globals w1 = globals (force_svg w).2) as Hg.
  { change w1 with (Return diag_name, w1).2. rewrite <- Hext.
    by rewrite (keeps_draw globals). }
  assert (display w1 = display w) as Hdisp.
  { change w1 with (Return diag_name, w1).2. rewrite <- Hext.
    rewrite (keeps_draw display) by done. simpl.
    by apply (keeps_force_svg display). }
  rewrite diag_render.
  destruct (render_flat w cell command Hp) as (files' & Hrm & ->).
  unfold try_block. rewrite bind_unfold, Hext.
  unfold read_artifact. rewrite bind_unfold. cbn [gets compose].
  rewrite Hg, Hpm. unfold read_binary. cbv zeta.
  change (fs (log _ w1)) with (fs w1). unfold artifact_path in Hfile. rewrite Hfile.
  rewrite publish_eq. eexists _, _. split; [done|]. simpl.
  rewrite Hdisp, Hg, Hpm. split; [done|]. split; [done|].
  unfold mime_of. split; by intros ->.
Qed.

(** When the external steps leave the artifact, the [try] block
    returns its bytes and leaves the files as the external steps did. *)
Lemma try_block_reads_artifact (w : World) (cell command diag_name : string) (w1 : World)
    (data : list byte) :
  external_steps cell command w = (Return diag_name, w1) →
  fs w1 !! artifact_path diag_name (_publish_mode (globals w)) = Some (File data) →
  try_block (force_svg w).2 cell command =
    (Return data,
     log (EvOpen (artifact_path diag_name (_publish_mode (globals w)))) w1) ∧
  display w1 = display w ∧
  globals w1 = globals (force_svg w).2.
Proof.
  intros Hext Hfile. rewrite external_steps_eq in Hext. cbv zeta in Hext.
  destruct (force_svg_globals w) as (Hpm & _).
  assert (globals w1 = globals (force_svg w).2) as Hg.
  { change w1 with (Return diag_name, w1).2. rewrite <- Hext.
    by rewrite (keeps_draw globals). }
  assert (display w1 = display w) as Hdisp.
  { change w1 with (Return diag_name, w1).2. rewrite <- Hext.
    rewrite (keeps_draw display) by done. simpl.
    by apply (keeps_force_svg display). }
  split; [|done].
  unfold try_block. rewrite bind_unfold, Hext.
  unfold read_artifact. rewrite bind_unfold. cbn [gets compose].
  rewrite Hg, Hpm. unfold read_binary. cbv zeta.
  change (fs (log _ w1)) with (fs w1). unfold artifact_path in *. by rewrite Hfile.
Qed.

Lemma diag_publishes_if_flat (w : World) (line cell command diag_name : string) (w1 : World)
    (data : list byte) :
  external_steps cell command w = (Return diag_name, w1) →
  fs w1 !! artifact_path diag_name (_publish_mode (globals w)) = Some (File data) →
  let d := tmpdir_in (fs (force_svg w).2) in
  (flat_dir (fs w1) d →
   ∃ pub w',
     diag line cell command w = (Return tt, w') ∧
     display w' = display w ++ [pub] ∧
     payload pub = data ∧
     (_publish_mode (globals w) = "SVG" → mime pub = "image/svg+xml") ∧
     (_publish_mode (globals w) = "PNG" → mime pub = "image/png")) ∧
  (¬ flat_dir (fs w1) d →
   ∃ e w', diag line cell command w = (Raise (OSError e), w') ∧ display w' = display w) ∧
  (keeps_dirs_flat (platform w) → flat_dir (fs w1) d).
Proof.
  intros Hext Hfile. cbv zeta.
  destruct (try_block_reads_artifact w cell command diag_name w1 data Hext Hfile)
    as (Htry & Hdisp & Hg).
  destruct (force_svg_globals w) as (Hpm & _).
  assert (fs (at_cleanup w cell command) = fs w1) as Hfs.
  { unfold at_cleanup. by rewrite Htry. }
  split; [|split].
  - intros Hflat. rewrite <- Hfs in Hflat. rewrite diag_render.
    destruct (render_cleans w cell command Hflat) as (files' & Hrm & ->).
    rewrite Htry, publish_eq. eexists _, _. split; [done|]. simpl.
    rewrite Hdisp, Hg, Hpm. split; [done|]. split; [done|].
    unfold mime_of. split; by intros ->.
  - intros Hflat. rewrite <- Hfs in Hflat. rewrite diag_render.
    destruct (render_cleanup_fails w cell command Hflat) as (e & w' & -> & Hd & _).
    by exists e, w'.
  - intros Hp. rewrite <- Hfs. unfold at_cleanup. apply try_block_flat.
    by rewrite (keeps_force_svg platform).
Qed.

(** C5, as the claim has it, fails: the dialect tool writes the artifact
    and leaves a directory next to it; the [finally] block raises, and
    the bytes of the artifact are not published. *)
Lemma artifact_written_but_not_published :
  let w := boot (caching_tools png_bytes) ∅ ["ipython"] in
  let ext := external_steps cell_text "seqdiag" w in
  ("seqdiag", seqdiag) ∈ dialects ∧
  ext.1 = Return "/tmp/tmpx/tmpx" ∧
  fs ext.2 !! artifact_path "/tmp/tmpx/tmpx" (_publish_mode (globals w))
    = Some (File png_bytes) ∧
  (seqdiag "" cell_text w).1 = Raise (OSError EISDIR) ∧
  display (seqdiag "" cell_text w).2 = [].
Proof.
  cbv zeta. split.
  { unfold dialects. do 3 apply list_elem_of_further. apply list_elem_of_here. }
  repeat split; vm_compute; reflexivity.
Qed.

(** C5, as the code has it: for each of the six dialect magics, if the
    external steps leave a file at the artifact path, then the call
    returns normally and publishes exactly the bytes of that file, as
    [image/svg+xml] when the publish format is SVG and as [image/png]
    when it is PNG, provided the temporary directory is then in place
    and holds nothing but regular files.  If it does not, the call
    raises the [OSError] of the [finally] block and publishes nothing.
    The directory is as required whenever the executables put nothing
    but regular files into a directory. *)
Theorem published_payload_is_artifact (w : World) (command : string)
    (magic : string → string → M unit) (line cell diag_name : string)
    (w1 : World) (data : list byte) :
  (command, magic) ∈ dialects →
  external_steps cell command w = (Return diag_name, w1) →
  fs w1 !! artifact_path diag_name (_publish_mode (globals w)) = Some (File data) →
  let d := tmpdir_in (fs (force_svg w).2) in
  (flat_dir (fs w1) d →
   ∃ pub w',
     magic line cell w = (Return tt, w') ∧
     display w' = display w ++ [pub] ∧
     payload pub = data ∧
     (_publish_mode (globals w) = "SVG" → mime pub = "image/svg+xml") ∧
     (_publish_mode (globals w) = "PNG" → mime pub = "image/png")) ∧
  (¬ flat_dir (fs w1) d →
   ∃ e w', magic line cell w = (Raise (OSError e), w') ∧ display w' = display w) ∧
  (keeps_dirs_flat (platform w) → flat_dir (fs w1) d).
Proof.
  intros Hin Hext Hfile. unfold dialects in Hin.
  repeat (apply elem_of_cons in Hin as [[= -> ->]|Hin];
          [by apply (diag_publishes_if_flat w line cell _ diag_name w1 data)|]).
  by apply elem_of_nil in Hin.
Qed.

(** The theorem at work for [rackdiag] with publish format PNG, where
    the converter writes the artifact. *)
Lemma published_payload_is_artifact_witness :
  let w := session [Setdiagpng ""] (boot (all_installed png_bytes) ∅ ["ipython"]) in
  let w1 := (external_steps cell_text "rackdiag" w).2 in
  ("rackdiag", rackdiag) ∈ dialects ∧
  external_steps cell_text "rackdiag" w = (Return "/tmp/tmpx/tmpx", w1) ∧
  fs w1 !! artifact_path "/tmp/tmpx/tmpx" (_publish_mode (globals w))
    = Some (File png_bytes) ∧
  flat_dir (fs w1) (tmpdir_in (fs (force_svg w).2)) ∧
  ∃ pub w',
    rackdiag "" cell_text w = (Return tt, w') ∧
    display w' = display w ++ [pub] ∧
    payload pub = png_bytes ∧
    (_publish_mode (globals w) = "SVG" → mime pub = "image/svg+xml") ∧
    (_publish_mode (globals w) = "PNG" → mime pub = "image/png").
Proof.
  cbv zeta.
  set (w := session [Setdiagpng ""] (boot (all_installed png_bytes) ∅ ["ipython"])).
  assert (("rackdiag", rackdiag) ∈ dialects) as Hin.
  { unfold dialects. do 4 apply list_elem_of_further. apply list_elem_of_here. }
  assert (external_steps cell_text "rackdiag" w
          = (Return "/tmp/tmpx/tmpx", (external_steps cell_text "rackdiag" w).2)) as Hext.
  { rewrite (surjective_pairing (external_steps cell_text "rackdiag" w)) at 1.
    f_equal. }
  assert (fs (external_steps cell_text "rackdiag" w).2
            !! artifact_path "/tmp/tmpx/tmpx" (_publish_mode (globals w))
          = Some (File png_bytes)) as Hfile.
  { vm_compute. reflexivity. }
  destruct (published_payload_is_artifact w "rackdiag" rackdiag "" cell_text
              "/tmp/tmpx/tmpx" _ png_bytes Hin Hext Hfile) as (Hpub & _ & Hp).
  cbv zeta in Hpub, Hp.
  assert (flat_dir (fs (external_steps cell_text "rackdiag" w).2)
            (tmpdir_in (fs (force_svg w).2))) as Hflat.
  { apply Hp, (all_installed_flat png_bytes). }
  split; [exact Hin|]. split; [exact Hext|]. split; [exact Hfile|]. split; [exact Hflat|].
  exact (Hpub Hflat).
Defined.

(** ** The draw format after a PNG render *)

(** C9, as the code has it: a render call with publish format PNG and
    the converter found assigns ["SVG"] to [_draw_mode] and does not put
    the old value back, whether the call returns or raises; the value
    stays through every later command other than [setdiagpng], and a
    later [setdiagpng] assigns ["PNG"]. *)
Theorem forced_svg_persists (w : World) (line cell command : string) :
  _publish_mode (globals w) = "PNG" →
  (inkscape_available w).1 = Return true →
  let w' := (diag line cell command w).2 in
  _draw_mode (globals w') = "SVG" ∧
  (∀ cs, forallb not_setdiagpng cs = true →
         _draw_mode (globals (session cs w')) = "SVG") ∧
  (∀ cs line', _draw_mode (globals (session (cs ++ [Setdiagpng line']) w')) = "PNG").
Proof.
  intros Hp Ha. cbv zeta.
  assert (_draw_mode (globals (diag line cell command w).2) = "SVG") as Hd.
  { rewrite diag_render, render_globals. by rewrite (force_svg_png w true Hp Ha). }
  split; [done|]. split.
  - intros cs Hcs. by apply session_draw_svg.
  - intros cs line'. by rewrite session_app.
Qed.

(** The theorem at work after [setdiagpng], where the draw format is
    ["PNG"] before the call. *)
Lemma forced_svg_persists_witness :
  let w := session [Setdiagpng ""] (boot (all_installed png_bytes) ∅ ["ipython"]) in
  _draw_mode (globals w) = "PNG" ∧
  _publish_mode (globals w) = "PNG" ∧
  (inkscape_available w).1 = Return true ∧
  let w' := (diag "" cell_text "actdiag" w).2 in
  _draw_mode (globals w') = "SVG" ∧
  (∀ cs, forallb not_setdiagpng cs = true →
         _draw_mode (globals (session cs w')) = "SVG") ∧
  (∀ cs line', _draw_mode (globals (session (cs ++ [Setdiagpng line']) w')) = "PNG").
Proof.
  cbv zeta. split; [reflexivity|]. split; [reflexivity|].
  assert ((inkscape_available
             (session [Setdiagpng ""] (boot (all_installed png_bytes) ∅ ["ipython"]))).1
          = Return true) as Ha.
  { vm_compute. reflexivity. }
  split; [exact Ha|].
  exact (forced_svg_persists
           (session [Setdiagpng ""] (boot (all_installed png_bytes) ∅ ["ipython"]))
           "" cell_text "actdiag" eq_refl Ha).
Defined.

(** C9 as stated fails for the operations that follow: after the render
    call the draw format is ["SVG"], and a following [setdiagpng] makes
    it ["PNG"]. *)
Lemma forced_svg_until_setdiagpng :
  let w := session [Setdiagpng ""] (boot (all_installed png_bytes) ∅ ["ipython"]) in
  let w' := (blockdiag "" cell_text w).2 in
  _publish_mode (globals w) = "PNG" ∧
  (inkscape_available w).1 = Return true ∧
  _draw_mode (globals w') = "SVG" ∧
  _draw_mode (globals (session [Setdiagpng ""] w')) = "PNG" ∧
  _draw_mode (globals (session [Setdiagpng ""] w')) ≠ "SVG".
Proof. cbv zeta. vm_compute. by repeat split. Qed.

(** ** [sys.argv] *)

(** C10: a render call assigns the command line of the dialect tool to
    [sys.argv] just before it starts the tool.  If the tool runs, the
    next thing the call does is to assign the saved value back, nothing
    assigns [sys.argv] after that, and the call ends with [sys.argv] as
    it found it.  If the tool cannot be started, the call raises the
    [OSError] of the launch and [sys.argv] still holds the command line
    of the tool. *)
Theorem sys_argv_restored_on_return_only (w : World) (line cell command : string) :
  let r := diag line cell command w in
  let w0 := (force_svg w).2 in
  let args := tool_args w command in
  sys_argv w0 = sys_argv w ∧
  match tool_call w cell command with
  | Exited _ _ =>
      (∃ evs,
         trace r.2 =
           trace w0 ++
           [EvMkdtemp (tmpdir_in (fs w0)); EvArgv args; EvSpawn args;
            EvArgv (sys_argv w)] ++ evs ∧
         assigned evs = []) ∧
      sys_argv r.2 = sys_argv w
  | LaunchFailed e =>
      r.1 = Raise (OSError e) ∧
      trace r.2 =
        trace w0 ++ [EvMkdtemp (tmpdir_in (fs w0)); EvArgv args; EvSpawn args] ∧
      sys_argv r.2 = args
  end.
Proof.
  cbv zeta. split; [by apply (keeps_force_svg sys_argv)|].
  destruct (tool_call w cell command) as [rc files'|e] eqn:Hcall.
  - split.
    + rewrite diag_trace, try_block_trace. cbv zeta.
      unfold tool_call, tool_args in Hcall. cbv zeta in Hcall. rewrite Hcall.
      rewrite (keeps_force_svg sys_argv) by done.
      eexists. split; [reflexivity|].
      by match goal with |- context [if ?b then _ else _] => destruct b end.
    + rewrite diag_render, (render_after_try sys_argv) by done.
      rewrite try_block_argv. cbv zeta.
      unfold tool_call, tool_args in Hcall. cbv zeta in Hcall. rewrite Hcall.
      by apply (keeps_force_svg sys_argv).
  - destruct (launch_failure_eq w line cell command e Hcall) as (Hr & Ht & Ha).
    done.
Qed.

(** * More of the module *)

Import Shell Observations.

(** ** [_import_all] *)

Section ImportAll.
Context {V : Type}.
Implicit Types (module user_ns : gmap string V) (l : list (string * V)).

Lemma import_items_skip l user_ns (k : string) :
  (startswith k "__" = true ∨ k ∉ l.*1) →
  foldl (λ ns kv, if startswith kv.1 "__" then ns else push kv.1 kv.2 ns) user_ns l !! k
    = user_ns !! k.
Proof.
  revert user_ns. induction l as [|[k0 v0] l IH]; intros user_ns Hk; [done|].
  simpl. rewrite IH.
  - destruct (startswith k0 "__") eqn:Hk0; [done|].
    unfold push. apply lookup_insert_ne. intros ->.
    destruct Hk as [Hk|Hk]; [congruence|]. apply Hk. simpl. by left.
  - destruct Hk as [Hk|Hk]; [by left|right].
    intros Hin. apply Hk. simpl. by right.
Qed.

Lemma import_items_bind l user_ns (k : string) (v : V) :
  NoDup l.*1 → (k, v) ∈ l → startswith k "__" = false →
  foldl (λ ns kv, if startswith kv.1 "__" then ns else push kv.1 kv.2 ns) user_ns l !! k
    = Some v.
Proof.
  revert user_ns. induction l as [|[k0 v0] l IH]; intros user_ns Hnd Hin Hk.
  - by apply elem_of_nil in Hin.
  - simpl in Hnd. apply NoDup_cons in Hnd as [Hk0 Hnd].
    apply elem_of_cons in Hin as [[= <- <-]|Hin]; simpl.
    + rewrite import_items_skip by (by right). rewrite Hk.
      apply lookup_insert_eq.
    + by apply IH.
Qed.

Lemma import_all_at module user_ns (k : string) :
  _import_all module user_ns !! k =
    match module !! k with
    | Some v => if startswith k "__" then user_ns !! k else Some v
    | None => user_ns !! k
    end.
Proof.
  unfold _import_all. destruct (module !! k) as [v|] eqn:Hk.
  - destruct (startswith k "__") eqn:Hs.
    + apply import_items_skip. by left.
    + apply import_items_bind; [apply NoDup_fst_map_to_list| |done].
      by apply elem_of_map_to_list.
  - apply import_items_skip. right.
    intros ([k' v] & -> & Hin%elem_of_map_to_list)%list_elem_of_fmap.
    simpl in Hk. congruence.
Qed.

(** X1: after [_import_all], a name of the module that does not start
    with two underscores is bound in the shell to the module's value for
    it, and every other name is bound as it was before; names starting
    with two underscores are never imported. *)
Theorem import_all_lookup module user_ns (k : string) :
  _import_all module user_ns !! k =
    match module !! k with
    | Some v => if startswith k "__" then user_ns !! k else Some v
    | None => user_ns !! k
    end.
Proof.
  unfold _import_all. destruct (module !! k) as [v|] eqn:Hk.
  - destruct (startswith k "__") eqn:Hs.
    + apply import_items_skip. by left.
    + apply import_items_bind; [apply NoDup_fst_map_to_list| |done].
      by apply elem_of_map_to_list.
  - apply import_items_skip. right.
    intros ([k' v] & -> & Hin%elem_of_map_to_list)%list_elem_of_fmap.
    simpl in Hk. congruence.
Qed.

(** X2: importing the same module a second time changes nothing. *)
Theorem import_all_idempotent module user_ns :
  _import_all module (_import_all module user_ns) = _import_all module user_ns.
Proof.
  apply map_eq. intros k. rewrite !import_all_at.
  destruct (module !! k) as [v|]; [|done].
  by destruct (startswith k "__").
Qed.

End ImportAll.

(** ** Decimal numerals *)

Lemma digits_shift (s : string) (acc : Z) :
  PyStr.digits acc s =
    (λ v, acc * 10 ^ Z.of_nat (String.length s) + v) <$> PyStr.digits 0 s.
Proof.
  revert acc. induction s as [|a s IH]; intros acc.
  - simpl. f_equal. lia.
  - cbn [PyStr.digits]. destruct (Ascii.is_nat a) as [d|]; [|done].
    rewrite (IH (10 * acc + Z.of_nat d)), (IH (10 * 0 + Z.of_nat d)).
    destruct (PyStr.digits 0 s) as [v|]; [|done]. simpl. f_equal.
    rewrite Nat2Z.inj_succ, Z.pow_succ_r by lia. lia.
Qed.

Lemma digits_acc (s : string) (acc v : Z) :
  PyStr.digits 0 s = Some v →
  PyStr.digits acc s = Some (acc * 10 ^ Z.of_nat (String.length s) + v).
Proof. intros Hv. by rewrite digits_shift, Hv. Qed.

Lemma is_nat_pretty_N_char (x : N) :
  (x < 10)%N → Ascii.is_nat (pretty_N_char x) = Some (N.to_nat x).
Proof.
  intros Hx.
  assert (x = 0 ∨ x = 1 ∨ x = 2 ∨ x = 3 ∨ x = 4 ∨ x = 5 ∨ x = 6 ∨ x = 7 ∨ x = 8 ∨ x = 9)%N
    as Hcases by lia.
  destruct Hcases as [->|[->|[->|[->|[->|[->|[->|[->|[->| ->]]]]]]]]]; reflexivity.
Qed.

(** Reading back what [pretty_N_go] puts in front of a numeral. *)
Lemma digits_pretty_N_go (x : N) (s : string) (v : Z) :
  PyStr.digits 0 s = Some v →
  PyStr.digits 0 (pretty_N_go x s)
    = Some (Z.of_N x * 10 ^ Z.of_nat (String.length s) + v).
Proof.
  revert s v. induction (N.lt_wf_0 x) as [x _ IH]; intros s v Hv.
  assert (x = 0 ∨ 0 < x)%N as [->|Hpos] by lia.
  - rewrite pretty_N_go_0, Hv. f_equal; lia.
  - rewrite pretty_N_go_step by done.
    assert (x `mod` 10 < 10)%N as Hmod by (apply N.mod_lt; lia).
    erewrite IH; [|by apply N.div_lt|].
    2:{ cbn [PyStr.digits]. rewrite (is_nat_pretty_N_char _ Hmod).
        apply digits_acc, Hv. }
    f_equal. simpl String.length. rewrite Nat2Z.inj_succ, Z.pow_succ_r by lia.
    pose proof (N.div_mod x 10 ltac:(lia)) as Hdm.
    rewrite N_nat_Z.
    assert (Z.of_N x = 10 * Z.of_N (x `div` 10) + Z.of_N (x `mod` 10)) as -> by lia.
    lia.
Qed.

Lemma all_digits_pretty_N_go (x : N) (s : string) :
  all_digits s = true → all_digits (pretty_N_go x s) = true.
Proof.
  revert s. induction (N.lt_wf_0 x) as [x _ IH]; intros s Hs.
  assert (x = 0 ∨ 0 < x)%N as [->|Hpos] by lia.
  - by rewrite pretty_N_go_0.
  - rewrite pretty_N_go_step by done. apply IH; [by apply N.div_lt|].
    simpl. by rewrite is_nat_pretty_N_char by (apply N.mod_lt; lia).
Qed.

Lemma pretty_N_go_nonempty (x : N) (s : string) :
  (0 < x)%N → pretty_N_go x s ≠ "".
Proof.
  revert s. induction (N.lt_wf_0 x) as [x _ IH]; intros s Hpos.
  rewrite pretty_N_go_step by done.
  destruct (decide (x `div` 10 = 0)%N) as [->|Hd].
  - by rewrite pretty_N_go_0.
  - apply IH; [by apply N.div_lt|by apply N.neq_0_lt_0].
Qed.

(** What the numeral of a natural number looks like and reads as. *)
Lemma pretty_N_digits (x : N) :
  all_digits (pretty x) = true ∧ pretty x ≠ "" ∧ PyStr.digits 0 (pretty x) = Some (Z.of_N x).
Proof.
  unfold pretty, pretty_N. case_decide as Hx.
  - by subst.
  - split; [by apply all_digits_pretty_N_go|].
    split; [apply pretty_N_go_nonempty; lia|].
    rewrite (digits_pretty_N_go x "" 0 eq_refl). f_equal. simpl. lia.
Qed.

(** ** [int] reads what [str] writes *)

Lemma str_app_nil_r (s : string) : s +:+ "" = s.
Proof. induction s as [|a s IH]; [done|]. rewrite str_app_cons. by f_equal. Qed.

Lemma rev_app_rev_app (s1 s2 s3 : string) :
  String.rev_app (String.rev_app s1 s2) s3 = String.rev_app s2 (s1 +:+ s3).
Proof.
  revert s2 s3. induction s1 as [|a s1 IH]; intros s2 s3; [done|].
  simpl. rewrite IH. simpl. by rewrite str_app_cons.
Qed.

Lemma rev_involutive (s : string) : String.rev (String.rev s) = s.
Proof. unfold String.rev. rewrite rev_app_rev_app. simpl. apply str_app_nil_r. Qed.

Lemma no_space_rev_app (s1 s2 : string) :
  no_space (String.rev_app s1 s2) = no_space s1 && no_space s2.
Proof.
  revert s2. induction s1 as [|a s1 IH]; intros s2; [done|].
  simpl. rewrite IH. simpl. destruct (Ascii.is_space a), (no_space s1); simpl; done.
Qed.

Lemma lstrip_no_space (s : string) : no_space s = true → PyStr.lstrip s = s.
Proof. destruct s as [|a s]; [done|]. simpl. by destruct (Ascii.is_space a). Qed.

Lemma strip_no_space (s : string) : no_space s = true → PyStr.strip s = s.
Proof.
  intros Hs. unfold PyStr.strip, PyStr.rstrip. rewrite (lstrip_no_space s Hs).
  rewrite lstrip_no_space; [apply rev_involutive|].
  unfold String.rev. by rewrite no_space_rev_app, Hs.
Qed.

Lemma is_nat_chars (a : ascii) (d : nat) :
  Ascii.is_nat a = Some d →
  Ascii.is_space a = false ∧ Ascii.eqb a "," = false ∧
  Ascii.eqb a "+" = false ∧ Ascii.eqb a "-" = false.
Proof. destruct a as [[] [] [] [] [] [] [] []]; intros; simplify_eq; done. Qed.

Lemma all_digits_plain (s : string) :
  all_digits s = true → no_space s = true ∧ occurs "," s = false.
Proof.
  induction s as [|a s IH]; [done|]. simpl.
  destruct (Ascii.is_nat a) as [d|] eqn:Ha; [|done].
  destruct (is_nat_chars a d Ha) as (-> & -> & _). simpl. auto.
Qed.

Lemma int_from_string_digits (s : string) :
  all_digits s = true → s ≠ "" → PyStr.int_from_string s = PyStr.digits 0 s.
Proof.
  intros Hs Hne. unfold PyStr.int_from_string.
  rewrite strip_no_space by (by apply all_digits_plain).
  destruct s as [|a s]; [done|]. simpl in Hs.
  destruct (Ascii.is_nat a) as [d|] eqn:Ha; [|done].
  destruct a as [[] [] [] [] [] [] [] []]; simplify_eq; reflexivity.
Qed.

Lemma int_from_string_minus (s : string) :
  all_digits s = true → s ≠ "" →
  PyStr.int_from_string ("-" +:+ s) = Z.opp <$> PyStr.digits 0 s.
Proof.
  intros Hs Hne. unfold PyStr.int_from_string.
  rewrite strip_no_space.
  - by destruct s.
  - change ("-" +:+ s) with (String "-" s). simpl. by apply all_digits_plain.
Qed.

Lemma pretty_positive_N (p : positive) : pretty p = pretty (N.pos p).
Proof. done. Qed.

Lemma int_from_string_str (z : Z) : PyStr.int_from_string (PyStr.str z) = Some z.
Proof.
  unfold PyStr.str. destruct z as [|p|p].
  - done.
  - change (pretty (Z.pos p)) with (pretty (N.pos p)).
    destruct (pretty_N_digits (N.pos p)) as (Hd & Hne & Hv).
    by rewrite int_from_string_digits, Hv.
  - change (pretty (Z.neg p)) with ("-" +:+ pretty (N.pos p)).
    destruct (pretty_N_digits (N.pos p)) as (Hd & Hne & Hv).
    by rewrite int_from_string_minus, Hv.
Qed.

(** A numeral goes into the buffer as it is, whatever the character
    table. *)
Lemma encode_decimal_kept (table : string → PyStr.uclass) (s : string) :
  all_kept s = true → PyStr.encode_decimal table s = Some s.
Proof.
  unfold PyStr.encode_decimal. induction s as [|a s IH]; [done|].
  intros [[[Hascii Hspace%negb_true_iff]%andb_prop Hnul%negb_true_iff]%andb_prop Hs]%andb_prop.
  cbn [PyStr.encode_decimal_go String.eqb negb PyStr.encode_beyond].
  rewrite andb_false_r, Hascii. unfold PyStr.encode_ascii. rewrite Hspace, Hnul.
  by rewrite (IH Hs).
Qed.

Lemma is_nat_kept (a : ascii) (d : nat) : Ascii.is_nat a = Some d → kept a = true.
Proof. destruct a as [[] [] [] [] [] [] [] []]; intros; simplify_eq; done. Qed.

Lemma all_digits_kept (s : string) : all_digits s = true → all_kept s = true.
Proof.
  induction s as [|a s IH]; [done|]. simpl.
  destruct (Ascii.is_nat a) as [d|] eqn:Ha; [|done].
  rewrite (is_nat_kept a d Ha). auto.
Qed.

Lemma str_kept (z : Z) : all_kept (PyStr.str z) = true.
Proof.
  unfold PyStr.str. destruct z as [|p|p].
  - done.
  - change (pretty (Z.pos p)) with (pretty (N.pos p)).
    destruct (pretty_N_digits (N.pos p)) as (Hd & _). by apply all_digits_kept.
  - change (pretty (Z.neg p)) with (String "-" (pretty (N.pos p))).
    destruct (pretty_N_digits (N.pos p)) as (Hd & _).
    change (kept "-" && all_kept (pretty (N.pos p)) = true). by rewrite all_digits_kept.
Qed.

(** [int(str(z))] is [z]. *)
Lemma int_str (table : string → PyStr.uclass) (z : Z) :
  PyStr.int table (PyStr.str z) = Some z.
Proof.
  unfold PyStr.int. rewrite encode_decimal_kept by apply str_kept.
  apply int_from_string_str.
Qed.

Lemma str_no_comma (z : Z) : occurs "," (PyStr.str z) = false.
Proof.
  unfold PyStr.str. destruct z as [|p|p].
  - done.
  - change (pretty (Z.pos p)) with (pretty (N.pos p)).
    destruct (pretty_N_digits (N.pos p)) as (Hd & _). by apply all_digits_plain.
  - change (pretty (Z.neg p)) with (String "-" (pretty (N.pos p))).
    destruct (pretty_N_digits (N.pos p)) as (Hd & _). simpl. by apply all_digits_plain.
Qed.

(** ** [find] and the two slices *)

Lemma find_from_app (c : ascii) (a b : string) (i : Z) :
  occurs c a = false →
  PyStr.find_from c (a +:+ String c b) i = i + Z.of_nat (String.length a).
Proof.
  revert i. induction a as [|x a IH]; intros i Ha.
  - simpl. rewrite Ascii.eqb_refl. lia.
  - rewrite str_app_cons. simpl in *. apply orb_false_elim in Ha as [-> Ha].
    rewrite IH by done. lia.
Qed.

Lemma find_from_none (c : ascii) (a : string) (i : Z) :
  occurs c a = false → PyStr.find_from c a i = -1.
Proof.
  revert i. induction a as [|x a IH]; intros i Ha; [done|].
  simpl in *. apply orb_false_elim in Ha as [-> Ha]. by apply IH.
Qed.

Lemma take_app (a b : string) : PyStr.take (String.length a) (a +:+ b) = a.
Proof.
  induction a as [|x a IH].
  - by destruct b.
  - rewrite str_app_cons. simpl. by f_equal.
Qed.

Lemma drop_past (a b : string) (c : ascii) :
  PyStr.drop (S (String.length a)) (a +:+ String c b) = b.
Proof.
  induction a as [|x a IH]; [done|]. rewrite str_app_cons. simpl in *. done.
Qed.

(** A line is cut at its first comma. *)
Lemma slices_at_comma (a b : string) :
  occurs "," a = false →
  let line := a +:+ "," +:+ b in
  PyStr.slice_to line (PyStr.find line ",") = a ∧
  PyStr.slice_from line (PyStr.find line "," + 1) = b.
Proof.
  intros Ha. cbv zeta. unfold PyStr.find.
  change ("," +:+ b) with (String "," b).
  rewrite find_from_app by done. unfold PyStr.slice_to, PyStr.slice_from, PyStr.norm_index.
  pose proof (Nat2Z.is_nonneg (String.length a)) as Hlen.
  destruct (Z.ltb_spec (0 + Z.of_nat (String.length a)) 0) as [?|_]; [lia|].
  destruct (Z.ltb_spec (0 + Z.of_nat (String.length a) + 1) 0) as [?|_]; [lia|].
  replace (Z.to_nat (0 + Z.of_nat (String.length a))) with (String.length a) by lia.
  replace (Z.to_nat (0 + Z.of_nat (String.length a) + 1)) with (S (String.length a)) by lia.
  split; [apply take_app|apply drop_past].
Qed.

Lemma find_without_comma (line : string) :
  occurs "," line = false → PyStr.find line "," = -1.
Proof. apply find_from_none. Qed.

(** ** Canvas size, in general *)

Lemma setdiagsize_at_comma (a b : string) (w : World) :
  occurs "," a = false →
  setdiagsize (a +:+ "," +:+ b) w =
    (x ← int a; y ← int b; modify (with_globals (set_size (x, y)))) w.
Proof.
  intros Ha. unfold setdiagsize.
  destruct (slices_at_comma a b Ha) as [-> ->]. done.
Qed.

Lemma setdiagsize_size_line (x y : Z) (w : World) :
  setdiagsize (size_line x y) w = (Return tt, with_globals (set_size (x, y)) w).
Proof.
  unfold size_line. rewrite setdiagsize_at_comma by apply str_no_comma.
  by rewrite bind_unfold, int_eq, int_str, bind_unfold, int_eq, int_str.
Qed.

(** X3: for all integers [x] and [y], negative ones included, the line
    [str(x) + "," + str(y)] sets the canvas size to [(x, y)] and changes
    nothing else. *)
Theorem setdiagsize_sets_size (x y : Z) (w : World) :
  setdiagsize (size_line x y) w = (Return tt, with_globals (set_size (x, y)) w).
Proof.
  unfold size_line, setdiagsize.
  destruct (slices_at_comma (PyStr.str x) (PyStr.str y) (str_no_comma x)) as [-> ->].
  rewrite bind_unfold, int_eq, int_str.
  by rewrite bind_unfold, int_eq, int_str.
Qed.

Lemma setdiagsize_numeral_first (x : Z) (rest : string) (w : World) :
  setdiagsize (PyStr.str x +:+ "," +:+ rest) w =
    match PyStr.int (unicode (platform w)) rest with
    | Some y => (Return tt, with_globals (set_size (x, y)) w)
    | None => (Raise (ValueError rest), w)
    end.
Proof.
  rewrite setdiagsize_at_comma by apply str_no_comma.
  rewrite bind_unfold, int_eq, int_str, bind_unfold, int_eq.
  by destruct (PyStr.int _ rest).
Qed.


(** The same on a platform that knows the Arabic-Indic digits. *)
Example setdiagsize_arabic_indic :
  setdiagsize ("1," +:+ arabic_indic_four) (boot nothing_installed ∅ ["ipython"])
    = (Return tt, with_globals (set_size (1, 4)) (boot nothing_installed ∅ ["ipython"])).
Proof. reflexivity. Qed.

(** Without a comma, the first number is read from the line less its
    last character, whatever its length in bytes. *)
Example setdiagsize_arabic_indic_no_comma :
  setdiagsize ("4" +:+ arabic_indic_four) (boot nothing_installed ∅ ["ipython"])
    = (Return tt, with_globals (set_size (4, 44)) (boot nothing_installed ∅ ["ipython"])).
Proof. reflexivity. Qed.

Lemma occurs_lstrip (c : ascii) (s : string) :
  Ascii.is_space c = false → occurs c (PyStr.lstrip s) = occurs c s.
Proof.
  intros Hc. induction s as [|a s IH]; [done|]. simpl.
  destruct (Ascii.is_space a) eqn:Ha; [|done].
  rewrite IH. destruct (Ascii.eqb_spec a c) as [->|_]; [congruence|done].
Qed.

Lemma occurs_rev_app (c : ascii) (s1 s2 : string) :
  occurs c (String.rev_app s1 s2) = occurs c s1 || occurs c s2.
Proof.
  revert s2. induction s1 as [|a s1 IH]; intros s2; [done|].
  simpl. rewrite IH. simpl.
  destruct (Ascii.eqb a c), (occurs c s1); simpl; done.
Qed.

Lemma occurs_strip (c : ascii) (s : string) :
  Ascii.is_space c = false → occurs c (PyStr.strip s) = occurs c s.
Proof.
  intros Hc. unfold PyStr.strip, PyStr.rstrip, String.rev.
  rewrite occurs_rev_app, occurs_lstrip, occurs_rev_app, occurs_lstrip by done.
  simpl. by rewrite !orb_false_r.
Qed.

Lemma digits_with_comma (s : string) (acc : Z) :
  occurs "," s = true → PyStr.digits acc s = None.
Proof.
  revert acc. induction s as [|a s IH]; intros acc Hs; [done|].
  simpl in *. destruct (Ascii.is_nat a) as [d|] eqn:Ha; [|done].
  destruct (is_nat_chars a d Ha) as (_ & Hc & _). rewrite Hc in Hs. by apply IH.
Qed.

Lemma unsigned_int_with_comma (s : string) :
  occurs "," s = true → PyStr.unsigned_int s = None.
Proof. destruct s; [done|]. apply digits_with_comma. Qed.

Lemma int_from_string_with_comma (s : string) :
  occurs "," s = true → PyStr.int_from_string s = None.
Proof.
  intros Hs. unfold PyStr.int_from_string.
  rewrite <- (occurs_strip "," s eq_refl) in Hs.
  destruct (PyStr.strip s) as [|a t]; [done|].
  pose proof (unsigned_int_with_comma (String a t) Hs) as Hall.
  destruct a as [[] [] [] [] [] [] [] []]; try exact Hall;
    simpl in Hs; by rewrite unsigned_int_with_comma.
Qed.

Lemma occurs_app (c : ascii) (a b : string) :
  occurs c (a +:+ b) = occurs c a || occurs c b.
Proof.
  induction a as [|x a IH]; [done|]. rewrite str_app_cons. simpl.
  rewrite IH. by destruct (Ascii.eqb x c).
Qed.

(** A comma in the text is a comma in the buffer. *)
Lemma encode_decimal_go_comma (table : string → PyStr.uclass) (c s b : string) :
  occurs "," s = true → PyStr.encode_decimal_go table c s = Some b → occurs "," b = true.
Proof.
  revert c b. induction s as [|a s IH]; intros c b Hs Hb; [done|].
  cbn [PyStr.encode_decimal_go] in Hb. cbn [occurs] in Hs.
  destruct (PyStr.is_continuation a && negb (String.eqb c "")) eqn:Hcont.
  - destruct (Ascii.eqb_spec a ",") as [->|_]; [done|]. by eapply IH.
  - destruct (PyStr.encode_beyond table c) as [out|]; [|done].
    destruct (N_of_ascii a <? 128)%N eqn:Hascii.
    + destruct (PyStr.encode_ascii a) as [e|] eqn:He; [|done].
      destruct (PyStr.encode_decimal_go table "" s) as [rest|] eqn:Hrest; [|done].
      simplify_eq. rewrite !occurs_app.
      destruct (Ascii.eqb_spec a ",") as [->|_].
      * vm_compute in He. simplify_eq. by rewrite orb_true_r.
      * by rewrite (IH _ _ Hs Hrest), !orb_true_r.
    + destruct (PyStr.encode_decimal_go table (String a "") s) as [rest|] eqn:Hrest; [|done].
      simplify_eq. rewrite occurs_app.
      destruct (Ascii.eqb_spec a ",") as [->|_]; [done|].
      by rewrite (IH _ _ Hs Hrest), orb_true_r.
Qed.

(** No text with a comma in it is an integer. *)
Lemma int_with_comma (table : string → PyStr.uclass) (s : string) :
  occurs "," s = true → PyStr.int table s = None.
Proof.
  intros Hs. unfold PyStr.int, PyStr.encode_decimal.
  destruct (PyStr.encode_decimal_go table "" s) as [b|] eqn:Hb; [|done].
  apply int_from_string_with_comma. by eapply encode_decimal_go_comma.
Qed.

(** X5: with a numeral before the first comma and a further comma after
    it, the line is rejected: [ValueError] is raised for the text after
    the first comma and the world is left as it was. *)
Theorem setdiagsize_second_comma (x : Z) (rest : string) (w : World) :
  occurs "," rest = true →
  setdiagsize (PyStr.str x +:+ "," +:+ rest) w = (Raise (ValueError rest), w).
Proof.
  intros Hrest. by rewrite setdiagsize_numeral_first, int_with_comma.
Qed.

(** The theorem at work on ["1,2,3"]. *)
Lemma setdiagsize_second_comma_witness :
  occurs "," "2,3" = true ∧
  setdiagsize (PyStr.str 1 +:+ "," +:+ "2,3") (boot nothing_installed ∅ ["ipython"])
    = (Raise (ValueError "2,3"), boot nothing_installed ∅ ["ipython"]).
Proof.
  split; [reflexivity|].
  apply (setdiagsize_second_comma 1 "2,3" (boot nothing_installed ∅ ["ipython"])).
  reflexivity.
Defined.

(** X6: [setdiagsize] either returns, and then it has changed [_size]
    and nothing else, or raises [ValueError], and then it has changed
    nothing at all. *)
Theorem setdiagsize_all_or_nothing (line : string) (w : World) :
  match setdiagsize line w with
  | (Return _, w') => ∃ x y, w' = with_globals (set_size (x, y)) w
  | (Raise e, w') => (∃ s, e = ValueError s) ∧ w' = w
  end.
Proof.
  destruct (setdiagsize_cases line w) as [(x & y & ->)|(s & ->)]; eauto.
Qed.

(** ** Mode commands *)

(** X7: whatever its line and whatever the world, [setdiagsvg]
    returns, having set the draw and the publish format to ["SVG"] and
    changed nothing else, and [setdiagpng] returns, having set both to
    ["PNG"] and changed nothing else; neither raises.  So of two mode
    commands in a row the second decides: it leaves the world exactly
    as if the first had not been given, and each of the two is
    idempotent. *)
Theorem mode_setters_last_wins (w : World) (l1 l2 : string) :
  let both (m : string) (g : Globals) : Globals :=
    {| _draw_mode := m; _publish_mode := m; _size := _size g;
       _inkscape_available := _inkscape_available g; _loaded := _loaded g |} in
  setdiagsvg l1 w = (Return tt, with_globals (both "SVG") w) ∧
  setdiagpng l1 w = (Return tt, with_globals (both "PNG") w) ∧
  setdiagsvg l2 (setdiagpng l1 w).2 = (Return tt, with_globals (both "SVG") w) ∧
  setdiagpng l2 (setdiagsvg l1 w).2 = (Return tt, with_globals (both "PNG") w) ∧
  setdiagsvg l2 (setdiagsvg l1 w).2 = (Return tt, with_globals (both "SVG") w) ∧
  setdiagpng l2 (setdiagpng l1 w).2 = (Return tt, with_globals (both "PNG") w).
Proof. by repeat split. Qed.

(** X8: in every world a session can reach, SVG is published only from
    an SVG drawing, and an SVG drawing is made for PNG only if the
    converter has been found. *)
Theorem reachable_modes_coherent (p : Platform) (files : gmap string node)
    (argv : list string) (cs : list command) :
  let g := globals (session cs (boot p files argv)) in
  (_publish_mode g = "SVG" → _draw_mode g = "SVG") ∧
  (_draw_mode g = "SVG" → _publish_mode g = "PNG" → _inkscape_available g = Some true).
Proof.
  cbv zeta.
  destruct (session_coherent cs (boot p files argv) init_coherent) as (_ & H1 & H2).
  done.
Qed.

(** ** The cached answer of the probe *)

Lemma force_svg_cache (w : World) (b : bool) :
  _inkscape_available (globals w) = Some b →
  _inkscape_available (globals (force_svg w).2) = Some b.
Proof.
  intros Hc. rewrite force_svg_eq.
  destruct (String.eqb _ "PNG"); [|done].
  rewrite (inkscape_available_cached w b Hc). by destruct b.
Qed.

Lemma step_cache (w : World) (c : command) (b : bool) :
  _inkscape_available (globals w) = Some b →
  _inkscape_available (globals (step w c)) = Some b.
Proof.
  intros Hc. pose proof (exec_diag_globals c w) as Hg.
  destruct c; try (rewrite Hg; by apply force_svg_cache); try done.
  - destruct (setdiagsize_globals line w) as (_ & _ & Hi & _).
    unfold step. simpl. by rewrite Hi.
  - unfold step. simpl. unfold load_ipython_extension. rewrite bind_unfold.
    cbn [gets compose]. by destruct (_loaded (globals w)).
Qed.

Lemma session_cache (cs : list command) (w : World) (b : bool) :
  _inkscape_available (globals w) = Some b →
  _inkscape_available (globals (session cs w)) = Some b.
Proof.
  revert w. induction cs as [|c cs IH]; intros w Hc; [done|].
  simpl. apply IH. by apply step_cache.
Qed.

(** X9: the answer of the probe for the converter is final.  Once
    [inkscape_available] has answered, every later call of it, after
    whatever commands, gives the same answer, starts no process and
    leaves the world untouched, whatever has become of the converter in
    the meantime. *)
Theorem converter_answer_is_final (w : World) (b : bool) (cs : list command) :
  (inkscape_available w).1 = Return b →
  let w' := session cs (inkscape_available w).2 in
  inkscape_available w' = (Return b, w').
Proof.
  intros Hb. cbv zeta. apply inkscape_available_cached, session_cache.
  by apply inkscape_available_caches.
Qed.

(** The theorem at work where the converter is missing. *)
Lemma converter_answer_is_final_witness :
  (inkscape_available (boot (no_converter png_bytes) ∅ ["ipython"])).1 = Return false ∧
  let w' :=
    session [Setdiagpng ""; Blockdiag "" cell_text]
      (inkscape_available (boot (no_converter png_bytes) ∅ ["ipython"])).2 in
  inkscape_available w' = (Return false, w').
Proof.
  assert ((inkscape_available (boot (no_converter png_bytes) ∅ ["ipython"])).1
          = Return false) as Hb by (vm_compute; reflexivity).
  split; [exact Hb|].
  exact (converter_answer_is_final (boot (no_converter png_bytes) ∅ ["ipython"]) false
           [Setdiagpng ""; Blockdiag "" cell_text] Hb).
Defined.

(** ** How often the converter is probed *)

Lemma _inkscape_everywhere (p : Platform) :
  _inkscape p = "/Applications/Inkscape.app/Contents/Resources/bin/inkscape".
Proof. unfold _inkscape. by destruct (String.eqb _ _). Qed.

Lemma probe_argv_everywhere (p p' : Platform) : probe_argv p = probe_argv p'.
Proof. unfold probe_argv. by rewrite !_inkscape_everywhere. Qed.

Lemma probes_app (p : Platform) (l1 l2 : list event) :
  probes p (l1 ++ l2) = (probes p l1 + probes p l2)%nat.
Proof. unfold probes. by rewrite List.filter_app, length_app. Qed.

Lemma is_probe_probe (p p' : Platform) : is_probe p (EvSpawn (probe_argv p')) = true.
Proof.
  simpl. apply bool_decide_eq_true. apply probe_argv_everywhere.
Qed.

Lemma is_probe_tool (p : Platform) (command format : string) (size : Z * Z) (dn : string) :
  is_probe p (EvSpawn (tool_argv command format size dn)) = false.
Proof. simpl. by apply bool_decide_eq_false. Qed.

Lemma is_probe_convert (p p' : Platform) (dn : string) :
  is_probe p (EvSpawn (convert_argv p' dn)) = false.
Proof. simpl. by apply bool_decide_eq_false. Qed.

Lemma probes_cons (p : Platform) (e : event) (l : list event) :
  probes p (e :: l) = ((if is_probe p e then 1 else 0) + probes p l)%nat.
Proof. unfold probes. simpl. by destruct (is_probe p e). Qed.

Lemma probes_nil (p : Platform) : probes p [] = 0%nat.
Proof. done. Qed.

(** The [try] block never starts the probe. *)
Lemma try_block_probes (p : Platform) (w : World) (cell command : string) :
  probes p (trace (try_block w cell command).2) = probes p (trace w).
Proof.
  rewrite try_block_trace. cbv zeta. rewrite probes_app.
  match goal with |- (_ + ?n = _)%nat => assert (n = 0%nat) as ->; [|lia] end.
  rewrite probes_app, !probes_cons, is_probe_tool, probes_nil.
  change (is_probe p (EvMkdtemp ?d)) with false.
  change (is_probe p (EvArgv ?a)) with false.
  destruct (spawn _ _ _ _); [|done].
  rewrite !probes_app, !probes_cons, probes_nil.
  change (is_probe p (EvOpen ?d)) with false.
  change (is_probe p (EvArgv ?a)) with false.
  match goal with |- context [if ?b then [EvSpawn _] else _] => destruct b end;
    rewrite ?probes_cons, ?probes_nil, ?is_probe_convert; done.
Qed.

Lemma force_svg_probes (p : Platform) (w : World) :
  probes p (trace w) =
    match _inkscape_available (globals w) with None => 0%nat | Some _ => 1%nat end →
  probes p (trace (force_svg w).2) =
    match _inkscape_available (globals (force_svg w).2) with
    | None => 0%nat
    | Some _ => 1%nat
    end.
Proof.
  intros Hinv. rewrite force_svg_trace. rewrite force_svg_eq.
  destruct (String.eqb _ "PNG"); [|done].
  rewrite inkscape_available_trace, probes_app, Hinv.
  destruct (inkscape_available_returns w) as [b Hb].
  pose proof (inkscape_available_caches w b Hb) as Hc.
  destruct (_inkscape_available (globals w)) as [b0|] eqn:Hc0.
  - rewrite (inkscape_available_cached w b0 Hc0). destruct b0; simpl; by rewrite Hc0.
  - destruct (inkscape_available w) as [[[]|e] w']; simpl in *; simplify_eq;
      rewrite Hc, probes_cons, is_probe_probe; done.
Qed.

Lemma step_probes (p : Platform) (w : World) (c : command) :
  probes p (trace w) =
    match _inkscape_available (globals w) with None => 0%nat | Some _ => 1%nat end →
  probes p (trace (step w c)) =
    match _inkscape_available (globals (step w c)) with
    | None => 0%nat
    | Some _ => 1%nat
    end.
Proof.
  intros Hinv. pose proof (exec_diag_globals c w) as Hg.
  destruct c;
    try (rewrite Hg; unfold step; simpl;
         unfold actdiag, blockdiag, nwdiag, seqdiag, rackdiag, packetdiag;
         rewrite diag_trace, try_block_probes; by apply force_svg_probes).
  - destruct (setdiagsize_globals line w) as (_ & _ & Hi & _).
    unfold step in *. simpl in *. rewrite Hi.
    by destruct (setdiagsize_cases line w) as [(x & y & ->)|(s & ->)].
  - done.
  - done.
  - unfold step. simpl. unfold load_ipython_extension. rewrite bind_unfold.
    cbn [gets compose]. by destruct (_loaded (globals w)).
Qed.

(** X10: in a whole session the probe for the converter is started at
    most once: not at all as long as [_inkscape_available] is [None],
    and exactly once from the first render with publish format PNG on. *)
Theorem converter_probed_once (p : Platform) (files : gmap string node)
    (argv : list string) (cs : list command) :
  let w := session cs (boot p files argv) in
  probes p (trace w) =
    match _inkscape_available (globals w) with
    | None => 0%nat
    | Some _ => 1%nat
    end.
Proof.
  cbv zeta.
  assert (∀ w,
    probes p (trace w) =
      match _inkscape_available (globals w) with None => 0%nat | Some _ => 1%nat end →
    probes p (trace (session cs w)) =
      match _inkscape_available (globals (session cs w)) with
      | None => 0%nat
      | Some _ => 1%nat
      end) as Hsession.
  { induction cs as [|c cs IH]; intros w Hw; [done|].
    simpl. apply IH. by apply step_probes. }
  by apply Hsession.
Qed.

(** ** More on render calls *)

Lemma try_block_keeps {B} (f : World → B) (w : World) (cell command : string) :
  (∀ g w, f (with_fs g w) = f w) →
  (∀ l w, f (with_stderr l w) = f w) →
  (∀ e w, f (log e w) = f w) →
  (∀ a w, f (with_argv a w) = f w) →
  f (try_block w cell command).2 = f w.
Proof.
  intros f_fs f_stderr f_log f_argv. unfold try_block.
  transitivity (f (with_tmpdir w)); [|unfold with_tmpdir; by rewrite f_log, f_fs].
  generalize (with_tmpdir w).
  change (keeps f (draw (tmpdir_in (fs w)) (cell +:+ newline) command
                   ≫= λ diag_name, read_artifact diag_name)).
  apply keeps_bind; [by apply keeps_draw|intros ?]. by apply keeps_read_artifact.
Qed.

Lemma started_app (l1 l2 : list event) : started (l1 ++ l2) = started l1 ++ started l2.
Proof. apply omap_app. Qed.

(** X11: a render call with publish format SVG has nothing to do with
    the converter: it leaves every module-level variable as it was,
    prints nothing on the error stream, and the only process it starts
    is the dialect tool, once. *)
Theorem svg_render_leaves_converter_alone (w : World) (line cell command : string) :
  _publish_mode (globals w) = "SVG" →
  let r := diag line cell command w in
  globals r.2 = globals w ∧
  stderr r.2 = stderr w ∧
  ∃ evs, trace r.2 = trace w ++ evs ∧ started evs = [tool_args w command].
Proof.
  intros Hp. cbv zeta.
  assert (force_svg w = (Return tt, w)) as Hforce.
  { rewrite force_svg_eq, Hp. done. }
  split; [|split].
  - rewrite diag_render, render_globals. by rewrite Hforce.
  - rewrite diag_render, (render_after_try stderr) by done. rewrite Hforce. simpl.
    unfold try_block. rewrite try_block_eq. cbv zeta. rewrite Hp.
    rewrite andb_false_r.
    destruct (spawn _ _ _ _); simpl; [|done].
    by rewrite (keeps_read_artifact stderr).
  - rewrite diag_trace, try_block_trace. cbv zeta. rewrite Hforce. simpl.
    rewrite Hp, andb_false_r. eexists. split; [reflexivity|].
    unfold tool_args. cbv zeta. rewrite Hforce. simpl.
    by destruct (spawn _ _ _ _).
Qed.

(** The theorem at work on the freshly imported module. *)
Lemma svg_render_leaves_converter_alone_witness :
  _publish_mode (globals (boot (all_installed png_bytes) ∅ ["ipython"])) = "SVG" ∧
  let w := boot (all_installed png_bytes) ∅ ["ipython"] in
  let r := diag "" cell_text "packetdiag" w in
  globals r.2 = globals w ∧
  stderr r.2 = stderr w ∧
  ∃ evs, trace r.2 = trace w ++ evs ∧ started evs = [tool_args w "packetdiag"].
Proof.
  split; [reflexivity|].
  apply (svg_render_leaves_converter_alone
           (boot (all_installed png_bytes) ∅ ["ipython"]) "" cell_text "packetdiag").
  reflexivity.
Defined.

Lemma render_publishes_on_return (w : World) (line cell command : string) :
  let r := diag line cell command w in
  let pm := _publish_mode (globals w) in
  match r.1 with
  | Return _ =>
      ∃ data,
        display r.2 =
          display w ++ [{| source := source_of pm; mime := mime_of pm; payload := data |}]
  | Raise _ => display r.2 = display w
  end.
Proof.
  cbv zeta. rewrite diag_render, render_try_block. cbv zeta.
  destruct (force_svg_globals w) as (Hpm & _).
  pose proof (try_block_keeps display (force_svg w).2 cell command
                ltac:(done) ltac:(done) ltac:(done) ltac:(done)) as Hd.
  rewrite (keeps_force_svg display) in Hd by done.
  pose proof (try_block_keeps globals (force_svg w).2 cell command
                ltac:(done) ltac:(done) ltac:(done) ltac:(done)) as Hg.
  destruct (try_block _ _ _) as [r w1]. simpl in Hd, Hg.
  pose proof (keeps_cleanup display ltac:(done) (tmpdir_in (fs (force_svg w).2)) w1) as Hc.
  pose proof (keeps_cleanup globals ltac:(done) (tmpdir_in (fs (force_svg w).2)) w1) as Hcg.
  destruct (cleanup _ w1) as [[[]|e] w2]; simpl in *; [|congruence].
  destruct r as [data|e]; simpl; [|congruence].
  rewrite publish_eq. simpl. exists data. by rewrite Hc, Hd, Hcg, Hg, Hpm.
Qed.

(** X12: a render call publishes exactly one payload when it returns,
    tagged by the publish format, and none when it raises; what was on
    the display before stays there. *)
Theorem render_publishes_on_return_only (w : World) (line cell command : string) :
  let r := diag line cell command w in
  let pm := _publish_mode (globals w) in
  match r.1 with
  | Return _ =>
      ∃ data,
        display r.2 =
          display w ++ [{| source := source_of pm; mime := mime_of pm; payload := data |}]
  | Raise _ => display r.2 = display w
  end.
Proof.
  cbv zeta. rewrite diag_render, render_try_block. cbv zeta.
  destruct (force_svg_globals w) as (Hpm & _).
  pose proof (try_block_keeps display (force_svg w).2 cell command
                ltac:(done) ltac:(done) ltac:(done) ltac:(done)) as Hd.
  rewrite (keeps_force_svg display) in Hd by done.
  pose proof (try_block_keeps globals (force_svg w).2 cell command
                ltac:(done) ltac:(done) ltac:(done) ltac:(done)) as Hg.
  destruct (try_block _ _ _) as [r w1]. simpl in Hd, Hg.
  pose proof (keeps_cleanup display ltac:(done) (tmpdir_in (fs (force_svg w).2)) w1) as Hc.
  pose proof (keeps_cleanup globals ltac:(done) (tmpdir_in (fs (force_svg w).2)) w1) as Hcg.
  destruct (cleanup _ w1) as [[[]|e] w2]; simpl in *; [|congruence].
  destruct r as [data|e]; simpl; [|congruence].
  rewrite publish_eq. simpl. exists data. by rewrite Hc, Hd, Hcg, Hg, Hpm.
Qed.

(** X13: when the external steps leave nothing at the artifact path
    (whatever the exit status of the tool was), the render call raises
    the file-not-found [IOError] of the read, after the temporary
    directory has been removed, and publishes nothing.  (The
    executables are taken to put nothing but regular files into a
    directory.) *)
Theorem missing_artifact_is_not_found (w : World) (line cell command diag_name : string)
    (w1 : World) :
  keeps_dirs_flat (platform w) →
  external_steps cell command w = (Return diag_name, w1) →
  fs w1 !! artifact_path diag_name (_publish_mode (globals w)) = None →
  let r := diag line cell command w in
  r.1 = Raise (IOError ENOENT) ∧
  display r.2 = display w ∧
  removed (fs r.2) (tmpdir_in (fs (force_svg w).2)).
Proof.
  intros Hp Hext Hfile. cbv zeta. rewrite external_steps_eq in Hext. cbv zeta in Hext.
  destruct (force_svg_globals w) as (Hpm & _).
  assert (globals w1 = globals (force_svg w).2) as Hg.
  { change w1 with (Return diag_name, w1).2. rewrite <- Hext.
    by rewrite (keeps_draw globals). }
  assert (display w1 = display w) as Hdisp.
  { change w1 with (Return diag_name, w1).2. rewrite <- Hext.
    rewrite (keeps_draw display) by done. simpl.
    by apply (keeps_force_svg display). }
  rewrite diag_render.
  destruct (render_flat w cell command Hp) as (files' & Hrm & ->).
  unfold try_block. rewrite bind_unfold, Hext.
  unfold read_artifact. rewrite bind_unfold. cbn [gets compose].
  rewrite Hg, Hpm. unfold read_binary. cbv zeta.
  change (fs (log _ w1)) with (fs w1). unfold artifact_path in Hfile. rewrite Hfile.
  done.
Qed.

(** The theorem at work where the tool runs and writes nothing. *)
Lemma missing_artifact_is_not_found_witness :
  let w := boot silent_tools ∅ ["ipython"] in
  let w1 := (external_steps cell_text "actdiag" w).2 in
  keeps_dirs_flat (platform w) ∧
  external_steps cell_text "actdiag" w = (Return "/tmp/tmpx/tmpx", w1) ∧
  fs w1 !! artifact_path "/tmp/tmpx/tmpx" (_publish_mode (globals w)) = None ∧
  let r := diag "" cell_text "actdiag" w in
  r.1 = Raise (IOError ENOENT) ∧
  display r.2 = display w ∧
  removed (fs r.2) (tmpdir_in (fs (force_svg w).2)).
Proof.
  cbv zeta. set (w := boot silent_tools ∅ ["ipython"]).
  assert (external_steps cell_text "actdiag" w
          = (Return "/tmp/tmpx/tmpx", (external_steps cell_text "actdiag" w).2)) as Hext.
  { rewrite (surjective_pairing (external_steps cell_text "actdiag" w)) at 1.
    f_equal. }
  assert (fs (external_steps cell_text "actdiag" w).2
            !! artifact_path "/tmp/tmpx/tmpx" (_publish_mode (globals w)) = None) as Hfile.
  { vm_compute. reflexivity. }
  split; [apply silent_tools_flat|]. split; [exact Hext|]. split; [exact Hfile|].
  exact (missing_artifact_is_not_found w "" cell_text "actdiag" "/tmp/tmpx/tmpx" _
           silent_tools_flat Hext Hfile).
Defined.

(** ** What a render call leaves on disk *)

Lemma inert_flat (p : Platform) : inert p → keeps_dirs_flat p.
Proof. intros Hp si args files rc files' d Hs. by rewrite (Hp _ _ _ _ _ Hs). Qed.

Lemma run_command_inert (args : list string) (w : World) :
  inert (platform w) → fs (run_command args w).2 = fs w.
Proof.
  intros Hp. rewrite run_command_eq.
  destruct (spawn _ _ _ _) as [rc files'|e] eqn:Hs; simpl; [|done].
  apply (Hp _ _ _ _ _ Hs).
Qed.

Lemma force_svg_inert (w : World) : inert (platform w) → fs (force_svg w).2 = fs w.
Proof.
  intros Hp. rewrite force_svg_eq. destruct (String.eqb _ "PNG"); [|done].
  assert (fs (inkscape_available w).2 = fs w) as Hfs.
  { unfold inkscape_available. rewrite bind_unfold. cbn [gets compose].
    destruct (_inkscape_available (globals w)); [done|].
    rewrite bind_unfold. cbn [gets compose]. rewrite bind_unfold.
    pose proof (run_command_inert [_inkscape (platform w); "--export-png"] w Hp) as Hr.
    destruct (run_command _ w) as [[b|e] w']; simpl in *; done. }
  by destruct (inkscape_available w) as [[[]|e] w'].
Qed.

Lemma try_block_inert (w : World) (cell command : string) :
  inert (platform w) → fs (try_block w cell command).2 = staged (fs w) cell.
Proof.
  intros Hp. unfold try_block. rewrite try_block_eq. cbv zeta.
  destruct (spawn _ _ _ _) as [rc files'|e] eqn:Hs; simpl; [|done].
  rewrite (keeps_read_artifact fs) by done.
  apply Hp in Hs as ->.
  match goal with |- context [if ?b then _ else _] => destruct b end; [|done].
  rewrite svg2png_eq. cbv zeta.
  destruct (spawn _ _ _ _) as [rc' files''|e'] eqn:Hs'; simpl; [|done].
  by apply Hp in Hs'.
Qed.

(** X14: on a platform whose executables write nothing (or cannot be
    started), a render call leaves the file system exactly as it found
    it: the directory and the input file it created are gone again and
    no other path has been touched. *)
Theorem render_restores_files (w : World) (line cell command : string) :
  inert (platform w) → fs (diag line cell command w).2 = fs w.
Proof.
  intros Hp. rewrite diag_render, render_try_block. cbv zeta.
  assert (inert (platform (force_svg w).2)) as Hp0.
  { by rewrite (keeps_force_svg platform). }
  pose proof (try_block_inert _ cell command Hp0) as Hfs.
  pose proof (force_svg_inert w Hp) as Hfs0.
  destruct (try_block _ _ _) as [r w1]. simpl in Hfs.
  destruct (cleanup_flat (tmpdir_in (fs (force_svg w).2)) w1) as (files' & -> & [Hd He] & Hout).
  { rewrite Hfs. apply flat_staged. }
  assert (files' = fs w) as ->.
  { apply map_eq. intros k. rewrite <- Hfs0.
    destruct (decide (k = tmpdir_in (fs (force_svg w).2))) as [->|Hk].
    { by rewrite Hd, tmpdir_in_fresh. }
    destruct (entry_name (tmpdir_in (fs (force_svg w).2)) k) as [n|] eqn:Hn.
    - apply entry_name_Some in Hn as [-> Hs].
      rewrite tmpdir_in_no_child.
      destruct (files' !! (tmpdir_in (fs (force_svg w).2) +:+ "/" +:+ n))
        as [v|] eqn:Hv; [|done].
      assert (n ∈ entries files' (tmpdir_in (fs (force_svg w).2))) as Hin.
      { apply elem_of_entries. eauto. }
      rewrite He in Hin. by apply elem_of_nil in Hin.
    - rewrite Hout, Hfs by done. unfold staged.
      rewrite lookup_insert_ne.
      2:{ rewrite diag_name_in_eq. intros <-.
          by rewrite entry_name_child in Hn by apply has_slash_fresh_tmp. }
      by rewrite lookup_insert_ne. }
  destruct r as [data|e]; [|done]. by rewrite publish_eq.
Qed.

(** The theorem at work where nothing can be started. *)
Lemma render_restores_files_witness :
  inert (platform (boot nothing_installed {[ "/home/u/notes" := File [] ]} ["ipython"])) ∧
  fs (diag "" cell_text "blockdiag"
        (boot nothing_installed {[ "/home/u/notes" := File [] ]} ["ipython"])).2
    = fs (boot nothing_installed {[ "/home/u/notes" := File [] ]} ["ipython"]).
Proof.
  assert (inert (platform (boot nothing_installed {[ "/home/u/notes" := File [] ]}
                             ["ipython"]))) as Hp.
  { intros si args files rc files'. discriminate. }
  split; [exact Hp|].
  exact (render_restores_files _ "" cell_text "blockdiag" Hp).
Defined.

(** ** The canvas size on the command line *)

(** X15: the size given to [setdiagsize] is the size the next render
    call asks the dialect tool for: after the line for [(x, y)], the
    tool is started with [--size] followed by [str(x) + "x" + str(y)]. *)
Theorem size_reaches_the_tool (x y : Z) (w : World) (line cell command : string) :
  let w1 := step w (Setdiagsize (size_line x y)) in
  let w0 := (force_svg w1).2 in
  let format := PyStr.lower (_draw_mode (globals w0)) in
  let diag_name := diag_name_in (fs w0) in
  EvSpawn
    [command; "-T"; format; "--size"; PyStr.str x +:+ "x" +:+ PyStr.str y;
     "-o"; diag_name +:+ "." +:+ format; diag_name]
    ∈ trace (diag line cell command w1).2.
Proof.
  cbv zeta.
  assert (step w (Setdiagsize (size_line x y)) = with_globals (set_size (x, y)) w) as ->.
  { unfold step. cbn [exec]. by rewrite setdiagsize_size_line. }
  rewrite diag_trace, try_block_trace. cbv zeta.
  destruct (force_svg_globals (with_globals (set_size (x, y)) w)) as (_ & -> & _).
  apply elem_of_app. right. unfold tool_argv. simpl.
  apply elem_of_cons. right. apply elem_of_cons. right. apply elem_of_cons. by left.
Qed.

(** ** Exit statuses *)

Section Commutes.
Context (T : World → World).

Lemma commutes_ret {A} (a : A) : commutes T (mret a).
Proof. by intros w. Qed.

Lemma commutes_raise {A} (e : exn) : commutes T (raise (A:=A) e).
Proof. by intros w. Qed.

Lemma commutes_gets {A} (g : World → A) : (∀ w, g (T w) = g w) → commutes T (gets g).
Proof. intros H w. unfold gets. by rewrite H. Qed.

Lemma commutes_modify (g : World → World) :
  (∀ w, g (T w) = T (g w)) → commutes T (modify g).
Proof. intros H w. unfold modify. by rewrite H. Qed.

Lemma commutes_bind {A B} (m : M A) (k : A → M B) :
  commutes T m → (∀ a, commutes T (k a)) → commutes T (m ≫= k).
Proof.
  intros Hm Hk w. rewrite !bind_unfold, Hm.
  destruct (m w) as [[a|e] w']; simpl; [apply Hk|done].
Qed.

Lemma commutes_try_except {A} (m : M A) (h : exn → M A) :
  commutes T m → (∀ e, commutes T (h e)) → commutes T (try_except m h).
Proof.
  intros Hm Hh w. unfold try_except. rewrite Hm.
  destruct (m w) as [[a|e] w']; simpl; [done|apply Hh].
Qed.

Lemma commutes_try_finally {A} (m : M A) (fin : M unit) :
  commutes T m → commutes T fin → commutes T (try_finally m fin).
Proof.
  intros Hm Hfin w. unfold try_finally. rewrite Hm.
  destruct (m w) as [r w']. simpl. rewrite Hfin.
  by destruct (fin w') as [[[]|e] w''].
Qed.

Lemma commutes_for_each {A} (l : list A) (body : A → M unit) :
  (∀ x, commutes T (body x)) → commutes T (for_each l body).
Proof.
  intros Hbody. induction l as [|x l IH]; simpl.
  - apply commutes_ret.
  - by apply commutes_bind.
Qed.

Lemma commutes_if {A} (b : bool) (m1 m2 : M A) :
  commutes T m1 → commutes T m2 → commutes T (if b then m1 else m2).
Proof. by destruct b. Qed.

End Commutes.

(** One step down a computation. *)
Ltac commute_step :=
  match goal with
  | |- commutes _ (mret _) => apply commutes_ret
  | |- commutes _ (raise _) => apply commutes_raise
  | |- commutes _ (gets _) => apply commutes_gets; reflexivity
  | |- commutes _ (modify _) => apply commutes_modify; reflexivity
  | |- commutes _ (if _ then _ else _) => apply commutes_if
  | |- commutes _ (try_except _ _) => apply commutes_try_except; [|intros []]
  | |- commutes _ (try_finally _ _) => apply commutes_try_finally
  | |- commutes _ (for_each _ _) => apply commutes_for_each; intros ?
  | |- commutes _ (let _ := _ in _) => cbv zeta
  | |- commutes _ (match ?x with Some _ => _ | None => _ end) => destruct x
  | |- commutes _ (_ ≫= _) => apply commutes_bind; [|intros ?]
  end.

Section Recode.
Context (f : Z → Z).
Abbreviation T := (with_platform (recode f)).

(** A call whose exit status is not looked at. *)
Lemma commutes_call {B} (args : list string) (si : option Z) (k : Z → M B) :
  (∀ rc rc', k rc = k rc') → (∀ rc, commutes T (k rc)) →
  commutes T (subprocess_call args si ≫= k).
Proof.
  intros Hconst Hk w. rewrite !bind_unfold, !subprocess_call_eq. simpl.
  destruct (spawn (platform w) si args (fs w)) as [rc files'|e]; simpl; [|done].
  rewrite (Hconst (f rc) rc).
  exact (Hk rc (with_fs (λ _, files') (log (EvSpawn args) w))).
Qed.

Lemma commutes_mkdtemp : commutes T mkdtemp.
Proof. by intros w. Qed.

Lemma commutes_mkstemp d : commutes T (mkstemp d).
Proof. intros w. unfold mkstemp. simpl. by repeat case_match. Qed.

Lemma commutes_read_binary p : commutes T (read_binary p).
Proof. intros w. unfold read_binary. simpl. by repeat case_match. Qed.

Lemma commutes_listdir d : commutes T (listdir d).
Proof. intros w. unfold listdir. simpl. by repeat case_match. Qed.

Lemma commutes_unlink p : commutes T (unlink p).
Proof. intros w. unfold unlink. simpl. by repeat case_match. Qed.

Lemma commutes_rmdir d : commutes T (rmdir d).
Proof. intros w. unfold rmdir. simpl. by repeat case_match. Qed.

Ltac commute :=
  repeat first
    [ apply commutes_call; [reflexivity|intros ?]
    | apply commutes_mkdtemp
    | apply commutes_mkstemp
    | apply commutes_read_binary
    | apply commutes_listdir
    | apply commutes_unlink
    | apply commutes_rmdir
    | commute_step ].

Lemma commutes_run_command args : commutes T (run_command args).
Proof. unfold run_command, print_stderr. commute. Qed.

Lemma commutes_inkscape_available : commutes T inkscape_available.
Proof.
  unfold inkscape_available. commute. apply commutes_run_command.
Qed.

Lemma commutes_svg2png filename : commutes T (svg2png filename).
Proof. unfold svg2png. commute. apply commutes_run_command. Qed.

Lemma commutes_diag line cell command : commutes T (diag line cell command).
Proof.
  unfold diag, write_close, publish_display_data. commute.
  - apply commutes_inkscape_available.
  - apply commutes_svg2png.
Qed.

Lemma commutes_exec c : commutes T (exec c).
Proof.
  destruct c; simpl; try apply commutes_diag.
  - unfold setdiagsize, int. commute.
  - unfold setdiagsvg. commute.
  - unfold setdiagpng. commute.
  - unfold load_ipython_extension, register_magics. commute.
Qed.

End Recode.

(** X16: exit statuses are never looked at.  If every exit status [rc]
    of every executable is replaced by [f rc], each command has the same
    outcome and leaves the same world (apart from the platform itself),
    and so does a whole session. *)
Theorem exit_status_is_ignored (f : Z → Z) (cs : list command) (c : command) (w : World) :
  exec c (with_platform (recode f) w) = ((exec c w).1, with_platform (recode f) (exec c w).2) ∧
  session cs (with_platform (recode f) w) = with_platform (recode f) (session cs w).
Proof.
  split; [apply commutes_exec|].
  assert (∀ w c, step (with_platform (recode f) w) c = with_platform (recode f) (step w c))
    as Hstep.
  { intros w' c'. unfold step. by rewrite commutes_exec. }
  revert w. induction cs as [|c' cs IH]; intros w; [done|].
  unfold session in *. cbn [foldl]. rewrite Hstep. apply IH.
Qed.

(** ** From the cell to the display *)

Lemma copy_file_flat (inp out : string) (files files' : gmap string node) (rc : Z)
    (d : string) :
  copy_file inp out files = Exited rc files' → flat_dir files d → flat_dir files' d.
Proof.
  unfold copy_file. intros H Hflat.
  destruct (files !! inp) as [[data|]|]; [|by simplify_eq..].
  destruct (files !! out) as [[data'|]|] eqn:Hout; simplify_eq; [|done|];
    apply flat_insert_file; congruence.
Qed.

Lemma copying_flat : keeps_dirs_flat copying.
Proof.
  intros si args files rc files' d Hs Hflat. cbn [spawn copying] in Hs.
  destruct args as [|a1 [|a2 [|a3 [|a4 [|a5 [|a6 [|a7 [|a8 [|a9 args]]]]]]]]];
    try (by simplify_eq); try (by eapply copy_file_flat).
  destruct (strip_prefix "--export-png=" a3); [by eapply copy_file_flat|by simplify_eq].
Qed.

Lemma suffix_ne (s t : string) : t ≠ "" → s +:+ t ≠ s.
Proof.
  intros Ht H%(f_equal String.length). rewrite str_length_app in H.
  destruct t; [done|]. simpl in H. lia.
Qed.

(** The output path of a tool is free when the tool is started. *)
Lemma staged_output_free (files : gmap string node) (cell ext : string) :
  ext ≠ "" → staged files cell !! (diag_name_in files +:+ ext) = None.
Proof.
  intros Hext. unfold staged.
  rewrite lookup_insert_ne by (symmetry; by apply suffix_ne).
  rewrite diag_name_in_eq, !str_app_assoc.
  rewrite lookup_insert_ne by (symmetry; apply child_ne_dir).
  apply tmpdir_in_no_child.
Qed.

Lemma staged_input (files : gmap string node) (cell : string) :
  staged files cell !! diag_name_in files
    = Some (File (PyStr.encode_utf8 (cell +:+ newline))).
Proof. unfold staged. apply lookup_insert_eq. Qed.

(** What the external steps leave on the copying platform. *)
Lemma copying_external_steps (w : World) (cell command : string) :
  platform w = copying → coherent (globals w) →
  ∃ w1,
    external_steps cell command w = (Return (diag_name_in (fs (force_svg w).2)), w1) ∧
    fs w1 !! artifact_path (diag_name_in (fs (force_svg w).2)) (_publish_mode (globals w))
      = Some (File (PyStr.encode_utf8 (cell +:+ newline))).
Proof.
  intros Hplat Hco.
  pose proof (force_svg_coherent w Hco) as ([Hd Hp] & Hsvg & _).
  destruct (force_svg_globals w) as (Hpm & _).
  assert (platform (force_svg w).2 = copying) as Hplat0.
  { by rewrite (keeps_force_svg platform). }
  rewrite external_steps_eq. cbv zeta.
  rewrite (draw_eq (with_tmpdir (force_svg w).2) (fs (force_svg w).2)) by done.
  cbv zeta. change (platform (with_tmpdir ?x)) with (platform x).
  change (globals (with_tmpdir ?x)) with (globals x).
  rewrite Hplat0. unfold tool_argv. cbn [spawn copying].
  unfold copy_file. rewrite staged_input.
  rewrite staged_output_free by (by destruct (PyStr.lower _)).
  eexists. split; [reflexivity|].
  rewrite <- Hpm. unfold artifact_path.
  set (dn := diag_name_in (fs (force_svg w).2)).
  destruct Hp as [Hp|Hp].
  - rewrite (Hsvg Hp), Hp. simpl. apply lookup_insert_eq.
  - destruct Hd as [Hd|Hd]; rewrite Hd, Hp; simpl.
    + rewrite svg2png_eq. cbv zeta.
      change (platform (after_tool ?a ?b ?c ?d ?e)) with (platform a).
      change (platform (with_tmpdir ?x)) with (platform x).
      rewrite Hplat0. unfold convert_argv. cbn [spawn copying].
      rewrite strip_prefix_app. unfold copy_file. simpl fs.
      rewrite lookup_insert_eq.
      rewrite lookup_insert_ne.
      2:{ intros H%(inj (String.app dn)). done. }
      subst dn. rewrite staged_output_free by done. simpl. apply lookup_insert_eq.
    + apply lookup_insert_eq.
Qed.

(** X17: on a platform where the dialect tools and the converter copy
    their input to their output, a render call in any coherent state
    returns and publishes exactly the UTF-8 bytes of the cell followed
    by a newline: the input file holds the cell with a newline added,
    and the file named after [-o] (or the one the converter is asked to
    write) is the file that is read. *)
Theorem render_publishes_the_cell (w : World) (line cell command : string) :
  platform w = copying →
  coherent (globals w) →
  ∃ w',
    diag line cell command w = (Return tt, w') ∧
    display w' =
      display w ++
      [{| source := source_of (_publish_mode (globals w));
          mime := mime_of (_publish_mode (globals w));
          payload := PyStr.encode_utf8 (cell +:+ newline) |}].
Proof.
  intros Hplat Hco.
  destruct (copying_external_steps w cell command Hplat Hco) as (w1 & Hext & Hfile).
  assert (keeps_dirs_flat (platform w)) as Hflat by (rewrite Hplat; apply copying_flat).
  pose proof (render_publishes_on_return w line cell command) as Hpub.
  destruct (diag_publishes w line cell command _ w1 _ Hflat Hext Hfile)
    as (pub & w' & Hdiag & Hdisp & Hpay & _).
  exists w'. split; [done|].
  cbv zeta in Hpub. rewrite Hdiag in Hpub. simpl in Hpub. destruct Hpub as [data Hdata].
  rewrite Hdata in Hdisp. apply app_inv_head in Hdisp. rewrite Hdata.
  injection Hdisp as <-. simpl in Hpay. by rewrite Hpay.
Qed.

(** The theorem at work on the freshly imported module. *)
Lemma render_publishes_the_cell_witness :
  platform (boot copying ∅ ["ipython"]) = copying ∧
  coherent (globals (boot copying ∅ ["ipython"])) ∧
  ∃ w',
    diag "" cell_text "seqdiag" (boot copying ∅ ["ipython"]) = (Return tt, w') ∧
    display w' =
      display (boot copying ∅ ["ipython"]) ++
      [{| source := source_of (_publish_mode (globals (boot copying ∅ ["ipython"])));
          mime := mime_of (_publish_mode (globals (boot copying ∅ ["ipython"])));
          payload := PyStr.encode_utf8 (cell_text +:+ newline) |}].
Proof.
  split; [reflexivity|]. split; [apply init_coherent|].
  exact (render_publishes_the_cell (boot copying ∅ ["ipython"]) "" cell_text "seqdiag"
           eq_refl init_coherent).
Defined.

(** ** What a render call does to the module-level variables *)

(** X18: a render call never changes the publish format, the canvas
    size, the loaded flag or the registered magics.  It changes the draw
    format only by setting it to ["SVG"], and the cached answer of the
    probe only by filling it in when it was [None]; both only when the
    publish format is ["PNG"]. *)
Theorem render_changes_little (w : World) (line cell command : string) :
  let w' := (diag line cell command w).2 in
  let g := globals w in
  let g' := globals w' in
  _publish_mode g' = _publish_mode g ∧
  _size g' = _size g ∧
  _loaded g' = _loaded g ∧
  registered w' = registered w ∧
  (_draw_mode g' = _draw_mode g ∨ _publish_mode g = "PNG" ∧ _draw_mode g' = "SVG") ∧
  (_inkscape_available g' = _inkscape_available g ∨
   _publish_mode g = "PNG" ∧ _inkscape_available g = None).
Proof.
  cbv zeta. rewrite diag_render, render_globals, render_registered.
  destruct (force_svg_globals w) as (Hp & Hs & Hl & _).
  split; [done|]. split; [done|]. split; [done|]. split; [done|].
  rewrite force_svg_eq.
  destruct (String.eqb_spec (_publish_mode (globals w)) "PNG") as [Hpng|_]; [|by split; left].
  destruct (inkscape_available_globals w) as (Hd & _).
  assert (_inkscape_available (globals (inkscape_available w).2)
            = _inkscape_available (globals w) ∨ _inkscape_available (globals w) = None)
    as Hcache.
  { destruct (_inkscape_available (globals w)) as [b|] eqn:Hc; [left|by right].
    by rewrite (inkscape_available_cached w b Hc). }
  destruct (inkscape_available w) as [[[]|e] w1]; simpl in *.
  - split; [by right|]. destruct Hcache; [by left|by right].
  - split; [by left|]. destruct Hcache; [by left|by right].
  - split; [by left|]. destruct Hcache; [by left|by right].
Qed.
